(** * NexusZero: the Skyblock time engine and the backend workers of main.py

    A shallow embedding of [SkyblockTimers], [MopidyWorker] and
    [MoonrakerWorker] from [src/main.py], with the properties the
    specification states about them.

    Numbers.  Python's [float] timestamps are read as exact rationals
    ([Q], compared with [Qeq]); Python's [int]s are [Z].  Float rounding is
    outside the model: [//] is the floor of the exact quotient and [%]
    the exact remainder with the sign of the divisor.  The range of a
    float is kept where a property depends on it: [Binary64.real_to_sb]
    raises where the code's product overflows.

    Qt.  The slots are modelled with what they raise: [setText] and
    [QListWidgetItem] take a [str] and raise [TypeError] on anything
    else. *)

From Stdlib Require Import ZArith QArith Qround Lqa Lia List DecimalString.
From stdpp Require Import gmap strings list fin_maps.
Import ListNotations.

Local Open Scope Z_scope.
Local Open Scope Q_scope.

(* ===================================================================== *)
(** ** Python arithmetic on floats *)
(* ===================================================================== *)

Module Py.

(** [x // y] on floats: the floor of the quotient, still a float. *)
Definition floordiv (x y : Q) : Q := inject_Z (Qfloor (x / y)).

(** [x % y] on floats, for a divisor [y > 0]: [x - floor(x / y) * y]. *)
Definition mod_ (x y : Q) : Q := x - inject_Z (Qfloor (x / y)) * y.

(** [int(x)]: truncation towards zero. *)
Definition int (x : Q) : Z := Z.quot (Qnum x) (Zpos (Qden x)).

(** [x < y] as the test of an [if]. *)
Definition lt (x y : Q) : bool := negb (Qle_bool y x).

End Py.

(* ===================================================================== *)
(** ** Configuration constants (main.py, lines 57-62) *)
(* ===================================================================== *)

Definition SB_EPOCH_MS : Z := 1560275700000.
Definition SB_REAL_MIN_PER_DAY : Z := 20.
Definition SB_DAYS_PER_MONTH : Z := 31.
Definition SB_HOURS_PER_DAY : Z := 24.
Definition FREE_WILL_CYCLE_HRS : Z := 96.

(* ===================================================================== *)
(** ** SkyblockTimers *)
(* ===================================================================== *)

Module SkyblockTimers.

Definition REAL_SEC_PER_SB_DAY : Z := (SB_REAL_MIN_PER_DAY * 60)%Z.
Definition REAL_SEC_PER_SB_MONTH : Z := (REAL_SEC_PER_SB_DAY * SB_DAYS_PER_MONTH)%Z.
Definition SB_SEC_PER_SB_DAY : Z := (SB_HOURS_PER_DAY * 3600)%Z.

(** The dictionary [real_to_sb] returns, one field per key. *)
Record sb_moment := {
  month : Z;
  day : Z;
  hour : Z;
  min : Z;
  sb_seconds_elapsed : Q;
  sb_time_of_day : Q;
  real_elapsed : Q
}.

Definition real_to_sb (real_epoch_s : Q) : sb_moment :=
  let elapsed_real := real_epoch_s - inject_Z SB_EPOCH_MS / 1000 in
  let elapsed_real := if Py.lt elapsed_real 0 then 0 else elapsed_real in
  let sb_seconds_elapsed :=
    elapsed_real * inject_Z SB_SEC_PER_SB_DAY / inject_Z REAL_SEC_PER_SB_DAY in
  let sb_total_days :=
    Py.int (Py.floordiv sb_seconds_elapsed (inject_Z SB_SEC_PER_SB_DAY)) in
  let sb_time_of_day := Py.mod_ sb_seconds_elapsed (inject_Z SB_SEC_PER_SB_DAY) in
  let sb_month := (sb_total_days / SB_DAYS_PER_MONTH + 1)%Z in
  let sb_day := (sb_total_days mod SB_DAYS_PER_MONTH + 1)%Z in
  let sb_hour := Py.int (Py.floordiv sb_time_of_day 3600) in
  let sb_min := Py.int (Py.floordiv (Py.mod_ sb_time_of_day 3600) 60) in
  {| month := sb_month; day := sb_day; hour := sb_hour; min := sb_min;
     sb_seconds_elapsed := sb_seconds_elapsed;
     sb_time_of_day := sb_time_of_day;
     real_elapsed := elapsed_real |}.

(** The epoch in seconds, [SB_EPOCH_MS / 1000]. *)
Definition epoch_s : Q := inject_Z SB_EPOCH_MS / 1000.

(** [sb_total_days], the local of [real_to_sb] that month and day are
    computed from. *)
Definition sb_total_days (real_epoch_s : Q) : Z :=
  Py.int (Py.floordiv (sb_seconds_elapsed (real_to_sb real_epoch_s))
                      (inject_Z SB_SEC_PER_SB_DAY)).

(** [event_days = [6, 13, 20, 27]], zero-indexed within the month. *)
Definition event_days : list Z := [6; 13; 20; 27]%Z.

(** Position within the current month, in real seconds. *)
Definition real_in_month (real_now_s : Q) : Q :=
  Py.mod_ (real_elapsed (real_to_sb real_now_s)) (inject_Z REAL_SEC_PER_SB_MONTH).

(** One iteration of the [for d in event_days] loop; [best] is [None]
    until a gap has been found. *)
Definition cult_step (real_in_month : Q) (best : option Q) (d : Z) : option Q :=
  let day_start := inject_Z (d * REAL_SEC_PER_SB_DAY) in
  if Py.lt real_in_month day_start then
    let gap := day_start - real_in_month in
    match best with
    | None => Some gap
    | Some b => if Py.lt gap b then Some gap else Some b
    end
  else best.

Definition next_cult_event (real_now_s : Q) : Q :=
  let rim := real_in_month real_now_s in
  let real_per_day := REAL_SEC_PER_SB_DAY in
  match fold_left (cult_step rim) event_days None with
  | Some best => best
  | None =>
      inject_Z REAL_SEC_PER_SB_MONTH - rim
      + inject_Z (List.hd 0%Z event_days * real_per_day)
  end.

Definition free_will_remaining (real_now_s anchor_s : Q) : Q :=
  let cycle_s := inject_Z (FREE_WILL_CYCLE_HRS * 3600) in
  let elapsed := Py.mod_ (real_now_s - anchor_s) cycle_s in
  cycle_s - elapsed.

End SkyblockTimers.

Import SkyblockTimers.

(* ===================================================================== *)
(** ** Python values, exceptions and dictionary access *)
(* ===================================================================== *)

(** The exceptions the workers can meet; all of them derive from
    [Exception], which is what every handler in the workers catches. *)
Inductive exn :=
  | ConnectionError | HTTPError | JSONDecodeError | MPDError
  | KeyError | TypeError | AttributeError | ValueError | IndexError.

(** A call either returns or raises. *)
Inductive result (A : Type) :=
  | Ok (a : A)
  | Raise (e : exn).
Arguments Ok {A} a.
Arguments Raise {A} e.

#[global] Instance result_ret : MRet result := @Ok.
#[global] Instance result_bind : MBind result :=
  fun A B f r => match r with Ok a => f a | Raise e => Raise e end.

#[local] Set Warnings "-register-all".

(** What [json()] and the MPD client hand back: [None], booleans, numbers,
    strings, lists and string-keyed dictionaries. *)
Inductive pyval :=
  | PNone
  | PBool (b : bool)
  | PNum (q : Q)
  | PStr (s : string)
  | PList (l : list pyval)
  | PDict (d : gmap string pyval).

Module Py_obj.

(** [d.get(k, default)] on a dictionary. *)
Definition dict_get (d : gmap string pyval) (k : string) (dflt : pyval) : pyval :=
  default dflt (d !! k).

(** [d[k]] on a dictionary: [KeyError] when the key is absent. *)
Definition dict_item (d : gmap string pyval) (k : string) : result pyval :=
  match d !! k with
  | Some v => Ok v
  | None => Raise KeyError
  end.

(** [v.get(k, default)] on any value: only dictionaries have [get]. *)
Definition get (v : pyval) (k : string) (dflt : pyval) : result pyval :=
  match v with
  | PDict d => Ok (dict_get d k dflt)
  | _ => Raise AttributeError
  end.

(** [v[k]] with a string key on any value. *)
Definition item (v : pyval) (k : string) : result pyval :=
  match v with
  | PDict d => dict_item d k
  | _ => Raise TypeError
  end.

(** Truth value, as [or] and [if] test it. *)
Definition truthy (v : pyval) : bool :=
  match v with
  | PNone => false
  | PBool b => b
  | PNum q => negb (Qeq_bool q 0)
  | PStr s => negb (String.eqb s "")
  | PList l => negb (Nat.eqb (length l) 0)
  | PDict d => negb (Nat.eqb (size d) 0)
  end.

(** [a or b]. *)
Definition or_ (a b : pyval) : pyval := if truthy a then a else b.

(** [v == s] for a string literal [s]. *)
Definition eq_str (v : pyval) (s : string) : bool :=
  match v with
  | PStr s' => String.eqb s' s
  | _ => false
  end.

(** [float(v)]; the parser of numeric strings is a parameter. *)
Definition float (float_of_string : string -> option Q) (v : pyval) : result Q :=
  match v with
  | PNum q => Ok q
  | PBool b => Ok (if b then 1 else 0)
  | PStr s =>
      match float_of_string s with
      | Some q => Ok q
      | None => Raise ValueError
      end
  | _ => Raise TypeError
  end.

(** [args[0]]. *)
Definition first (args : list pyval) : result pyval :=
  match args with
  | a :: _ => Ok a
  | [] => Raise IndexError
  end.

End Py_obj.

(* ===================================================================== *)
(** ** The range of a float *)
(* ===================================================================== *)

Module Binary64.

(** A result of magnitude [2^1024 - 2^970] or more rounds to infinity;
    below it the result is finite. *)
Definition OVERFLOW : Z := (2 ^ 1024 - 2 ^ 970)%Z.

Definition overflows (x : Q) : bool :=
  Qle_bool (inject_Z OVERFLOW) x || Qle_bool x (- inject_Z OVERFLOW).

(** [real_to_sb] with the range of its floats.  The largest intermediate
    value is the product [elapsed_real * SB_SEC_PER_SB_DAY]; when it
    overflows, [sb_seconds_elapsed] is [inf], [inf // 86400] is [nan] and
    [int(nan)] raises [ValueError].  Inside the range the arithmetic is the
    exact one of [SkyblockTimers.real_to_sb]. *)
Definition real_to_sb (real_epoch_s : Q) : result SkyblockTimers.sb_moment :=
  let elapsed_real :=
    SkyblockTimers.real_elapsed (SkyblockTimers.real_to_sb real_epoch_s) in
  if overflows (elapsed_real * inject_Z SkyblockTimers.SB_SEC_PER_SB_DAY)
  then Raise ValueError
  else Ok (SkyblockTimers.real_to_sb real_epoch_s).

End Binary64.

(* ===================================================================== *)
(** ** Fallback data (main.py, lines 88-116) *)
(* ===================================================================== *)

(** A track as [track_updated] carries it. *)
Record track := {
  title : pyval;
  artist : pyval;
  album : pyval;
  duration : Q;
  elapsed : Q;
  tstate : pyval;      (* key "state" *)
  shuffle : bool;
  repeat_ : bool       (* key "repeat" *)
}.

Definition MOCK_TRACK : track := {|
  title := PStr "Mock Song – Connect Mopidy";
  artist := PStr "Unknown Artist";
  album := PStr "Unknown Album";
  duration := 210;
  elapsed := 0;
  tstate := PStr "stop";
  shuffle := false;
  repeat_ := false
|}.

Definition MOCK_PLAYLISTS : list pyval := [
  PStr "🎵 Chill Vibes";
  PStr "🔥 Workout Beats";
  PStr "🌙 Late Night Lo-Fi";
  PStr "🎸 Rock Classics";
  PStr "🎹 Piano Sessions";
  PStr "🌿 Nature Sounds";
  PStr "🚀 Synthwave Drive"
].

(** A printer record as [printer_updated] carries it; the values are
    whatever the JSON held. *)
Record printer := {
  state : pyval;
  progress : pyval;
  hotend_temp : pyval;
  hotend_target : pyval;
  bed_temp : pyval;
  bed_target : pyval
}.

Definition MOCK_PRINTER : printer := {|
  state := PStr "standby";
  progress := PNum 0;
  hotend_temp := PNum 0;
  hotend_target := PNum 0;
  bed_temp := PNum 0;
  bed_target := PNum 0
|}.

(* ===================================================================== *)
(** ** MopidyWorker (main.py, lines 188-284) *)
(* ===================================================================== *)

Module MopidyWorker.

(** The signals of the worker. *)
Inductive signal :=
  | track_updated (t : track)
  | playlists_updated (l : list pyval).

(** The commands [_safe_cmd] sends through the client. *)
Inductive mpd_command :=
  | pause (n : Z)
  | play
  | next
  | previous
  | random (n : Z)
  | repeat (n : Z)
  | clear
  | load (name : pyval).

(** The MPD server as the client library presents it: every call may
    raise and may change the server.  [connect] stands for
    [mpd.MPDClient()] followed by [connect(MOPIDY_HOST, MOPIDY_MPD_PORT)]. *)
Class MPDClient (B : Type) := {
  connect : B -> result unit * B;
  status : B -> result (gmap string pyval) * B;
  currentsong : B -> result (gmap string pyval) * B;
  listplaylists : B -> result (list (gmap string pyval)) * B;
  command : mpd_command -> B -> result unit * B;
  close : B -> result unit * B
}.

(** The worker's fields, the server behind [self._client], and the
    signals emitted so far (oldest first). *)
Record worker (B : Type) := {
  _running : bool;
  _client : bool;          (* [false] is [None], [true] a client object *)
  _connected : bool;
  server : B;
  emitted : list signal
}.
Arguments _running {B} w.
Arguments _client {B} w.
Arguments _connected {B} w.
Arguments server {B} w.
Arguments emitted {B} w.

(** [__init__]. *)
Definition init {B : Type} (b : B) : worker B :=
  {| _running := true; _client := false; _connected := false;
     server := b; emitted := [] |}.

(** Statements of a method: they read and write the worker and may raise.
    What was done before a [raise] stays done. *)
Definition M (B A : Type) : Type := worker B -> result A * worker B.

#[global] Instance M_ret {B} : MRet (M B) := fun A a w => (Ok a, w).
#[global] Instance M_bind {B} : MBind (M B) :=
  fun A1 A2 f m w =>
    match m w with
    | (Ok a, w') => f a w'
    | (Raise e, w') => (Raise e, w')
    end.

Section Methods.
Context {B : Type} `{MPDClient B}.
(** The two module-level facts the worker depends on. *)
Context (MPD_AVAILABLE : bool) (float_of_string : string -> option Q).

Definition set_running (v : bool) : M B unit := fun w =>
  (Ok tt, {| _running := v; _client := _client w; _connected := _connected w;
             server := server w; emitted := emitted w |}).

Definition set_client (v : bool) : M B unit := fun w =>
  (Ok tt, {| _running := _running w; _client := v; _connected := _connected w;
             server := server w; emitted := emitted w |}).

Definition set_connected (v : bool) : M B unit := fun w =>
  (Ok tt, {| _running := _running w; _client := _client w; _connected := v;
             server := server w; emitted := emitted w |}).

(** [signal.emit(...)]. *)
Definition emit (s : signal) : M B unit := fun w =>
  (Ok tt, {| _running := _running w; _client := _client w;
             _connected := _connected w;
             server := server w; emitted := emitted w ++ [s] |}).

(** A call on [self._client]. *)
Definition call {A : Type} (op : B -> result A * B) : M B A := fun w =>
  let '(r, b) := op (server w) in
  (r, {| _running := _running w; _client := _client w;
         _connected := _connected w;
         server := b; emitted := emitted w |}).

(** A pure computation that may raise. *)
Definition lift {A : Type} (r : result A) : M B A := fun w => (r, w).

(** [try: body  except Exception as e: handler]. *)
Definition try_except (body : M B unit) (handler : exn -> M B unit) : M B unit :=
  fun w =>
    match body w with
    | (Ok u, w') => (Ok u, w')
    | (Raise e, w') => handler e w'
    end.

(** [if test: body], the test reading the worker's fields. *)
Definition when_ (test : worker B -> bool) (body : M B unit) : M B unit :=
  fun w => if test w then body w else (Ok tt, w).

(** The [try] block of [_safe_cmd]. *)
Definition cmd_body (cmd : string) (args : list pyval) : M B unit :=
  if String.eqb cmd "play_pause" then
    st ← call status;
    if Py_obj.eq_str (Py_obj.dict_get st "state" PNone) "play"
    then call (command (pause 1))
    else call (command play)
  else if String.eqb cmd "next" then call (command next)
  else if String.eqb cmd "previous" then call (command previous)
  else if String.eqb cmd "random" then
    a ← lift (Py_obj.first args);
    call (command (random (if Py_obj.truthy a then 1 else 0)))
  else if String.eqb cmd "repeat" then
    a ← lift (Py_obj.first args);
    call (command (repeat (if Py_obj.truthy a then 1 else 0)))
  else if String.eqb cmd "load_playlist" then
    call (command clear);;
    a ← lift (Py_obj.first args);
    call (command (load a));;
    call (command play)
  else mret tt.

Definition _safe_cmd (cmd : string) (args : list pyval) : M B unit := fun w =>
  if negb (_connected w) then (Ok tt, w)
  else try_except (cmd_body cmd args) (fun _ => set_connected false) w.

(** The public control methods. *)
Definition play_pause : M B unit := _safe_cmd "play_pause" [].
Definition next_track : M B unit := _safe_cmd "next" [].
Definition prev_track : M B unit := _safe_cmd "previous" [].
Definition shuffle_ (on : pyval) : M B unit := _safe_cmd "random" [on].
Definition loop (on : pyval) : M B unit := _safe_cmd "repeat" [on].
Definition play_playlist (name : pyval) : M B unit :=
  _safe_cmd "load_playlist" [name].

(** Emitting the two fallback values. *)
Definition emit_mock : M B unit :=
  emit (track_updated MOCK_TRACK);;
  emit (playlists_updated MOCK_PLAYLISTS).

Definition _try_connect : M B unit :=
  if negb MPD_AVAILABLE then emit_mock
  else
    try_except
      (set_client true;;
       call connect;;
       set_connected true)
      (fun _ => emit_mock).

(** [[p["playlist"] for p in ...]]. *)
Fixpoint playlist_names (l : list (gmap string pyval)) : result (list pyval) :=
  match l with
  | [] => Ok []
  | p :: l' =>
      n ← Py_obj.dict_item p "playlist";
      ns ← playlist_names l';
      Ok (n :: ns)
  end.

(** The [try] block of [_poll]. *)
Definition poll_body : M B unit :=
  st ← call status;
  song ← call currentsong;
  pls ← call listplaylists;
  playlists ← lift (playlist_names pls);
  dur ← lift (Py_obj.float float_of_string
                (Py_obj.or_ (Py_obj.dict_get st "duration" (PNum 0)) (PNum 0)));
  ela ← lift (Py_obj.float float_of_string
                (Py_obj.or_ (Py_obj.dict_get st "elapsed" (PNum 0)) (PNum 0)));
  let track := {|
    title := Py_obj.dict_get song "title" (PStr "Unknown");
    artist := Py_obj.dict_get song "artist" (PStr "Unknown");
    album := Py_obj.dict_get song "album" (PStr "");
    duration := dur;
    elapsed := ela;
    tstate := Py_obj.dict_get st "state" (PStr "stop");
    shuffle := Py_obj.eq_str (Py_obj.dict_get st "random" (PStr "0")) "1";
    repeat_ := Py_obj.eq_str (Py_obj.dict_get st "repeat" (PStr "0")) "1"
  |} in
  emit (track_updated track);;
  emit (playlists_updated playlists).

Definition _poll : M B unit :=
  try_except poll_body (fun _ => set_connected false).

(** One pass through the body of the [while] loop of [run]. *)
Definition tick : M B unit :=
  when_ (fun w => negb (_connected w)) _try_connect;;
  when_ _connected _poll.

(** [run], cut after [fuel] passes; the loop ends by itself once
    [_running] is false. *)
Fixpoint run (fuel : nat) (w : worker B) : worker B :=
  match fuel with
  | O => w
  | S n => if _running w then run n (snd (tick w)) else w
  end.

Definition stop : M B unit :=
  set_running false;;
  when_ (fun w => _client w && _connected w)
        (try_except (call close) (fun _ => mret tt)).

End Methods.

(** The records that went out through [track_updated], oldest first. *)
Definition track_records (l : list signal) : list track :=
  flat_map (fun s => match s with
                     | track_updated t => [t]
                     | playlists_updated _ => []
                     end) l.

(** Two properties of statements: leaving [_running] as it is, and
    handing no exception to the caller. *)
Definition keeps_running {B A : Type} (m : M B A) : Prop :=
  forall w, _running (snd (m w)) = _running w.

Definition never_raises {B : Type} (m : M B unit) : Prop :=
  forall w, fst (m w) = Ok tt.

(** A statement that at most talks to the server: the worker's fields
    and the emitted signals are as before. *)
Definition only_server {B A : Type} (m : M B A) : Prop :=
  forall w,
    _running (snd (m w)) = _running w
    /\ _client (snd (m w)) = _client w
    /\ _connected (snd (m w)) = _connected w
    /\ emitted (snd (m w)) = emitted w.

(** The invariant behind every call on [self._client]: a connected
    worker has a client object. *)
Definition has_client {B : Type} (w : worker B) : Prop :=
  _connected w = true -> _client w = true.

End MopidyWorker.

(* ===================================================================== *)
(** ** MoonrakerWorker (main.py, lines 291-334) *)
(* ===================================================================== *)

Module MoonrakerWorker.

(** What [requests.get] returns: the status code, and the body as
    [json()] decodes it ([None] for a body that is not JSON). *)
Record response := {
  status_code : Z;
  json : option pyval
}.

(** [r.raise_for_status()]: client and server error codes raise. *)
Definition raise_for_status (r : response) : result unit :=
  if ((400 <=? status_code r) && (status_code r <? 600))%Z
  then Raise HTTPError else Ok tt.

(** [r.json()]. *)
Definition json_ (r : response) : result pyval :=
  match json r with
  | Some v => Ok v
  | None => Raise JSONDecodeError
  end.

(** From [data] to the record: the three sub-objects, an empty
    dictionary standing in for an absent one, then the six fields. *)
Definition normalize (data : pyval) : result printer :=
  stats ← Py_obj.get data "print_stats" (PDict ∅);
  ext ← Py_obj.get data "extruder" (PDict ∅);
  bed ← Py_obj.get data "heater_bed" (PDict ∅);
  st ← Py_obj.get stats "state" (PStr "standby");
  pr ← Py_obj.get stats "progress" (PNum 0);
  ht ← Py_obj.get ext "temperature" (PNum 0);
  hg ← Py_obj.get ext "target" (PNum 0);
  bt ← Py_obj.get bed "temperature" (PNum 0);
  bg ← Py_obj.get bed "target" (PNum 0);
  Ok {| state := st; progress := pr;
        hotend_temp := ht; hotend_target := hg;
        bed_temp := bt; bed_target := bg |}.

(** The [try] block of [_poll], up to the record it would emit. *)
Definition poll_body (get : result response) : result printer :=
  r ← get;
  raise_for_status r;;
  body ← json_ r;
  res ← Py_obj.item body "result";
  data ← Py_obj.item res "status";
  normalize data.

(** [_poll]: the record emitted through [printer_updated], given the
    outcome of [requests.get(url, timeout=3)]. *)
Definition _poll (REQUESTS_AVAILABLE : bool) (get : result response) : printer :=
  if negb REQUESTS_AVAILABLE then MOCK_PRINTER
  else
    match poll_body get with
    | Ok result => result
    | Raise _ => MOCK_PRINTER
    end.

(** [run]: one [_poll] per tick; the list holds the outcome of the
    request of each tick until [stop], and the result the records
    emitted, oldest first. *)
Definition run (REQUESTS_AVAILABLE : bool) (gets : list (result response))
  : list printer :=
  map (_poll REQUESTS_AVAILABLE) gets.

End MoonrakerWorker.

(* ===================================================================== *)
(** ** A scripted MPD server, for concrete runs *)
(* ===================================================================== *)

Module Scripted.
Import MopidyWorker.

(** A server that is reachable or not, answers the three queries from
    fixed tables, and keeps the commands it received (oldest first);
    [random] and [repeat] also show in the status it reports. *)
Record mpd_server := {
  up : bool;
  st : gmap string pyval;
  song : gmap string pyval;
  lists : list (gmap string pyval);
  received : list mpd_command
}.

Definition answer {A : Type} (b : mpd_server) (a : A) : result A * mpd_server :=
  (if up b then Ok a else Raise ConnectionError, b).

Definition flag (n : Z) : pyval := PStr (if (n =? 0)%Z then "0" else "1").

Definition apply_command (c : mpd_command) (b : mpd_server) : mpd_server :=
  let st' :=
    match c with
    | random n => <["random" := flag n]> (st b)
    | repeat n => <["repeat" := flag n]> (st b)
    | _ => st b
    end in
  {| up := up b; st := st'; song := song b; lists := lists b;
     received := received b ++ [c] |}.

#[global] Instance scripted_client : MPDClient mpd_server := {|
  connect b := answer b tt;
  status b := answer b (st b);
  currentsong b := answer b (song b);
  listplaylists b := answer b (lists b);
  command c b := if up b then (Ok tt, apply_command c b)
                 else (Raise ConnectionError, b);
  close b := answer b tt
|}.

(** A server that is down. *)
Definition down_server : mpd_server :=
  {| up := false; st := ∅; song := ∅; lists := []; received := [] |}.

(** A server that is up and playing one song, shuffle off. *)
Definition up_server : mpd_server :=
  {| up := true;
     st := {[ "state" := PStr "play"; "random" := PStr "0";
              "duration" := PNum 180 ]};
     song := {[ "title" := PStr "Song" ]};
     lists := [ {[ "playlist" := PStr "Mix" ]} ];
     received := [] |}.

(** A worker that connected earlier and whose server has gone down
    since. *)
Definition stale_worker : worker mpd_server :=
  {| _running := true; _client := true; _connected := true;
     server := down_server; emitted := [] |}.

(** No numeric string is needed in these runs. *)
Definition no_parse (s : string) : option Q := None.

End Scripted.

(* ===================================================================== *)
(** ** Formatting (main.py, lines 438-447) *)
(* ===================================================================== *)

Module PyStr.

(** The decimal digits of a natural number. *)
Definition digits (n : N) : string := NilZero.string_of_uint (N.to_uint n).

(** [str(z)] for an [int]. *)
Definition of_int (z : Z) : string :=
  if (z <? 0)%Z then "-" +:+ digits (Z.abs_N z) else digits (Z.to_N z).

(** [format(z, "02d")]: at least two characters, zeros after the sign. *)
Definition d02 (z : Z) : string :=
  if (z <? 0)%Z then "-" +:+ digits (Z.abs_N z)
  else
    let s := digits (Z.to_N z) in
    if (String.length s <? 2)%nat then "0" +:+ s else s.

(** [max(a, b)] and [min(a, b)] on floats: the first argument wins a tie. *)
Definition max_ (a b : Q) : Q := if Py.lt a b then b else a.
Definition min_ (a b : Q) : Q := if Py.lt b a then b else a.

End PyStr.

Definition fmt_time (seconds : Q) : string :=
  let s := Py.int seconds in
  if (3600 <=? s)%Z
  then PyStr.d02 (s / 3600) +:+ ":" +:+ PyStr.d02 (s mod 3600 / 60)
       +:+ ":" +:+ PyStr.d02 (s mod 60)
  else PyStr.d02 (s / 60) +:+ ":" +:+ PyStr.d02 (s mod 60).

Definition fmt_countdown (seconds : Q) : string :=
  let s := Z.max 0 (Py.int seconds) in
  let '(h, rem) := (s / 3600, s mod 3600)%Z in
  let '(m, sec) := (rem / 60, rem mod 60)%Z in
  PyStr.d02 h +:+ ":" +:+ PyStr.d02 m +:+ ":" +:+ PyStr.d02 sec.

(* ===================================================================== *)
(** ** AnimatedProgressBar (main.py, lines 469-498) *)
(* ===================================================================== *)

Module AnimatedProgressBar.

(** [setValue]: the new [_value]. *)
Definition setValue (v : Q) : Q := PyStr.max_ 0 (PyStr.min_ 1 v).

(** [fill_w] of [paintEvent], for a widget [w] pixels wide. *)
Definition fill_w (w : Z) (_value : Q) : Z := Py.int (inject_Z w * _value).

End AnimatedProgressBar.

(* ===================================================================== *)
(** ** NowPlayingView.update_track (main.py, lines 614-627) *)
(* ===================================================================== *)

Module NowPlayingView.

(** What [update_track] sets. *)
Record view := {
  title_lbl : pyval;
  artist_lbl : pyval;
  album_lbl : pyval;
  elapsed_lbl : string;
  duration_lbl : string;
  progress_bar : Q;
  play_btn : string;
  _shuffle : bool;
  _loop : bool
}.

Definition update_track (track : track) : view :=
  let elapsed := elapsed track in
  let duration := duration track in
  {| title_lbl := title track;
     artist_lbl := artist track;
     album_lbl := album track;
     elapsed_lbl := fmt_time elapsed;
     duration_lbl := fmt_time duration;
     progress_bar :=
       AnimatedProgressBar.setValue
         (if negb (Qeq_bool duration 0) then elapsed / duration else 0);
     play_btn := if Py_obj.eq_str (tstate track) "play" then "⏸" else "▶";
     _shuffle := shuffle track;
     _loop := repeat_ track |}.

(** The view as [_build_ui] leaves it. *)
Definition init : view :=
  {| title_lbl := PStr "— Not Connected —";
     artist_lbl := PStr "Unknown Artist";
     album_lbl := PStr "";
     elapsed_lbl := "0:00";
     duration_lbl := "0:00";
     progress_bar := 0;
     play_btn := "▶";
     _shuffle := false;
     _loop := false |}.



End NowPlayingView.

(* ===================================================================== *)
(** ** SkyblockSidebar.update_timers (main.py, lines 815-832) *)
(* ===================================================================== *)

Module SkyblockSidebar.

(** What [update_timers] sets. *)
Record view := {
  cult_countdown : string;
  cult_sb_time : string;
  cult_h : Z;
  cult_m : Z;
  cult_date_lbl : string;
  fw_countdown : string;
  fw_progress : Q
}.

Definition update_timers (now _anchor : Q) : view :=
  let sb := real_to_sb now in
  let cult_remaining := next_cult_event now in
  let cult_h := Py.int (Py.floordiv cult_remaining 3600) in
  let cult_m := Py.int (Py.floordiv (Py.mod_ cult_remaining 3600) 60) in
  let fw_remaining := free_will_remaining now _anchor in
  let fw_total := inject_Z (FREE_WILL_CYCLE_HRS * 3600) in
  {| cult_countdown := fmt_countdown cult_remaining;
     cult_sb_time :=
       "SB " +:+ PyStr.d02 (hour sb) +:+ ":" +:+ PyStr.d02 (min sb)
       +:+ "  Day " +:+ PyStr.of_int (day sb);
     cult_h := cult_h;
     cult_m := cult_m;
     cult_date_lbl :=
       "In " +:+ PyStr.of_int cult_h +:+ "h " +:+ PyStr.of_int cult_m
       +:+ "m real time";
     fw_countdown := fmt_countdown fw_remaining;
     fw_progress := AnimatedProgressBar.setValue (fw_remaining / fw_total) |}.

End SkyblockSidebar.

(* ===================================================================== *)
(** ** PlaylistView (main.py, lines 632-695) *)
(* ===================================================================== *)

Module PlaylistView.

(** The part of [QListWidget] the view uses: the item texts in order and
    the current row, -1 when no row is current. *)
Record list_widget := {
  items : list pyval;
  currentRow : Z
}.

Definition count (w : list_widget) : Z := Z.of_nat (length (items w)).

Definition clear (w : list_widget) : list_widget :=
  {| items := []; currentRow := -1 |}.

Definition addItem (pl : pyval) (w : list_widget) : list_widget :=
  {| items := items w ++ [pl]; currentRow := currentRow w |}.

Definition setCurrentRow (r : Z) (w : list_widget) : list_widget :=
  {| items := items w; currentRow := r |}.

(** [currentItem()]: [None] when no row is current. *)
Definition currentItem (w : list_widget) : option pyval :=
  if (currentRow w <? 0)%Z then None else items w !! Z.to_nat (currentRow w).

(** A freshly built view. *)
Definition init : list_widget := {| items := []; currentRow := -1 |}.

Definition update_playlists (playlists : list pyval) (w : list_widget)
  : list_widget :=
  let current := currentRow w in
  let w := clear w in
  let w := fold_left (fun w pl => addItem pl w) playlists w in
  if ((0 <=? current) && (current <? count w))%Z then setCurrentRow current w
  else if negb (count w =? 0)%Z then setCurrentRow 0 w
  else w.

Definition scroll_up (w : list_widget) : list_widget :=
  let r := currentRow w in
  if (0 <? r)%Z then setCurrentRow (r - 1) w else w.

Definition scroll_down (w : list_widget) : list_widget :=
  let r := currentRow w in
  if (r <? count w - 1)%Z then setCurrentRow (r + 1) w else w.

(** [activate_current]: the text sent through [playlist_selected], if a
    row is current. *)
Definition activate_current (w : list_widget) : option pyval := currentItem w.




(** What Qt guarantees of [currentRow()]: -1 or the index of an item. *)
Definition row_ok (w : list_widget) : Prop :=
  (-1 <= currentRow w < count w)%Z.

End PlaylistView.

(* ===================================================================== *)
(** ** InputHandler (main.py, lines 122-181) *)
(* ===================================================================== *)

Module InputHandler.

(** The keys of [KEY_MAP], and every other key code. *)
Inductive key :=
  | Key_Up | Key_Down | Key_Return
  | Key_1 | Key_2 | Key_3 | Key_4 | Key_5 | Key_S
  | Key_other (code : Z).

(** The signals of the handler. *)
Inductive signal :=
  | encoder_up | encoder_down | encoder_click
  | btn_play_pause | btn_next | btn_prev | btn_shuffle | btn_loop
  | btn_sidebar_toggle.

(** [KEY_MAP.get(key)], with the signal for its name. *)
Definition KEY_MAP (k : key) : option signal :=
  match k with
  | Key_Up => Some encoder_up
  | Key_Down => Some encoder_down
  | Key_Return => Some encoder_click
  | Key_1 => Some btn_play_pause
  | Key_2 => Some btn_next
  | Key_3 => Some btn_prev
  | Key_4 => Some btn_shuffle
  | Key_5 => Some btn_loop
  | Key_S => Some btn_sidebar_toggle
  | Key_other _ => None
  end.

(** [handle_key_event]: the signal emitted, if any, and the value
    returned. *)
Definition handle_key_event (k : key) : option signal * bool :=
  match KEY_MAP k with
  | Some s => (Some s, true)
  | None => (None, false)
  end.

End InputHandler.

(* ===================================================================== *)
(** ** MainWindow (main.py, lines 839-1005) *)
(* ===================================================================== *)

Module MainWindow.

Definition VIEW_NOW_PLAYING : Z := 0.
Definition VIEW_PLAYLISTS : Z := 1.

(** The anchor file: what reading it yields ([None] when it cannot be
    read) and whether it can be written. *)
Record anchor_file := {
  content : option string;
  writable : bool
}.

Section Anchor.
(** [float], [str.strip] and [str] on a float are parameters. *)
Context (float_of_string : string -> option Q) (strip : string -> string)
        (str_of_float : Q -> string).

(** [_save_fw_anchor]: a failed write is swallowed. *)
Definition _save_fw_anchor (_fw_anchor : Q) (f : anchor_file) : anchor_file :=
  if writable f
  then {| content := Some (str_of_float _fw_anchor); writable := true |}
  else f.

(** [_load_fw_anchor]: the anchor afterwards, and the file. *)
Definition _load_fw_anchor (_fw_anchor : Q) (f : anchor_file) : Q * anchor_file :=
  match content f with
  | Some c =>
      match float_of_string (strip c) with
      | Some a => (a, f)
      | None => (_fw_anchor, _save_fw_anchor _fw_anchor f)
      end
  | None => (_fw_anchor, _save_fw_anchor _fw_anchor f)
  end.

(** The anchor part of [__init__], started at time [now]. *)
Definition init_anchor (now : Q) (f : anchor_file) : Q * anchor_file :=
  _load_fw_anchor now f.

End Anchor.

(** The fields of the window that its slots read and write, with the
    music worker it owns. *)
Record window (B : Type) := {
  _current_view : Z;
  _sidebar_visible : bool;
  _current_track : track;
  now_playing : NowPlayingView.view;
  playlist_view : PlaylistView.list_widget;
  mopidy_worker : MopidyWorker.worker B
}.
Arguments _current_view {B} w.
Arguments _sidebar_visible {B} w.
Arguments _current_track {B} w.
Arguments now_playing {B} w.
Arguments playlist_view {B} w.
Arguments mopidy_worker {B} w.

Section Slots.
Context {B : Type} `{MopidyWorker.MPDClient B}.
Context (MPD_AVAILABLE : bool) (float_of_string : string -> option Q).

(** [__init__], with the worker as [_wire_workers] creates it. *)
Definition init (b : B) : window B :=
  {| _current_view := VIEW_NOW_PLAYING;
     _sidebar_visible := true;
     _current_track := MOCK_TRACK;
     now_playing := NowPlayingView.init;
     playlist_view := PlaylistView.init;
     mopidy_worker := MopidyWorker.init b |}.

Definition set_view (v : Z) (win : window B) : window B :=
  {| _current_view := v; _sidebar_visible := _sidebar_visible win;
     _current_track := _current_track win; now_playing := now_playing win;
     playlist_view := playlist_view win; mopidy_worker := mopidy_worker win |}.

Definition set_playlist_view (p : PlaylistView.list_widget) (win : window B)
  : window B :=
  {| _current_view := _current_view win; _sidebar_visible := _sidebar_visible win;
     _current_track := _current_track win; now_playing := now_playing win;
     playlist_view := p; mopidy_worker := mopidy_worker win |}.

Definition set_worker (w : MopidyWorker.worker B) (win : window B) : window B :=
  {| _current_view := _current_view win; _sidebar_visible := _sidebar_visible win;
     _current_track := _current_track win; now_playing := now_playing win;
     playlist_view := playlist_view win; mopidy_worker := w |}.

(** A command sent to the worker from the window. *)
Definition send (cmd : MopidyWorker.M B unit) (win : window B) : window B :=
  set_worker (snd (cmd (mopidy_worker win))) win.

Definition _on_track_update (track : track) (win : window B) : window B :=
  {| _current_view := _current_view win; _sidebar_visible := _sidebar_visible win;
     _current_track := track; now_playing := NowPlayingView.update_track track;
     playlist_view := playlist_view win; mopidy_worker := mopidy_worker win |}.

Definition _on_encoder_up (win : window B) : window B :=
  if (_current_view win =? VIEW_PLAYLISTS)%Z
  then set_playlist_view (PlaylistView.scroll_up (playlist_view win)) win
  else win.

Definition _on_encoder_down (win : window B) : window B :=
  if (_current_view win =? VIEW_PLAYLISTS)%Z
  then set_playlist_view (PlaylistView.scroll_down (playlist_view win)) win
  else win.

Definition _on_encoder_click (win : window B) : window B :=
  if (_current_view win =? VIEW_NOW_PLAYING)%Z
  then set_view VIEW_PLAYLISTS win
  else
    let win :=
      match PlaylistView.currentItem (playlist_view win) with
      | Some item => send (MopidyWorker.play_playlist item) win
      | None => win
      end in
    set_view VIEW_NOW_PLAYING win.

Definition _toggle_sidebar (win : window B) : window B :=
  {| _current_view := _current_view win;
     _sidebar_visible := negb (_sidebar_visible win);
     _current_track := _current_track win; now_playing := now_playing win;
     playlist_view := playlist_view win; mopidy_worker := mopidy_worker win |}.

(** The slots [_wire_input] connects to the signals of the handler. *)
Definition on_signal (s : InputHandler.signal) (win : window B) : window B :=
  match s with
  | InputHandler.encoder_up => _on_encoder_up win
  | InputHandler.encoder_down => _on_encoder_down win
  | InputHandler.encoder_click => _on_encoder_click win
  | InputHandler.btn_play_pause => send MopidyWorker.play_pause win
  | InputHandler.btn_next => send MopidyWorker.next_track win
  | InputHandler.btn_prev => send MopidyWorker.prev_track win
  | InputHandler.btn_shuffle =>
      send (MopidyWorker.shuffle_ (PBool (negb (shuffle (_current_track win))))) win
  | InputHandler.btn_loop =>
      send (MopidyWorker.loop (PBool (negb (repeat_ (_current_track win))))) win
  | InputHandler.btn_sidebar_toggle => _toggle_sidebar win
  end.

(** [keyPressEvent]: keys the handler does not know go to Qt. *)
Definition keyPressEvent (k : InputHandler.key) (win : window B) : window B :=
  match fst (InputHandler.handle_key_event k) with
  | Some s => on_signal s win
  | None => win
  end.

(** The slot a signal of the worker reaches. *)
Definition deliver (s : MopidyWorker.signal) (win : window B) : window B :=
  match s with
  | MopidyWorker.track_updated t => _on_track_update t win
  | MopidyWorker.playlists_updated l =>
      set_playlist_view (PlaylistView.update_playlists l (playlist_view win)) win
  end.

(** One tick of the worker, and the window handling what it emitted. *)
Definition worker_tick (win : window B) : window B :=
  let w := mopidy_worker win in
  let w' := snd (MopidyWorker.tick MPD_AVAILABLE float_of_string w) in
  let new := drop (length (MopidyWorker.emitted w)) (MopidyWorker.emitted w') in
  fold_left (fun win s => deliver s win) new (set_worker w' win).





(** [closeEvent], as far as the music worker goes. *)
Definition closeEvent (win : window B) : window B :=
  send MopidyWorker.stop win.

End Slots.

End MainWindow.

(* ===================================================================== *)
(** ** Facts about the arithmetic helpers *)
(* ===================================================================== *)

Section PyArith.

Lemma py_lt_true (x y : Q) : Py.lt x y = true <-> x < y.
Proof.
  unfold Py.lt. rewrite negb_true_iff, <- not_true_iff_false, Qle_bool_iff.
  split; [apply Qnot_le_lt | apply Qlt_not_le].
Qed.

Lemma py_lt_false (x y : Q) : Py.lt x y = false <-> y <= x.
Proof.
  unfold Py.lt. rewrite negb_false_iff. apply Qle_bool_iff.
Qed.

Lemma py_int_inject (z : Z) : Py.int (inject_Z z) = z.
Proof. unfold Py.int. cbn. apply Z.quot_1_r. Qed.

Lemma py_int_floordiv (x y : Q) : Py.int (Py.floordiv x y) = Qfloor (x / y).
Proof. apply py_int_inject. Qed.

(** The floor is the only integer [n] with [n <= q < n + 1]. *)
Lemma Qfloor_unique (q : Q) (n : Z) :
  inject_Z n <= q -> q < inject_Z (n + 1) -> Qfloor q = n.
Proof.
  intros Hlo Hhi.
  pose proof (Qfloor_le q) as Hf. pose proof (Qlt_floor q) as Hc.
  assert (n < Qfloor q + 1)%Z by (rewrite Zlt_Qlt; eapply Qle_lt_trans; eauto).
  assert (Qfloor q < n + 1)%Z by (rewrite Zlt_Qlt; eapply Qle_lt_trans; eauto).
  lia.
Qed.

Lemma Qfloor_nonneg (q : Q) : 0 <= q -> (0 <= Qfloor q)%Z.
Proof. intros H. apply (Qfloor_resp_le 0 q H). Qed.

(** [x % y] lies in [[0, y)] for a positive divisor. *)
Lemma py_mod_bounds (x y : Q) : 0 < y -> 0 <= Py.mod_ x y /\ Py.mod_ x y < y.
Proof.
  intros Hy. unfold Py.mod_.
  pose proof (Qfloor_le (x / y)) as Hf. pose proof (Qlt_floor (x / y)) as Hc.
  assert (Hxy : x / y * y == x) by (field; intros E; rewrite E in Hy; discriminate).
  apply (Qmult_le_r _ _ y Hy) in Hf. apply (Qmult_lt_r _ _ y Hy) in Hc.
  rewrite Hxy in Hf, Hc. rewrite inject_Z_plus in Hc.
  change (inject_Z 1) with 1 in Hc. lra.
Qed.

Lemma py_mod_small (x y : Q) : 0 <= x -> x < y -> Py.mod_ x y == x.
Proof.
  intros Hx Hxy. unfold Py.mod_.
  assert (Hy : 0 < y) by lra.
  assert (Hq : Qfloor (x / y) = 0%Z).
  { apply Qfloor_unique.
    - apply Qle_shift_div_l; [exact Hy |]. change (inject_Z 0) with 0. lra.
    - apply Qlt_shift_div_r; [exact Hy |]. change (inject_Z (0 + 1)) with 1. lra. }
  rewrite Hq. change (inject_Z 0) with 0. lra.
Qed.

(** Whole multiples of the divisor drop out of [%]. *)
Lemma py_mod_add_mul (r y : Q) (n : Z) :
  0 <= r -> r < y -> Py.mod_ (inject_Z n * y + r) y == r.
Proof.
  intros Hr Hry. unfold Py.mod_.
  assert (Hy : 0 < y) by lra.
  assert (Hq : Qfloor ((inject_Z n * y + r) / y) = n).
  { apply Qfloor_unique.
    - apply Qle_shift_div_l; [exact Hy | lra].
    - apply Qlt_shift_div_r; [exact Hy |].
      rewrite inject_Z_plus. change (inject_Z 1) with 1. lra. }
  rewrite Hq. lra.
Qed.

Lemma py_mod_proper : Proper (Qeq ==> Qeq ==> Qeq) Py.mod_.
Proof.
  intros x x' Hx y y' Hy. unfold Py.mod_.
  assert (Hq : Qfloor (x / y) = Qfloor (x' / y')).
  { apply Qfloor_comp. apply Qdiv_comp; assumption. }
  rewrite Hq. apply Qminus_comp; [exact Hx |].
  apply Qmult_comp; [reflexivity | exact Hy].
Qed.

End PyArith.

#[export] Existing Instance py_mod_proper.

(* ===================================================================== *)
(** ** The time engine *)
(* ===================================================================== *)

Section TimeEngine.

Lemma epoch_s_value : epoch_s == 1560275700.
Proof. reflexivity. Qed.

Lemma constants_value :
  REAL_SEC_PER_SB_DAY = 1200%Z /\ REAL_SEC_PER_SB_MONTH = 37200%Z
  /\ SB_SEC_PER_SB_DAY = 86400%Z.
Proof. repeat split. Qed.

Lemma real_elapsed_nonneg (t : Q) : 0 <= real_elapsed (real_to_sb t).
Proof.
  cbn [real_to_sb real_elapsed].
  destruct (Py.lt _ 0) eqn:E; [lra | now apply py_lt_false in E].
Qed.

(** Before (and at) the epoch the elapsed time is clamped to zero. *)
Lemma real_elapsed_clamped (t : Q) :
  t <= epoch_s -> real_elapsed (real_to_sb t) == 0.
Proof.
  intros Ht. cbn [real_to_sb real_elapsed]. fold epoch_s.
  destruct (Py.lt _ 0) eqn:E; [reflexivity |].
  apply py_lt_false in E. lra.
Qed.

Lemma real_elapsed_after (t : Q) :
  epoch_s <= t -> real_elapsed (real_to_sb t) == t - epoch_s.
Proof.
  intros Ht. cbn [real_to_sb real_elapsed]. fold epoch_s.
  destruct (Py.lt _ 0) eqn:E; [| reflexivity].
  apply py_lt_true in E. lra.
Qed.

(** The scaled clock is 72 times the real one. *)
Lemma sb_seconds_elapsed_eq (t : Q) :
  sb_seconds_elapsed (real_to_sb t) == 72 * real_elapsed (real_to_sb t).
Proof.
  cbn [real_to_sb real_elapsed sb_seconds_elapsed].
  change (inject_Z SB_SEC_PER_SB_DAY) with 86400.
  change (inject_Z REAL_SEC_PER_SB_DAY) with 1200. field.
Qed.

Lemma sb_total_days_eq (t : Q) :
  sb_total_days t = Qfloor (real_elapsed (real_to_sb t) / 1200).
Proof.
  unfold sb_total_days. rewrite py_int_floordiv.
  apply Qfloor_comp. rewrite sb_seconds_elapsed_eq.
  change (inject_Z SB_SEC_PER_SB_DAY) with 86400. field.
Qed.

Lemma sb_total_days_nonneg (t : Q) : (0 <= sb_total_days t)%Z.
Proof.
  rewrite sb_total_days_eq. apply Qfloor_nonneg.
  apply Qle_shift_div_l; [reflexivity |].
  pose proof (real_elapsed_nonneg t). lra.
Qed.

Lemma month_eq (t : Q) :
  month (real_to_sb t) = (sb_total_days t / SB_DAYS_PER_MONTH + 1)%Z.
Proof. reflexivity. Qed.

Lemma day_eq (t : Q) :
  day (real_to_sb t) = (sb_total_days t mod SB_DAYS_PER_MONTH + 1)%Z.
Proof. reflexivity. Qed.

Lemma sb_time_of_day_eq (t : Q) :
  sb_time_of_day (real_to_sb t)
  = Py.mod_ (sb_seconds_elapsed (real_to_sb t)) (inject_Z SB_SEC_PER_SB_DAY).
Proof. reflexivity. Qed.

Lemma hour_eq (t : Q) :
  hour (real_to_sb t) = Qfloor (sb_time_of_day (real_to_sb t) / 3600).
Proof. cbn [real_to_sb hour sb_time_of_day]. apply py_int_floordiv. Qed.

Lemma min_eq (t : Q) :
  min (real_to_sb t)
  = Qfloor (Py.mod_ (sb_time_of_day (real_to_sb t)) 3600 / 60).
Proof. cbn [real_to_sb min sb_time_of_day]. apply py_int_floordiv. Qed.

End TimeEngine.

(* ===================================================================== *)
(** ** Concrete runs *)
(* ===================================================================== *)

(** One month and fifty real seconds after the epoch: month 2, day 1,
    01:00. *)
Example real_to_sb_month_2 :
  let m := real_to_sb (1560275700 + 37200 + 50) in
  (month m, day m, hour m, min m) = (2, 1, 1, 0)%Z.
Proof. reflexivity. Qed.

(** Half a real second is 36 derived seconds. *)
Example real_to_sb_half_second :
  sb_time_of_day (real_to_sb (1560275700 + (1 # 2))) == 36.
Proof. reflexivity. Qed.

Example next_cult_event_at_epoch : next_cult_event 1560275700 == 7200.
Proof. reflexivity. Qed.

(** On the last trigger day's first second the countdown wraps. *)
Example next_cult_event_wrap : next_cult_event (1560275700 + 32400) == 12000.
Proof. reflexivity. Qed.

Example free_will_remaining_at_anchor :
  free_will_remaining 1700000000 1700000000 == 345600.
Proof. reflexivity. Qed.

(** Before the anchor the remainder still lies within the cycle. *)
Example free_will_remaining_before_anchor :
  free_will_remaining (1700000000 - 100) 1700000000 == 100.
Proof. reflexivity. Qed.

(** A worker that connects to a running server publishes what it polls,
    and a shuffle command sent while connected shows in the next record. *)
Example connected_shuffle_takes_effect :
  let tick := MopidyWorker.tick true Scripted.no_parse in
  let w1 := snd (tick (MopidyWorker.init Scripted.up_server)) in
  let w2 := snd (MopidyWorker.shuffle_ (PBool true) w1) in
  MopidyWorker._connected w1 = true
  /\ map shuffle (MopidyWorker.track_records (MopidyWorker.emitted w1)) = [false]
  /\ map shuffle (MopidyWorker.track_records (MopidyWorker.emitted (snd (tick w2))))
     = [false; true].
Proof. vm_compute. repeat split. Qed.

(** A printing printer, as Moonraker reports it. *)
Example printer_poll_printing :
  let status : gmap string pyval :=
    {[ "print_stats" := PDict {[ "state" := PStr "printing" ]};
       "extruder" := PDict {[ "temperature" := PNum 210; "target" := PNum 215 ]} ]} in
  let body := PDict {[ "result" := PDict {[ "status" := PDict status ]} ]} in
  MoonrakerWorker._poll true (Ok {| MoonrakerWorker.status_code := 200;
                                    MoonrakerWorker.json := Some body |})
  = {| state := PStr "printing"; progress := PNum 0;
       hotend_temp := PNum 210; hotend_target := PNum 215;
       bed_temp := PNum 0; bed_target := PNum 0 |}.
Proof. reflexivity. Qed.

(** A server error and a body without [result] both give the fallback. *)
Example printer_poll_bad_responses :
  MoonrakerWorker._poll true (Ok {| MoonrakerWorker.status_code := 503;
                                    MoonrakerWorker.json := Some (PDict ∅) |})
  = MOCK_PRINTER
  /\ MoonrakerWorker._poll true (Ok {| MoonrakerWorker.status_code := 200;
                                       MoonrakerWorker.json := Some (PList []) |})
     = MOCK_PRINTER.
Proof. split; reflexivity. Qed.

(* ===================================================================== *)
(** ** Claims on the time engine *)
(* ===================================================================== *)

(** A moment whose elapsed time is zero is the zero moment. *)
Lemma zero_elapsed_moment (t : Q) :
  real_elapsed (real_to_sb t) == 0 ->
  month (real_to_sb t) = 1%Z /\ day (real_to_sb t) = 1%Z
  /\ hour (real_to_sb t) = 0%Z /\ min (real_to_sb t) = 0%Z
  /\ sb_time_of_day (real_to_sb t) == 0.
Proof.
  intros He.
  assert (Hd : sb_total_days t = 0%Z).
  { rewrite sb_total_days_eq.
    transitivity (Qfloor 0); [apply Qfloor_comp | reflexivity].
    rewrite He. reflexivity. }
  assert (Htod : sb_time_of_day (real_to_sb t) == 0).
  { rewrite sb_time_of_day_eq, sb_seconds_elapsed_eq, He.
    apply py_mod_small; [| reflexivity]. lra. }
  rewrite month_eq, day_eq, hour_eq, min_eq, Hd.
  repeat split; try exact Htod.
  - transitivity (Qfloor 0); [apply Qfloor_comp | reflexivity].
    rewrite Htod. reflexivity.
  - transitivity (Qfloor 0); [apply Qfloor_comp | reflexivity].
    rewrite Htod. reflexivity.
Qed.

(** C2: at every instant up to and including the epoch (1560275700 s)
    [real_to_sb] returns the zero moment: month 1, day 1, hour 0,
    minute 0, time of day 0, and nothing negative; the epoch itself is
    such an instant. *)
Theorem real_to_sb_before_epoch (t : Q) :
  t <= 1560275700 ->
  month (real_to_sb t) = 1%Z /\ day (real_to_sb t) = 1%Z
  /\ hour (real_to_sb t) = 0%Z /\ min (real_to_sb t) = 0%Z
  /\ sb_time_of_day (real_to_sb t) == 0
  /\ sb_seconds_elapsed (real_to_sb t) == 0
  /\ real_elapsed (real_to_sb t) == 0.
Proof.
  intros Ht.
  assert (He : real_elapsed (real_to_sb t) == 0).
  { apply real_elapsed_clamped. rewrite epoch_s_value. exact Ht. }
  destruct (zero_elapsed_moment t He) as (Hm & Hd & Hh & Hmi & Htod).
  repeat split; try assumption.
  rewrite sb_seconds_elapsed_eq, He. reflexivity.
Qed.

Lemma real_to_sb_before_epoch_witness :
  1560275700 <= 1560275700
  /\ month (real_to_sb 1560275700) = 1%Z /\ day (real_to_sb 1560275700) = 1%Z
  /\ hour (real_to_sb 1560275700) = 0%Z /\ min (real_to_sb 1560275700) = 0%Z
  /\ sb_time_of_day (real_to_sb 1560275700) == 0
  /\ sb_seconds_elapsed (real_to_sb 1560275700) == 0
  /\ real_elapsed (real_to_sb 1560275700) == 0.
Proof.
  split; [apply Qle_refl |].
  apply (real_to_sb_before_epoch 1560275700). apply Qle_refl.
Defined.

(** C5: at every instant the time of day lies in [[0, 86400)], the day of
    the month in [[1, 31]], and the month is at least 1. *)
Theorem real_to_sb_ranges (t : Q) :
  0 <= sb_time_of_day (real_to_sb t) /\ sb_time_of_day (real_to_sb t) < 86400
  /\ (1 <= day (real_to_sb t) <= 31)%Z
  /\ (1 <= month (real_to_sb t))%Z.
Proof.
  pose proof (py_mod_bounds (sb_seconds_elapsed (real_to_sb t)) 86400) as Hb.
  rewrite <- sb_time_of_day_eq in Hb.
  destruct Hb as [Hlo Hhi]; [reflexivity |].
  pose proof (sb_total_days_nonneg t) as Hd.
  rewrite month_eq, day_eq. unfold SB_DAYS_PER_MONTH.
  pose proof (Z.mod_pos_bound (sb_total_days t) 31 eq_refl).
  pose proof (Z.div_pos (sb_total_days t) 31 Hd eq_refl).
  repeat split; try assumption; lia.
Qed.

(** C9: with 20 real minutes per derived day and 24 derived hours per
    day, one derived day after the epoch T0 = 1560275700 s, at T0 + 1200 s,
    the moment is day 2 of month 1, hour 0, minute 0. *)
Theorem real_to_sb_one_day_after_epoch :
  SB_EPOCH_MS = (1560275700 * 1000)%Z /\ SB_REAL_MIN_PER_DAY = 20%Z
  /\ SB_HOURS_PER_DAY = 24%Z
  /\ month (real_to_sb (1560275700 + 1200)) = 1%Z
  /\ day (real_to_sb (1560275700 + 1200)) = 2%Z
  /\ hour (real_to_sb (1560275700 + 1200)) = 0%Z
  /\ min (real_to_sb (1560275700 + 1200)) = 0%Z.
Proof. repeat split. Qed.

(** After [k] whole months the month number is [k + 1]. *)
Lemma month_after_whole_months (k : Z) :
  (0 <= k)%Z ->
  month (real_to_sb (epoch_s + inject_Z (k * REAL_SEC_PER_SB_MONTH))) = (k + 1)%Z.
Proof.
  intros Hk. rewrite month_eq, sb_total_days_eq.
  assert (He : real_elapsed (real_to_sb (epoch_s + inject_Z (k * REAL_SEC_PER_SB_MONTH)))
               == inject_Z (k * 31) * 1200).
  { rewrite real_elapsed_after.
    - rewrite !inject_Z_mult. change (inject_Z REAL_SEC_PER_SB_MONTH) with 37200.
      change (inject_Z 31) with 31. ring.
    - rewrite <- (Qplus_0_r epoch_s) at 1. apply Qplus_le_r.
      change 0 with (inject_Z 0). rewrite <- Zle_Qle.
      unfold REAL_SEC_PER_SB_MONTH, REAL_SEC_PER_SB_DAY, SB_REAL_MIN_PER_DAY,
        SB_DAYS_PER_MONTH. lia. }
  assert (Hq : Qfloor (real_elapsed
                 (real_to_sb (epoch_s + inject_Z (k * REAL_SEC_PER_SB_MONTH))) / 1200)
               = (k * 31)%Z).
  { transitivity (Qfloor (inject_Z (k * 31))); [apply Qfloor_comp | apply Qfloor_Z].
    rewrite He. field. }
  rewrite Hq. unfold SB_DAYS_PER_MONTH. rewrite Z.div_mul by lia. reflexivity.
Qed.

(** Inside the range of a float the product that decides the overflow
    is below the overflow point. *)
Lemma binary64_in_range (t : Q) (m : sb_moment) :
  Binary64.real_to_sb t = Ok m ->
  m = real_to_sb t
  /\ real_elapsed (real_to_sb t) * 86400 < inject_Z Binary64.OVERFLOW.
Proof.
  unfold Binary64.real_to_sb, Binary64.overflows. cbn zeta.
  change (inject_Z SB_SEC_PER_SB_DAY) with 86400.
  destruct (Qle_bool (inject_Z Binary64.OVERFLOW)
              (real_elapsed (real_to_sb t) * 86400)) eqn:E;
    [cbn [orb]; discriminate |].
  cbn [orb].
  destruct (Qle_bool (real_elapsed (real_to_sb t) * 86400)
              (- inject_Z Binary64.OVERFLOW)); [discriminate |].
  intros Hm. injection Hm as <-. split; [reflexivity |].
  apply Qnot_le_lt. intros Hle. apply Qle_bool_iff in Hle. congruence.
Qed.

Lemma binary64_returns (t : Q) :
  real_elapsed (real_to_sb t) * 86400 < inject_Z Binary64.OVERFLOW ->
  Binary64.real_to_sb t = Ok (real_to_sb t).
Proof.
  intros Hlt. unfold Binary64.real_to_sb, Binary64.overflows. cbn zeta.
  change (inject_Z SB_SEC_PER_SB_DAY) with 86400.
  pose proof (real_elapsed_nonneg t) as Hnn.
  assert (Hpos : 0 < inject_Z Binary64.OVERFLOW) by reflexivity.
  destruct (Qle_bool (inject_Z Binary64.OVERFLOW)
              (real_elapsed (real_to_sb t) * 86400)) eqn:E1.
  - apply Qle_bool_iff in E1. lra.
  - destruct (Qle_bool (real_elapsed (real_to_sb t) * 86400)
                (- inject_Z Binary64.OVERFLOW)) eqn:E2; [| reflexivity].
    apply Qle_bool_iff in E2. lra.
Qed.

(** The whole days counted inside the range of a float. *)
Lemma binary64_days_bound (t : Q) :
  real_elapsed (real_to_sb t) * 86400 < inject_Z Binary64.OVERFLOW ->
  (sb_total_days t * 103680000 < Binary64.OVERFLOW)%Z.
Proof.
  intros Hlt. rewrite sb_total_days_eq.
  pose proof (Qfloor_le (real_elapsed (real_to_sb t) / 1200)) as Hf.
  apply (Qmult_le_r _ _ 1200 eq_refl) in Hf.
  assert (Hd : real_elapsed (real_to_sb t) / 1200 * 1200
               == real_elapsed (real_to_sb t)) by field.
  rewrite Hd in Hf.
  rewrite Zlt_Qlt, inject_Z_mult. change (inject_Z 103680000) with 103680000.
  lra.
Qed.

(** C10, as the code has it: the month is total derived days divided by
    31, plus 1, with no wrap at 12 and no year; it passes every M up to
    5 * 10^298, the instants for that still being inside the range of a
    float. *)
Theorem month_grows_to_float_limit (M : Z) :
  (0 < M)%Z -> (M <= 5 * 10 ^ 298)%Z ->
  exists (t : Q) (m : sb_moment),
    Binary64.real_to_sb t = Ok m
    /\ month m = (sb_total_days t / 31 + 1)%Z
    /\ (M < month m)%Z.
Proof.
  intros HM Hle.
  exists (epoch_s + inject_Z (M * REAL_SEC_PER_SB_MONTH)).
  exists (real_to_sb (epoch_s + inject_Z (M * REAL_SEC_PER_SB_MONTH))).
  split; [| split; [apply month_eq | rewrite month_after_whole_months by lia; lia]].
  apply binary64_returns.
  assert (He : real_elapsed (real_to_sb (epoch_s + inject_Z (M * REAL_SEC_PER_SB_MONTH)))
               == inject_Z (M * 37200)).
  { rewrite real_elapsed_after.
    - change REAL_SEC_PER_SB_MONTH with 37200%Z. ring.
    - rewrite <- (Qplus_0_r epoch_s) at 1. apply Qplus_le_r.
      change 0 with (inject_Z 0). rewrite <- Zle_Qle.
      change REAL_SEC_PER_SB_MONTH with 37200%Z. lia. }
  rewrite He. change 86400 with (inject_Z 86400).
  rewrite <- inject_Z_mult, <- Zlt_Qlt.
  assert (Hc : (5 * 10 ^ 298 * 37200 * 86400 < Binary64.OVERFLOW)%Z)
    by (vm_compute; reflexivity).
  assert (M * 37200 * 86400 <= 5 * 10 ^ 298 * 37200 * 86400)%Z.
  { apply Z.mul_le_mono_nonneg_r; [lia |].
    apply Z.mul_le_mono_nonneg_r; [lia | exact Hle]. }
  lia.
Qed.

Lemma month_grows_to_float_limit_witness :
  exists (t : Q) (m : sb_moment),
    Binary64.real_to_sb t = Ok m
    /\ month m = (sb_total_days t / 31 + 1)%Z
    /\ (12 < month m)%Z.
Proof.
  apply (month_grows_to_float_limit 12); [lia | vm_compute; discriminate].
Defined.

(** C10, as the claim words it, fails: no instant gives a month beyond
    10^299.  Where the float product overflows [real_to_sb] raises, and
    inside the range the month stays below that number. *)
Lemma month_capped_by_float_range :
  ~ exists (t : Q) (m : sb_moment),
      Binary64.real_to_sb t = Ok m /\ (10 ^ 299 < month m)%Z.
Proof.
  intros (t & m & Hm & Hgt).
  destruct (binary64_in_range t m Hm) as [-> Hlt].
  pose proof (binary64_days_bound t Hlt) as Hd.
  rewrite month_eq in Hgt. unfold SB_DAYS_PER_MONTH in Hgt.
  assert (Hc : (Binary64.OVERFLOW <= 31 * (10 ^ 299 - 1) * 103680000)%Z)
    by (vm_compute; discriminate).
  assert (Hlt31 : (sb_total_days t < 31 * (10 ^ 299 - 1))%Z).
  { apply (Z.mul_lt_mono_pos_r 103680000); [lia |].
    eapply Z.lt_le_trans; [exact Hd | exact Hc]. }
  assert (sb_total_days t / 31 < 10 ^ 299 - 1)%Z
    by (apply Z.div_lt_upper_bound; [lia | exact Hlt31]).
  lia.
Qed.

Lemma real_in_month_bounds (t : Q) :
  0 <= real_in_month t /\ real_in_month t < 37200.
Proof. apply py_mod_bounds. reflexivity. Qed.




(** C4: with cycle length L = FREE_WILL_CYCLE_HRS * 3600, at every whole
    multiple of L after the anchor the countdown is exactly L (not 0), and
    strictly between two multiples it is L minus the elapsed remainder. *)
Theorem free_will_remaining_cycle (A : Q) (n : nat) :
  let L := inject_Z (FREE_WILL_CYCLE_HRS * 3600) in
  free_will_remaining (A + inject_Z (Z.of_nat n) * L) A == L
  /\ forall r : Q, 0 < r -> r < L ->
       free_will_remaining (A + inject_Z (Z.of_nat n) * L + r) A == L - r.
Proof.
  intros L. unfold free_will_remaining. fold L.
  assert (HL : 0 < L) by reflexivity.
  split.
  - assert (E : A + inject_Z (Z.of_nat n) * L - A == inject_Z (Z.of_nat n) * L + 0)
      by ring.
    rewrite E, py_mod_add_mul; [ring | lra | exact HL].
  - intros r Hr HrL.
    assert (E : A + inject_Z (Z.of_nat n) * L + r - A == inject_Z (Z.of_nat n) * L + r)
      by ring.
    rewrite E, py_mod_add_mul; [reflexivity | lra | exact HrL].
Qed.

Lemma free_will_remaining_cycle_witness :
  0 < 100 /\ 100 < inject_Z (FREE_WILL_CYCLE_HRS * 3600)
  /\ free_will_remaining
       (1700000000 + inject_Z (Z.of_nat 3) * inject_Z (FREE_WILL_CYCLE_HRS * 3600) + 100)
       1700000000
     == inject_Z (FREE_WILL_CYCLE_HRS * 3600) - 100.
Proof.
  split; [reflexivity |]. split; [reflexivity |].
  apply (free_will_remaining_cycle 1700000000 3); reflexivity.
Defined.

(* ===================================================================== *)
(** ** The printer worker *)
(* ===================================================================== *)

Section Moonraker.
Import MoonrakerWorker.

(** [normalize] on a dictionary, with the three sub-objects resolved. *)
Lemma normalize_dict (m s e b : gmap string pyval) :
  Py_obj.dict_get m "print_stats" (PDict ∅) = PDict s ->
  Py_obj.dict_get m "extruder" (PDict ∅) = PDict e ->
  Py_obj.dict_get m "heater_bed" (PDict ∅) = PDict b ->
  normalize (PDict m)
  = Ok {| state := Py_obj.dict_get s "state" (PStr "standby");
          progress := Py_obj.dict_get s "progress" (PNum 0);
          hotend_temp := Py_obj.dict_get e "temperature" (PNum 0);
          hotend_target := Py_obj.dict_get e "target" (PNum 0);
          bed_temp := Py_obj.dict_get b "temperature" (PNum 0);
          bed_target := Py_obj.dict_get b "target" (PNum 0) |}.
Proof.
  intros Hs He Hb. unfold normalize. cbn [Py_obj.get mbind result_bind].
  rewrite Hs, He, Hb. reflexivity.
Qed.


Lemma poll_raise (avail : bool) (e : exn) : _poll avail (Raise e) = MOCK_PRINTER.
Proof. destruct avail; reflexivity. Qed.

Lemma run_all_fail (avail : bool) (gets : list (result response)) :
  Forall (fun g => exists e, g = Raise e) gets ->
  run avail gets = replicate (length gets) MOCK_PRINTER.
Proof.
  unfold run. induction 1 as [| g gets [e ->] _ IH]; [reflexivity |].
  cbn [map length replicate]. rewrite poll_raise, IH. reflexivity.
Qed.

End Moonraker.




(* ===================================================================== *)
(** ** The music worker *)
(* ===================================================================== *)

Section Mopidy.
Import MopidyWorker.
Context {B : Type} `{MPDClient B}.
Context (MPD_AVAILABLE : bool) (float_of_string : string -> option Q).

(** *** Statements that leave [_running] alone *)

Lemma keeps_bind {A1 A2 : Type} (m : M B A1) (f : A1 -> M B A2) :
  keeps_running m -> (forall a, keeps_running (f a)) -> keeps_running (m ≫= f).
Proof.
  intros Hm Hf w. unfold mbind, M_bind. specialize (Hm w).
  destruct (m w) as [[a | e] w']; cbn [snd] in *.
  - rewrite Hf. exact Hm.
  - exact Hm.
Qed.

Lemma keeps_try (body : M B unit) (handler : exn -> M B unit) :
  keeps_running body -> (forall e, keeps_running (handler e)) ->
  keeps_running (try_except body handler).
Proof.
  intros Hb Hh w. unfold try_except. specialize (Hb w).
  destruct (body w) as [[u | e] w']; cbn [snd] in *.
  - exact Hb.
  - rewrite Hh. exact Hb.
Qed.

Lemma keeps_when (test : worker B -> bool) (body : M B unit) :
  keeps_running body -> keeps_running (when_ test body).
Proof. intros Hb w. unfold when_. destruct (test w); [apply Hb | reflexivity]. Qed.

Lemma keeps_call {A : Type} (op : B -> result A * B) : keeps_running (call op).
Proof. intros w. unfold call. destruct (op (server w)). reflexivity. Qed.

Lemma keeps_lift {A : Type} (r : result A) : keeps_running (lift (B := B) r).
Proof. intros w. reflexivity. Qed.

Lemma keeps_emit (s : signal) : keeps_running (emit (B := B) s).
Proof. intros w. reflexivity. Qed.

Lemma keeps_set_connected (v : bool) : keeps_running (set_connected (B := B) v).
Proof. intros w. reflexivity. Qed.

Lemma keeps_set_client (v : bool) : keeps_running (set_client (B := B) v).
Proof. intros w. reflexivity. Qed.

Lemma keeps_ret {A : Type} (a : A) : keeps_running (mret (M := M B) a).
Proof. intros w. reflexivity. Qed.

Lemma keeps_emit_mock : keeps_running (emit_mock (B := B)).
Proof. apply keeps_bind; intros; apply keeps_emit. Qed.

Lemma keeps_try_connect : keeps_running (_try_connect MPD_AVAILABLE).
Proof.
  unfold _try_connect. destruct (negb MPD_AVAILABLE); [apply keeps_emit_mock |].
  apply keeps_try; [| intros; apply keeps_emit_mock].
  apply keeps_bind; [apply keeps_set_client | intros _].
  apply keeps_bind; [apply keeps_call | intros _; apply keeps_set_connected].
Qed.

Lemma keeps_poll : keeps_running (_poll float_of_string).
Proof.
  apply keeps_try; [| intros; apply keeps_set_connected].
  unfold poll_body.
  repeat (apply keeps_bind;
          [first [apply keeps_call | apply keeps_lift | apply keeps_emit] | intros ?]).
  apply keeps_emit.
Qed.

Lemma keeps_tick : keeps_running (tick MPD_AVAILABLE float_of_string).
Proof.
  apply keeps_bind; [apply keeps_when, keeps_try_connect |].
  intros _. apply keeps_when, keeps_poll.
Qed.

(** *** Statements that never raise *)

Lemma never_bind (m k : M B unit) :
  never_raises m -> never_raises k -> never_raises (m ;; k).
Proof.
  intros Hm Hk w. unfold mbind, M_bind. specialize (Hm w).
  destruct (m w) as [[u | e] w']; cbn [fst] in *; [apply Hk | discriminate].
Qed.

Lemma never_try (body : M B unit) (handler : exn -> M B unit) :
  (forall e, never_raises (handler e)) -> never_raises (try_except body handler).
Proof.
  intros Hh w. unfold try_except.
  destruct (body w) as [[[] | e] w']; [reflexivity | apply Hh].
Qed.

Lemma never_when (test : worker B -> bool) (body : M B unit) :
  never_raises body -> never_raises (when_ test body).
Proof. intros Hb w. unfold when_. destruct (test w); [apply Hb | reflexivity]. Qed.

Lemma never_emit_mock : never_raises (emit_mock (B := B)).
Proof. intros w. reflexivity. Qed.

Lemma never_try_connect : never_raises (_try_connect MPD_AVAILABLE).
Proof.
  unfold _try_connect. destruct (negb MPD_AVAILABLE); [apply never_emit_mock |].
  apply never_try. intros _. apply never_emit_mock.
Qed.

Lemma never_poll : never_raises (_poll float_of_string).
Proof. apply never_try. intros _ w. reflexivity. Qed.

Lemma never_tick : never_raises (tick MPD_AVAILABLE float_of_string).
Proof.
  apply never_bind; apply never_when; [apply never_try_connect | apply never_poll].
Qed.

Lemma never_safe_cmd (cmd : string) (args : list pyval) :
  never_raises (_safe_cmd cmd args).
Proof.
  intros w. unfold _safe_cmd. destruct (negb (_connected w)); [reflexivity |].
  apply never_try. intros _ w'. reflexivity.
Qed.

End Mopidy.

Section MopidyTicks.
Import MopidyWorker.
Context {B : Type} `{MPDClient B}.
Context (MPD_AVAILABLE : bool) (float_of_string : string -> option Q).

Lemma emit_mock_spec (w : worker B) :
  _connected (snd (emit_mock w)) = _connected w
  /\ emitted (snd (emit_mock w))
   = emitted w ++ [track_updated MOCK_TRACK; playlists_updated MOCK_PLAYLISTS].
Proof.
  unfold emit_mock, mbind, M_bind, emit. cbn.
  rewrite <- app_assoc. split; reflexivity.
Qed.

(** A failed connection attempt emits the two fallback values and
    leaves the worker disconnected. *)
Lemma try_connect_fails (w : worker B) :
  MPD_AVAILABLE = false \/ (exists e, fst (connect (server w)) = Raise e) ->
  _connected (snd (_try_connect MPD_AVAILABLE w)) = _connected w
  /\ emitted (snd (_try_connect MPD_AVAILABLE w))
   = emitted w ++ [track_updated MOCK_TRACK; playlists_updated MOCK_PLAYLISTS].
Proof.
  intros Hf. unfold _try_connect.
  destruct MPD_AVAILABLE; cbn [negb].
  - destruct Hf as [Hf | [e He]]; [discriminate |].
    unfold try_except, mbind, M_bind, set_client, call. cbn [server].
    destruct (connect (server w)) as [r b]. cbn [fst] in He. subst r.
    cbn. apply (emit_mock_spec
                  {| _running := _running w; _client := true;
                     _connected := _connected w; server := b;
                     emitted := emitted w |}).
  - apply emit_mock_spec.
Qed.

Lemma tick_connect_fails (w : worker B) :
  _connected w = false ->
  MPD_AVAILABLE = false \/ (exists e, fst (connect (server w)) = Raise e) ->
  _connected (snd (tick MPD_AVAILABLE float_of_string w)) = false
  /\ emitted (snd (tick MPD_AVAILABLE float_of_string w))
   = emitted w ++ [track_updated MOCK_TRACK; playlists_updated MOCK_PLAYLISTS].
Proof.
  intros Hc Hf. destruct (try_connect_fails w Hf) as [Hc' He'].
  pose proof (never_try_connect MPD_AVAILABLE w) as Hok.
  unfold tick, mbind, M_bind, when_. rewrite Hc. cbn [negb].
  destruct (_try_connect MPD_AVAILABLE w) as [[[] | e] w']; cbn [fst snd] in *;
    [| discriminate].
  rewrite Hc', Hc. cbn [snd]. split; [congruence | exact He'].
Qed.

(** When the [try] block of [_poll] raises, nothing has been emitted. *)
Lemma poll_body_raise (w : worker B) (e : exn) :
  fst (poll_body float_of_string w) = Raise e ->
  emitted (snd (poll_body float_of_string w)) = emitted w.
Proof.
  unfold poll_body, mbind, M_bind, call, lift.
  destruct (status (server w)) as [[st | e1] b1]; [| reflexivity].
  cbn [server]. destruct (currentsong b1) as [[so | e2] b2]; [| reflexivity].
  cbn [server]. destruct (listplaylists b2) as [[pl | e3] b3]; [| reflexivity].
  destruct (playlist_names pl) as [names | e4]; [| reflexivity].
  destruct (Py_obj.float _ _) as [d | e5]; [| reflexivity].
  destruct (Py_obj.float _ _) as [el | e6]; [| reflexivity].
  cbn. discriminate.
Qed.

(** A tick of a connected worker whose poll fails. *)
Lemma tick_poll_fails (w : worker B) (e : exn) :
  _connected w = true ->
  fst (poll_body float_of_string w) = Raise e ->
  emitted (snd (tick MPD_AVAILABLE float_of_string w)) = emitted w
/\ _connected (snd (tick MPD_AVAILABLE float_of_string w)) = false.
Proof.
  intros Hc Hp. pose proof (poll_body_raise w e Hp) as He.
  unfold tick, mbind, M_bind, when_. rewrite Hc. cbn [negb].
  rewrite Hc. unfold _poll, try_except.
  destruct (poll_body float_of_string w) as [[u | e'] w']; cbn [fst snd] in *;
    [discriminate |].
  split; [exact He | reflexivity].
Qed.

Lemma run_S (n : nat) (w : worker B) :
  _running w = true ->
run MPD_AVAILABLE float_of_string (S n) w
= run MPD_AVAILABLE float_of_string n (snd (tick MPD_AVAILABLE float_of_string w)).
Proof. intros Hr. cbn [run]. rewrite Hr. reflexivity. Qed.

Lemma run_running (n : nat) (w : worker B) :
_running (run MPD_AVAILABLE float_of_string n w) = _running w.
Proof.
  revert w. induction n as [| n IH]; intros w; [reflexivity |].
  cbn [run]. destruct (_running w) eqn:Hr; [| exact Hr].
  rewrite IH, keeps_tick. exact Hr.
Qed.

(** One more tick at the end of a run. *)
Lemma run_snoc (n : nat) (w : worker B) :
  _running w = true ->
run MPD_AVAILABLE float_of_string (S n) w
= snd (tick MPD_AVAILABLE float_of_string (run MPD_AVAILABLE float_of_string n w)).
Proof.
  revert w. induction n as [| n IH]; intros w Hr.
  - cbn [run]. rewrite Hr. reflexivity.
  - rewrite run_S by exact Hr. rewrite IH by (rewrite keeps_tick; exact Hr).
    rewrite (run_S n w Hr). reflexivity.
Qed.

(** [n] ticks that all fail to connect. *)
Lemma run_all_connects_fail (n : nat) (w : worker B) :
  _running w = true -> _connected w = false ->
  (forall k, (k < n)%nat ->
     MPD_AVAILABLE = false
     \/ exists e,
        fst (connect (server (run MPD_AVAILABLE float_of_string k w))) = Raise e) ->
  _connected (run MPD_AVAILABLE float_of_string n w) = false
  /\ emitted (run MPD_AVAILABLE float_of_string n w)
   = emitted w
     ++ concat (replicate n [track_updated MOCK_TRACK;
                             playlists_updated MOCK_PLAYLISTS]).
Proof.
  intros Hr Hc. induction n as [| n IH]; intros Hf.
  - cbn. rewrite app_nil_r. split; [exact Hc | reflexivity].
  - destruct IH as [IHc IHe]; [intros k Hk; apply Hf; lia |].
    rewrite run_snoc by exact Hr.
    destruct (tick_connect_fails (run MPD_AVAILABLE float_of_string n w) IHc
              (Hf n (Nat.lt_succ_diag_r n)))
      as [Hc' He'].
    split; [exact Hc' |].
    rewrite He', IHe, <- app_assoc. f_equal.
    replace (S n) with (n + 1)%nat by lia.
    rewrite replicate_add, concat_app. cbn. reflexivity.
Qed.

End MopidyTicks.

Section TrackRecords.
Import MopidyWorker.

Lemma track_records_app (l1 l2 : list signal) :
  track_records (l1 ++ l2) = track_records l1 ++ track_records l2.
Proof. unfold track_records. apply flat_map_app. Qed.

Lemma track_records_mock (n : nat) :
  track_records
    (concat (replicate n [track_updated MOCK_TRACK; playlists_updated MOCK_PLAYLISTS]))
  = replicate n MOCK_TRACK.
Proof.
  induction n as [| n IH]; [reflexivity |].
  cbn [replicate concat]. rewrite track_records_app, IH. reflexivity.
Qed.

End TrackRecords.

(* ===================================================================== *)
(** ** Claims on the workers *)
(* ===================================================================== *)

(** C3, as the code has it: when the poll of a connected music worker
    raises, that tick publishes nothing, neither a partial result nor the
    fallback record; the worker becomes disconnected and no exception
    reaches the caller of the loop.  The fallback record goes out on the
    following tick, if its connection attempt fails. *)
Theorem poll_failure_tick {B : Type} `{MopidyWorker.MPDClient B}
    (MPD_AVAILABLE : bool) (float_of_string : string -> option Q)
    (w : MopidyWorker.worker B) (e : exn) :
  let tick := MopidyWorker.tick MPD_AVAILABLE float_of_string in
  MopidyWorker._connected w = true ->
  fst (MopidyWorker.poll_body float_of_string w) = Raise e ->
  fst (tick w) = Ok tt
  /\ MopidyWorker.emitted (snd (tick w)) = MopidyWorker.emitted w
  /\ MopidyWorker._connected (snd (tick w)) = false
  /\ (MPD_AVAILABLE = false
      \/ (exists e', fst (MopidyWorker.connect (MopidyWorker.server (snd (tick w))))
                     = Raise e') ->
      MopidyWorker.emitted (snd (tick (snd (tick w))))
      = MopidyWorker.emitted w
        ++ [MopidyWorker.track_updated MOCK_TRACK;
            MopidyWorker.playlists_updated MOCK_PLAYLISTS]).
Proof.
  intros tick Hc Hp. subst tick.
  destruct (tick_poll_fails MPD_AVAILABLE float_of_string w e Hc Hp) as [He Hd].
  split; [apply never_tick |]. split; [exact He |]. split; [exact Hd |].
  intros Hf.
  destruct (tick_connect_fails MPD_AVAILABLE float_of_string _ Hd Hf) as [_ He'].
  rewrite He', He. reflexivity.
Qed.

Lemma poll_failure_tick_witness :
  let w := Scripted.stale_worker in
  let tick := MopidyWorker.tick true Scripted.no_parse in
  MopidyWorker._connected w = true
  /\ fst (MopidyWorker.poll_body Scripted.no_parse w) = Raise ConnectionError
  /\ fst (tick w) = Ok tt
  /\ MopidyWorker.emitted (snd (tick w)) = MopidyWorker.emitted w
  /\ MopidyWorker._connected (snd (tick w)) = false.
Proof.
  intros w tick.
  assert (Hc : MopidyWorker._connected w = true) by reflexivity.
  assert (Hp : fst (MopidyWorker.poll_body Scripted.no_parse w) = Raise ConnectionError)
    by reflexivity.
  split; [exact Hc |]. split; [exact Hp |].
  destruct (poll_failure_tick true Scripted.no_parse w ConnectionError Hc Hp)
    as (H1 & H2 & H3 & _).
  split; [exact H1 |]. split; [exact H2 | exact H3].
Defined.

(** C3, as the claim words it, fails: a connected worker whose server has
    gone down polls, the poll raises, and the tick ends without the
    fallback record having been emitted. *)
Lemma poll_failure_no_fallback :
  let w := Scripted.stale_worker in
  let w' := snd (MopidyWorker.tick true Scripted.no_parse w) in
  MopidyWorker._connected w = true
  /\ fst (MopidyWorker.poll_body Scripted.no_parse w) = Raise ConnectionError
  /\ MopidyWorker.emitted w' = []
  /\ ~ In (MopidyWorker.track_updated MOCK_TRACK) (MopidyWorker.emitted w').
Proof.
  cbv zeta. split; [reflexivity |]. split; [reflexivity |].
  split; [reflexivity |]. intros [].
Qed.

(** C6: a worker whose connection attempt fails on each of N consecutive
    ticks publishes exactly N fallback records over those ticks (the music
    worker N times the fallback track, each followed by the fallback
    playlists; the printer worker N times the fallback printer record) and
    is not connected at any tick boundary among them. *)
Theorem failing_connections_publish_fallbacks
    {B : Type} `{MopidyWorker.MPDClient B}
    (MPD_AVAILABLE : bool) (float_of_string : string -> option Q)
    (REQUESTS_AVAILABLE : bool)
    (w : MopidyWorker.worker B) (gets : list (result MoonrakerWorker.response))
    (N : nat) :
  let run := MopidyWorker.run MPD_AVAILABLE float_of_string in
  (0 < N)%nat ->
  MopidyWorker._running w = true ->
  MopidyWorker._connected w = false ->
  (forall k, (k < N)%nat ->
     MPD_AVAILABLE = false
     \/ exists e, fst (MopidyWorker.connect (MopidyWorker.server (run k w))) = Raise e) ->
  length gets = N ->
  Forall (fun g => exists e, g = Raise e) gets ->
  (forall k, (k <= N)%nat -> MopidyWorker._connected (run k w) = false)
  /\ MopidyWorker.emitted (run N w)
     = MopidyWorker.emitted w
       ++ concat (replicate N [MopidyWorker.track_updated MOCK_TRACK;
                               MopidyWorker.playlists_updated MOCK_PLAYLISTS])
  /\ MopidyWorker.track_records (MopidyWorker.emitted (run N w))
     = MopidyWorker.track_records (MopidyWorker.emitted w) ++ replicate N MOCK_TRACK
  /\ MoonrakerWorker.run REQUESTS_AVAILABLE gets = replicate N MOCK_PRINTER.
Proof.
  intros run _ Hr Hc Hf Hlen Hgets.
  assert (Hall : forall k, (k <= N)%nat ->
            MopidyWorker._connected (run k w) = false
            /\ MopidyWorker.emitted (run k w)
               = MopidyWorker.emitted w
                 ++ concat (replicate k [MopidyWorker.track_updated MOCK_TRACK;
                                         MopidyWorker.playlists_updated MOCK_PLAYLISTS])).
  { intros k Hk. apply run_all_connects_fail; try assumption.
    intros j Hj. apply Hf. lia. }
  split; [intros k Hk; apply (Hall k Hk) |].
  destruct (Hall N (Nat.le_refl N)) as [_ He].
  split; [exact He |]. split.
  - rewrite He, track_records_app, track_records_mock. reflexivity.
  - rewrite <- Hlen. apply run_all_fail. exact Hgets.
Qed.

Lemma failing_connections_publish_fallbacks_witness :
  let w := MopidyWorker.init Scripted.down_server in
  let run := MopidyWorker.run true Scripted.no_parse in
  MopidyWorker.track_records (MopidyWorker.emitted (run 3%nat w))
  = [MOCK_TRACK; MOCK_TRACK; MOCK_TRACK]
  /\ MopidyWorker._connected (run 3%nat w) = false
  /\ MoonrakerWorker.run true [Raise ConnectionError; Raise HTTPError; Raise ConnectionError]
     = [MOCK_PRINTER; MOCK_PRINTER; MOCK_PRINTER].
Proof.
  intros w run.
  assert (Hf : forall k, (k < 3)%nat ->
            true = false
            \/ exists e, fst (MopidyWorker.connect (MopidyWorker.server (run k w)))
                         = Raise e).
  { intros k Hk. right. exists ConnectionError.
    destruct k as [| [| [| k]]]; [reflexivity | reflexivity | reflexivity | lia]. }
  assert (Hg : Forall (fun g : result MoonrakerWorker.response => exists e, g = Raise e)
                      [Raise ConnectionError; Raise HTTPError; Raise ConnectionError]).
  { repeat constructor; eexists; reflexivity. }
  destruct (failing_connections_publish_fallbacks true Scripted.no_parse true w
              [Raise ConnectionError; Raise HTTPError; Raise ConnectionError] 3
              (Nat.lt_0_succ 2) eq_refl eq_refl Hf eq_refl Hg)
    as (Hc & _ & Ht & Hp).
  split; [exact Ht |]. split; [apply Hc; lia | exact Hp].
Defined.

(** C7: a command issued while the worker is disconnected is dropped: each
    of play/pause, next, previous, set shuffle, set loop and load playlist
    returns at once, leaving the worker, the server and the emitted
    signals as they were, so that the following tick and the record it
    publishes (its shuffle flag included) are those of a run without the
    command. *)
Theorem disconnected_commands_dropped {B : Type} `{MopidyWorker.MPDClient B}
    (MPD_AVAILABLE : bool) (float_of_string : string -> option Q)
    (w : MopidyWorker.worker B) (cmd : string) (args : list pyval)
    (on name : pyval) :
  MopidyWorker._connected w = false ->
  MopidyWorker._safe_cmd cmd args w = (Ok tt, w)
  /\ MopidyWorker.play_pause w = (Ok tt, w)
  /\ MopidyWorker.next_track w = (Ok tt, w)
  /\ MopidyWorker.prev_track w = (Ok tt, w)
  /\ MopidyWorker.shuffle_ on w = (Ok tt, w)
  /\ MopidyWorker.loop on w = (Ok tt, w)
  /\ MopidyWorker.play_playlist name w = (Ok tt, w)
  /\ MopidyWorker.tick MPD_AVAILABLE float_of_string
       (snd (MopidyWorker._safe_cmd cmd args w))
     = MopidyWorker.tick MPD_AVAILABLE float_of_string w.
Proof.
  intros Hc.
  assert (Hdrop : forall c a, MopidyWorker._safe_cmd c a w = (Ok tt, w)).
  { intros c a. unfold MopidyWorker._safe_cmd. rewrite Hc. reflexivity. }
  repeat split; try apply Hdrop.
  rewrite Hdrop. reflexivity.
Qed.

Lemma disconnected_commands_dropped_witness :
  let w := MopidyWorker.init Scripted.up_server in
  MopidyWorker._connected w = false
  /\ MopidyWorker.shuffle_ (PBool true) w = (Ok tt, w)
  /\ MopidyWorker.tick true Scripted.no_parse
       (snd (MopidyWorker._safe_cmd "random" [PBool true] w))
     = MopidyWorker.tick true Scripted.no_parse w.
Proof.
  intros w. split; [reflexivity |].
  destruct (disconnected_commands_dropped true Scripted.no_parse w
              "random" [PBool true] (PBool true) (PStr "Mix") eq_refl)
    as (_ & _ & _ & _ & Hs & _ & _ & Ht).
  split; [exact Hs | exact Ht].
Defined.

(* ===================================================================== *)
(** ** More on the time engine *)
(* ===================================================================== *)

Section TimeEngineMore.

Lemma time_of_day_bounds (t : Q) :
  0 <= sb_time_of_day (real_to_sb t) /\ sb_time_of_day (real_to_sb t) < 86400.
Proof.
  rewrite sb_time_of_day_eq. apply py_mod_bounds. reflexivity.
Qed.

(** Adding a whole number shifts the floor by it. *)
Lemma Qfloor_add_Z (q : Q) (k : Z) : Qfloor (q + inject_Z k) = (Qfloor q + k)%Z.
Proof.
  pose proof (Qfloor_le q) as Hf. pose proof (Qlt_floor q) as Hc.
  rewrite inject_Z_plus in Hc. change (inject_Z 1) with 1 in Hc.
  apply Qfloor_unique.
  - rewrite inject_Z_plus. lra.
  - rewrite !inject_Z_plus. change (inject_Z 1) with 1. lra.
Qed.

(** Whole multiples of the divisor drop out of [%], whatever the rest. *)
Lemma py_mod_add_mul_any (z y : Q) (k : Z) :
  0 < y -> Py.mod_ (inject_Z k * y + z) y == Py.mod_ z y.
Proof.
  intros Hy. unfold Py.mod_.
  assert (Hq : Qfloor ((inject_Z k * y + z) / y) = (Qfloor (z / y) + k)%Z).
  { rewrite <- Qfloor_add_Z. apply Qfloor_comp. field.
    intros E. rewrite E in Hy. discriminate. }
  rewrite Hq, inject_Z_plus. ring.
Qed.

(** [%] of a sum only needs the remainder of the first summand. *)
Lemma py_mod_add_l (x s y : Q) :
  0 < y -> Py.mod_ (x + s) y == Py.mod_ (Py.mod_ x y + s) y.
Proof.
  intros Hy.
  assert (E : x + s == inject_Z (Qfloor (x / y)) * y + (Py.mod_ x y + s))
    by (unfold Py.mod_; ring).
  rewrite E. apply py_mod_add_mul_any. exact Hy.
Qed.

Lemma real_elapsed_shift (t s : Q) :
  epoch_s <= t -> 0 <= s ->
  real_elapsed (real_to_sb (t + s)) == real_elapsed (real_to_sb t) + s.
Proof.
  intros Ht Hs. rewrite !real_elapsed_after by lra. ring.
Qed.

Lemma real_elapsed_mono (t1 t2 : Q) :
  t1 <= t2 -> real_elapsed (real_to_sb t1) <= real_elapsed (real_to_sb t2).
Proof.
  intros Hle.
  destruct (Qlt_le_dec t1 epoch_s) as [H1 | H1].
  - rewrite (real_elapsed_clamped t1) by lra. apply real_elapsed_nonneg.
  - rewrite !real_elapsed_after by lra. lra.
Qed.

(** The time of day is what is left of the scaled clock after the whole
    days. *)
Lemma sb_time_of_day_days (t : Q) :
  sb_time_of_day (real_to_sb t)
  == 72 * real_elapsed (real_to_sb t) - inject_Z (sb_total_days t) * 86400.
Proof.
  assert (E : sb_time_of_day (real_to_sb t)
              = sb_seconds_elapsed (real_to_sb t)
                - inject_Z (sb_total_days t) * inject_Z SB_SEC_PER_SB_DAY).
  { unfold sb_total_days. rewrite py_int_floordiv. reflexivity. }
  rewrite E, sb_seconds_elapsed_eq. reflexivity.
Qed.

Lemma sb_total_days_shift (t : Q) (k : Z) :
  epoch_s <= t -> (0 <= k)%Z ->
  sb_total_days (t + inject_Z k * 1200) = (sb_total_days t + k)%Z.
Proof.
  intros Ht Hk. rewrite !sb_total_days_eq, <- Qfloor_add_Z.
  apply Qfloor_comp. rewrite real_elapsed_shift.
  - field.
  - exact Ht.
  - apply Qmult_le_0_compat; [| discriminate].
    change 0 with (inject_Z 0). rewrite <- Zle_Qle. exact Hk.
Qed.

Lemma hour_range (t : Q) : (0 <= hour (real_to_sb t) <= 23)%Z.
Proof.
  destruct (time_of_day_bounds t) as [Hlo Hhi].
  rewrite hour_eq.
  pose proof (Qfloor_le (sb_time_of_day (real_to_sb t) / 3600)) as Hf.
  assert (Hq : sb_time_of_day (real_to_sb t) / 3600 < inject_Z 24).
  { apply Qlt_shift_div_r; [reflexivity |]. exact Hhi. }
  split.
  - apply Qfloor_nonneg. apply Qle_shift_div_l; [reflexivity | lra].
  - assert (Qfloor (sb_time_of_day (real_to_sb t) / 3600) < 24)%Z
      by (rewrite Zlt_Qlt; eapply Qle_lt_trans; eauto).
    lia.
Qed.

End TimeEngineMore.

Section CultCountdown.

(** The loop of [next_cult_event], interval by interval: the first
    trigger day still ahead wins. *)
Lemma cult_loop_exact (r : Q) :
  0 <= r -> r < 37200 ->
  match fold_left (cult_step r) event_days None with
  | Some best =>
      (r < 7200 /\ best == 7200 - r)
      \/ (7200 <= r /\ r < 15600 /\ best == 15600 - r)
      \/ (15600 <= r /\ r < 24000 /\ best == 24000 - r)
      \/ (24000 <= r /\ r < 32400 /\ best == 32400 - r)
  | None => 32400 <= r
  end.
Proof.
  intros Hlo Hhi. unfold event_days. cbn [fold_left]. unfold cult_step.
  change (inject_Z (6 * REAL_SEC_PER_SB_DAY)) with 7200.
  change (inject_Z (13 * REAL_SEC_PER_SB_DAY)) with 15600.
  change (inject_Z (20 * REAL_SEC_PER_SB_DAY)) with 24000.
  change (inject_Z (27 * REAL_SEC_PER_SB_DAY)) with 32400.
  repeat match goal with
  | |- context [Py.lt ?a ?b] =>
      let E := fresh "E" in
      destruct (Py.lt a b) eqn:E;
      [apply py_lt_true in E | apply py_lt_false in E]
  end; lra.
Qed.

(** [next_cult_event] as a function of the position in the month. *)
Lemma next_cult_event_cases (t : Q) :
  (real_in_month t < 7200 /\ next_cult_event t == 7200 - real_in_month t)
  \/ (7200 <= real_in_month t < 15600
      /\ next_cult_event t == 15600 - real_in_month t)
  \/ (15600 <= real_in_month t < 24000
      /\ next_cult_event t == 24000 - real_in_month t)
  \/ (24000 <= real_in_month t < 32400
      /\ next_cult_event t == 32400 - real_in_month t)
  \/ (32400 <= real_in_month t /\ next_cult_event t == 44400 - real_in_month t).
Proof.
  destruct (real_in_month_bounds t) as [Hlo Hhi].
  pose proof (cult_loop_exact (real_in_month t) Hlo Hhi) as Hc.
  unfold next_cult_event. cbn zeta.
  change (inject_Z REAL_SEC_PER_SB_MONTH) with 37200.
  change (inject_Z (hd 0%Z event_days * REAL_SEC_PER_SB_DAY)) with 7200.
  destruct (fold_left (cult_step (real_in_month t)) event_days None) as [best |].
  - destruct Hc as [[H1 H2] | [(H1 & H2 & H3) | [(H1 & H2 & H3) | (H1 & H2 & H3)]]].
    + left. split; assumption.
    + right. left. repeat split; assumption.
    + right. right. left. repeat split; assumption.
    + right. right. right. left. repeat split; assumption.
  - right. right. right. right. split; [exact Hc | ring].
Qed.

(** The position in the month, [s] seconds later. *)
Lemma real_in_month_shift (t s : Q) :
  epoch_s <= t -> 0 <= s ->
  real_in_month (t + s) == Py.mod_ (real_in_month t + s) 37200.
Proof.
  intros Ht Hs. unfold real_in_month.
  change (inject_Z REAL_SEC_PER_SB_MONTH) with 37200.
  rewrite real_elapsed_shift by assumption.
  apply py_mod_add_l. reflexivity.
Qed.

Lemma real_in_month_shift_small (t s : Q) :
  epoch_s <= t -> 0 <= s -> real_in_month t + s < 37200 ->
  real_in_month (t + s) == real_in_month t + s.
Proof.
  intros Ht Hs Hlt. rewrite real_in_month_shift by assumption.
  destruct (real_in_month_bounds t). apply py_mod_small; lra.
Qed.

Lemma real_in_month_shift_wrap (t s : Q) :
  epoch_s <= t -> 37200 <= real_in_month t + s -> real_in_month t + s < 74400 ->
  real_in_month (t + s) == real_in_month t + s - 37200.
Proof.
  intros Ht Hge Hlt. destruct (real_in_month_bounds t).
  rewrite real_in_month_shift by (try assumption; lra).
  assert (E : real_in_month t + s
              == inject_Z 1 * 37200 + (real_in_month t + s - 37200))
    by (change (inject_Z 1) with 1; ring).
  transitivity (Py.mod_ (inject_Z 1 * 37200 + (real_in_month t + s - 37200)) 37200).
  - apply py_mod_proper; [exact E | reflexivity].
  - apply py_mod_add_mul; lra.
Qed.

(** Elapsed time as whole months plus the position in the month. *)
Lemma real_elapsed_months (t : Q) :
  real_elapsed (real_to_sb t)
  == inject_Z (Qfloor (real_elapsed (real_to_sb t) / 37200)) * 37200
     + real_in_month t.
Proof.
  unfold real_in_month, Py.mod_.
  change (inject_Z REAL_SEC_PER_SB_MONTH) with 37200. ring.
Qed.

Lemma months_floor_nonneg (t : Q) :
  (0 <= Qfloor (real_elapsed (real_to_sb t) / 37200))%Z.
Proof.
  apply Qfloor_nonneg. apply Qle_shift_div_l; [reflexivity |].
  pose proof (real_elapsed_nonneg t). lra.
Qed.

(** A moment whose elapsed time is [k] months and [d] whole days. *)
Lemma moment_at_day_start (t : Q) (k d : Z) :
  (0 <= k)%Z -> (0 <= d < 31)%Z ->
  real_elapsed (real_to_sb t) == inject_Z k * 37200 + inject_Z d * 1200 ->
  day (real_to_sb t) = (d + 1)%Z /\ hour (real_to_sb t) = 0%Z
  /\ min (real_to_sb t) = 0%Z /\ sb_time_of_day (real_to_sb t) == 0.
Proof.
  intros Hk Hd He.
  assert (Hdays : sb_total_days t = (k * 31 + d)%Z).
  { rewrite sb_total_days_eq.
    transitivity (Qfloor (inject_Z (k * 31 + d))); [apply Qfloor_comp | apply Qfloor_Z].
    rewrite He, inject_Z_plus, inject_Z_mult. change (inject_Z 31) with 31. field. }
  assert (Htod : sb_time_of_day (real_to_sb t) == 0).
  { rewrite sb_time_of_day_days, Hdays, He, inject_Z_plus, inject_Z_mult.
    change (inject_Z 31) with 31. ring. }
  rewrite day_eq, hour_eq, min_eq, Hdays. unfold SB_DAYS_PER_MONTH.
  split; [| split; [| split; [| exact Htod]]].
  - replace (k * 31 + d)%Z with (d + k * 31)%Z by lia.
    rewrite Z.mod_add by lia. rewrite Z.mod_small by lia. reflexivity.
  - transitivity (Qfloor 0); [apply Qfloor_comp | reflexivity].
    rewrite Htod. reflexivity.
  - transitivity (Qfloor 0); [apply Qfloor_comp | reflexivity].
    rewrite Htod. reflexivity.
Qed.

End CultCountdown.

(* ===================================================================== *)
(** ** Further properties of the time engine *)
(* ===================================================================== *)

(** X1: hour and minute are clock fields, 0..23 and 0..59, and they are
    the hour and minute of the time of day: the time of day lies in the
    minute [hour:min]. *)
Theorem clock_fields_consistent (t : Q) :
  (0 <= hour (real_to_sb t) <= 23)%Z
  /\ (0 <= min (real_to_sb t) <= 59)%Z
  /\ inject_Z (hour (real_to_sb t) * 3600 + min (real_to_sb t) * 60)
     <= sb_time_of_day (real_to_sb t)
  /\ sb_time_of_day (real_to_sb t)
     < inject_Z (hour (real_to_sb t) * 3600 + min (real_to_sb t) * 60 + 60).
Proof.
  pose proof (hour_range t) as Hh.
  pose proof (py_mod_bounds (sb_time_of_day (real_to_sb t)) 3600 eq_refl) as [Hr0 Hr1].
  assert (Hrem : Py.mod_ (sb_time_of_day (real_to_sb t)) 3600
                 == sb_time_of_day (real_to_sb t)
                    - inject_Z (hour (real_to_sb t)) * 3600).
  { rewrite hour_eq. reflexivity. }
  pose proof (Qfloor_le (Py.mod_ (sb_time_of_day (real_to_sb t)) 3600 / 60)) as Hf.
  pose proof (Qlt_floor (Py.mod_ (sb_time_of_day (real_to_sb t)) 3600 / 60)) as Hc.
  rewrite <- min_eq in Hf, Hc.
  apply (Qmult_le_r _ _ 60 eq_refl) in Hf. apply (Qmult_lt_r _ _ 60 eq_refl) in Hc.
  assert (Hdiv : Py.mod_ (sb_time_of_day (real_to_sb t)) 3600 / 60 * 60
                 == Py.mod_ (sb_time_of_day (real_to_sb t)) 3600) by field.
  rewrite Hdiv in Hf, Hc. rewrite inject_Z_plus in Hc.
  change (inject_Z 1) with 1 in Hc.
  assert (Hm : (0 <= min (real_to_sb t) <= 59)%Z).
  { split.
    - rewrite min_eq. apply Qfloor_nonneg.
      apply Qle_shift_div_l; [reflexivity | lra].
    - assert (inject_Z (min (real_to_sb t)) < inject_Z 60)
        by (change (inject_Z 60) with 60; lra).
      rewrite <- Zlt_Qlt in *. lia. }
  split; [exact Hh |]. split; [exact Hm |].
  rewrite !inject_Z_plus, !inject_Z_mult.
  change (inject_Z 3600) with 3600. change (inject_Z 60) with 60.
  split; lra.
Qed.

(** X2: for an instant at or after the epoch, [k] whole derived days
    (1200 real seconds each) later the running day count is [k] higher and
    the time of day, hour and minute are the same; whole months later
    (37200 s each) the month is that much higher and the day of the month
    the same. *)
Theorem real_to_sb_whole_days_later (t : Q) (k : Z) :
  1560275700 <= t -> (0 <= k)%Z ->
  sb_total_days (t + inject_Z k * 1200) = (sb_total_days t + k)%Z
  /\ sb_time_of_day (real_to_sb (t + inject_Z k * 1200))
     == sb_time_of_day (real_to_sb t)
  /\ hour (real_to_sb (t + inject_Z k * 1200)) = hour (real_to_sb t)
  /\ min (real_to_sb (t + inject_Z k * 1200)) = min (real_to_sb t)
  /\ month (real_to_sb (t + inject_Z (31 * k) * 1200))
     = (month (real_to_sb t) + k)%Z
  /\ day (real_to_sb (t + inject_Z (31 * k) * 1200)) = day (real_to_sb t).
Proof.
  intros Ht Hk. rewrite <- epoch_s_value in Ht.
  assert (Hs : 0 <= inject_Z k * 1200).
  { apply Qmult_le_0_compat; [| discriminate].
    change 0 with (inject_Z 0). rewrite <- Zle_Qle. exact Hk. }
  pose proof (sb_total_days_shift t k Ht Hk) as Hd.
  assert (Htod : sb_time_of_day (real_to_sb (t + inject_Z k * 1200))
                 == sb_time_of_day (real_to_sb t)).
  { rewrite !sb_time_of_day_days, Hd, real_elapsed_shift by assumption.
    rewrite inject_Z_plus. ring. }
  split; [exact Hd |]. split; [exact Htod |].
  split; [| split; [| split]].
  - rewrite !hour_eq. apply Qfloor_comp. rewrite Htod. reflexivity.
  - rewrite !min_eq. apply Qfloor_comp. rewrite Htod. reflexivity.
  - rewrite !month_eq, sb_total_days_shift by (try assumption; lia).
    unfold SB_DAYS_PER_MONTH.
    replace (sb_total_days t + 31 * k)%Z with (sb_total_days t + k * 31)%Z by lia.
    rewrite Z.div_add by lia. lia.
  - rewrite !day_eq, sb_total_days_shift by (try assumption; lia).
    unfold SB_DAYS_PER_MONTH.
    replace (sb_total_days t + 31 * k)%Z with (sb_total_days t + k * 31)%Z by lia.
    rewrite Z.mod_add by lia. reflexivity.
Qed.

Lemma real_to_sb_whole_days_later_witness :
  sb_total_days (1560275900 + inject_Z 5 * 1200) = (sb_total_days 1560275900 + 5)%Z
  /\ hour (real_to_sb (1560275900 + inject_Z 5 * 1200)) = hour (real_to_sb 1560275900)
  /\ month (real_to_sb (1560275900 + inject_Z (31 * 5) * 1200))
     = (month (real_to_sb 1560275900) + 5)%Z.
Proof.
  assert (Ht : 1560275700 <= 1560275900) by (vm_compute; discriminate).
  assert (Hk : (0 <= 5)%Z) by lia.
  destruct (real_to_sb_whole_days_later 1560275900 5 Ht Hk)
    as (H1 & _ & H3 & _ & H5 & _).
  split; [exact H1 |]. split; [exact H3 | exact H5].
Defined.

(** X3: the moment determines the instant.  At or after the epoch, the
    instant is the epoch plus 1200 s for every whole day counted by month
    and day, plus the time of day scaled back by 72. *)
Theorem real_to_sb_reconstructs_instant (t : Q) :
  1560275700 <= t ->
  t == 1560275700
       + 1200 * inject_Z ((month (real_to_sb t) - 1) * 31 + (day (real_to_sb t) - 1))
       + sb_time_of_day (real_to_sb t) / 72.
Proof.
  intros Ht. rewrite <- epoch_s_value in Ht.
  assert (Hd : ((month (real_to_sb t) - 1) * 31 + (day (real_to_sb t) - 1))%Z
               = sb_total_days t).
  { rewrite month_eq, day_eq. unfold SB_DAYS_PER_MONTH.
    pose proof (Z.div_mod (sb_total_days t) 31). lia. }
  rewrite Hd, sb_time_of_day_days, real_elapsed_after by exact Ht.
  rewrite epoch_s_value. field.
Qed.

Lemma real_to_sb_reconstructs_instant_witness :
  1560275700 <= 1560279999
  /\ 1560279999
     == 1560275700
        + 1200 * inject_Z ((month (real_to_sb 1560279999) - 1) * 31
                           + (day (real_to_sb 1560279999) - 1))
        + sb_time_of_day (real_to_sb 1560279999) / 72.
Proof.
  assert (Ht : 1560275700 <= 1560279999) by (vm_compute; discriminate).
  split; [exact Ht | apply (real_to_sb_reconstructs_instant 1560279999 Ht)].
Defined.

(** X4: the calendar never runs backwards.  For [t1 <= t2] the month
    does not decrease; within the same month the day does not decrease;
    within the same day the time of day does not decrease. *)
Theorem real_to_sb_monotone (t1 t2 : Q) :
  t1 <= t2 ->
  (month (real_to_sb t1) <= month (real_to_sb t2))%Z
  /\ (month (real_to_sb t1) = month (real_to_sb t2) ->
      (day (real_to_sb t1) <= day (real_to_sb t2))%Z)
  /\ (month (real_to_sb t1) = month (real_to_sb t2) ->
      day (real_to_sb t1) = day (real_to_sb t2) ->
      sb_time_of_day (real_to_sb t1) <= sb_time_of_day (real_to_sb t2)).
Proof.
  intros Hle. pose proof (real_elapsed_mono t1 t2 Hle) as He.
  assert (Hd : (sb_total_days t1 <= sb_total_days t2)%Z).
  { rewrite !sb_total_days_eq. apply Qfloor_resp_le.
    apply Qmult_le_compat_r; [exact He | discriminate]. }
  rewrite !month_eq, !day_eq. unfold SB_DAYS_PER_MONTH.
  pose proof (Z.div_mod (sb_total_days t1) 31).
  pose proof (Z.div_mod (sb_total_days t2) 31).
  pose proof (Z.mod_pos_bound (sb_total_days t1) 31 eq_refl).
  pose proof (Z.mod_pos_bound (sb_total_days t2) 31 eq_refl).
  split; [| split].
  - pose proof (Z.div_le_mono _ _ 31 eq_refl Hd). lia.
  - intros Hm. lia.
  - intros Hm Hday.
    assert (Heq : sb_total_days t1 = sb_total_days t2) by lia.
    rewrite !sb_time_of_day_days, Heq. lra.
Qed.

Lemma real_to_sb_monotone_witness :
  (month (real_to_sb 1560275000) <= month (real_to_sb 1560999999))%Z.
Proof.
  assert (Hle : 1560275000 <= 1560999999) by (vm_compute; discriminate).
  destruct (real_to_sb_monotone 1560275000 1560999999 Hle) as [Hm _].
  exact Hm.
Defined.

(** X5: the countdown points at a trigger day.  At or after the epoch,
    the instant [next_cult_event t] seconds after [t] is the very start
    (00:00, time of day 0) of day 7, 14, 21 or 28 of a month. *)
Theorem next_cult_event_lands_on_trigger_day (t : Q) :
  1560275700 <= t ->
  In (day (real_to_sb (t + next_cult_event t))) [7; 14; 21; 28]%Z
  /\ hour (real_to_sb (t + next_cult_event t)) = 0%Z
  /\ min (real_to_sb (t + next_cult_event t)) = 0%Z
  /\ sb_time_of_day (real_to_sb (t + next_cult_event t)) == 0.
Proof.
  intros Ht. rewrite <- epoch_s_value in Ht.
  destruct (real_in_month_bounds t) as [Hlo Hhi].
  pose proof (months_floor_nonneg t) as Hk.
  pose proof (real_elapsed_months t) as Hsplit.
  set (k := Qfloor (real_elapsed (real_to_sb t) / 37200)) in *.
  assert (Hland : forall k' d : Z,
            (0 <= k')%Z -> (0 <= d < 31)%Z ->
            real_elapsed (real_to_sb t) + next_cult_event t
            == inject_Z k' * 37200 + inject_Z d * 1200 ->
            day (real_to_sb (t + next_cult_event t)) = (d + 1)%Z
            /\ hour (real_to_sb (t + next_cult_event t)) = 0%Z
            /\ min (real_to_sb (t + next_cult_event t)) = 0%Z
            /\ sb_time_of_day (real_to_sb (t + next_cult_event t)) == 0).
  { intros k' d Hk' Hd He. apply (moment_at_day_start _ k' d Hk' Hd).
    rewrite real_elapsed_shift; [exact He | exact Ht |].
    destruct (next_cult_event_cases t) as [[? ?] | [[? ?] | [[? ?] | [[? ?] | [? ?]]]]];
      lra. }
  destruct (next_cult_event_cases t)
    as [[H1 H2] | [[H1 H2] | [[H1 H2] | [[H1 H2] | [H1 H2]]]]].
  - destruct (Hland k 6%Z Hk ltac:(lia)) as (Hd & Hrest).
    { rewrite H2, Hsplit at 1. change (inject_Z 6) with 6. ring. }
    split; [rewrite Hd; cbn; tauto | exact Hrest].
  - destruct (Hland k 13%Z Hk ltac:(lia)) as (Hd & Hrest).
    { rewrite H2, Hsplit at 1. change (inject_Z 13) with 13. ring. }
    split; [rewrite Hd; cbn; tauto | exact Hrest].
  - destruct (Hland k 20%Z Hk ltac:(lia)) as (Hd & Hrest).
    { rewrite H2, Hsplit at 1. change (inject_Z 20) with 20. ring. }
    split; [rewrite Hd; cbn; tauto | exact Hrest].
  - destruct (Hland k 27%Z Hk ltac:(lia)) as (Hd & Hrest).
    { rewrite H2, Hsplit at 1. change (inject_Z 27) with 27. ring. }
    split; [rewrite Hd; cbn; tauto | exact Hrest].
  - destruct (Hland (k + 1)%Z 6%Z ltac:(lia) ltac:(lia)) as (Hd & Hrest).
    { rewrite H2, Hsplit at 1. rewrite inject_Z_plus.
      change (inject_Z 6) with 6. change (inject_Z 1) with 1. ring. }
    split; [rewrite Hd; cbn; tauto | exact Hrest].
Qed.

Lemma next_cult_event_lands_on_trigger_day_witness :
  1560275700 <= 1560309000
  /\ In (day (real_to_sb (1560309000 + next_cult_event 1560309000))) [7; 14; 21; 28]%Z.
Proof.
  assert (Ht : 1560275700 <= 1560309000) by (vm_compute; discriminate).
  split; [exact Ht |].
  destruct (next_cult_event_lands_on_trigger_day 1560309000 Ht) as [Hd _].
  exact Hd.
Defined.

(** X6: the countdown runs down second for second.  At or after the
    epoch, while the event has not been reached ([0 <= s] less than the
    countdown), [s] seconds later the countdown is [s] lower; so no
    trigger day starts earlier than announced. *)
Theorem next_cult_event_counts_down (t s : Q) :
  1560275700 <= t -> 0 <= s -> s < next_cult_event t ->
  next_cult_event (t + s) == next_cult_event t - s.
Proof.
  intros Ht Hs Hlt. rewrite <- epoch_s_value in Ht.
  destruct (real_in_month_bounds t) as [Hlo Hhi].
  destruct (Qlt_le_dec (real_in_month t + s) 37200) as [Hsmall | Hwrap].
  - pose proof (real_in_month_shift_small t s Ht Hs Hsmall) as Hr.
    destruct (next_cult_event_cases t)
      as [[? ?] | [[? ?] | [[? ?] | [[? ?] | [? ?]]]]];
    destruct (next_cult_event_cases (t + s))
      as [[? ?] | [[? ?] | [[? ?] | [[? ?] | [? ?]]]]];
    lra.
  - assert (Hlt2 : real_in_month t + s < 74400).
    { destruct (next_cult_event_cases t)
        as [[? ?] | [[? ?] | [[? ?] | [[? ?] | [? ?]]]]]; lra. }
    pose proof (real_in_month_shift_wrap t s Ht Hwrap Hlt2) as Hr.
    destruct (next_cult_event_cases t)
      as [[? ?] | [[? ?] | [[? ?] | [[? ?] | [? ?]]]]];
    destruct (next_cult_event_cases (t + s))
      as [[? ?] | [[? ?] | [[? ?] | [[? ?] | [? ?]]]]];
    lra.
Qed.

Lemma next_cult_event_counts_down_witness :
  next_cult_event (1560309000 + 5000) == next_cult_event 1560309000 - 5000.
Proof.
  apply (next_cult_event_counts_down 1560309000 5000);
    vm_compute; first [discriminate | reflexivity].
Defined.

(** X7: the countdown never exceeds ten derived days (12000 real
    seconds), the distance from day 28 to day 7 of the next month; the
    bound is reached on the first instant of day 28. *)
Theorem next_cult_event_at_most_ten_days (t : Q) :
  next_cult_event t <= 12000
  /\ next_cult_event (1560275700 + 32400) == 12000.
Proof.
  split; [| reflexivity].
  destruct (real_in_month_bounds t) as [Hlo Hhi].
  destruct (next_cult_event_cases t)
    as [[? ?] | [[? ?] | [[? ?] | [[? ?] | [? ?]]]]]; lra.
Qed.

(** Before the epoch the countdown stands still at 7200 s: every
    instant up to the epoch is treated as the epoch itself. *)
Lemma next_cult_event_before_epoch (t : Q) :
  t <= 1560275700 -> next_cult_event t == 7200.
Proof.
  intros Ht.
  assert (Hr : real_in_month t == 0).
  { unfold real_in_month. rewrite real_elapsed_clamped.
    - reflexivity.
    - rewrite epoch_s_value. exact Ht. }
  destruct (next_cult_event_cases t)
    as [[? ?] | [[? ?] | [[? ?] | [[? ?] | [? ?]]]]]; lra.
Qed.

Lemma next_cult_event_before_epoch_witness : next_cult_event 1000000000 == 7200.
Proof.
  apply (next_cult_event_before_epoch 1000000000). vm_compute. discriminate.
Defined.

(** X8: the free-will countdown is never zero and never more than the
    cycle: it lies in (0, L] for every instant and every anchor, an anchor
    in the future included. *)
Theorem free_will_remaining_range (now anchor : Q) :
  0 < free_will_remaining now anchor
  /\ free_will_remaining now anchor <= inject_Z (FREE_WILL_CYCLE_HRS * 3600).
Proof.
  unfold free_will_remaining.
  destruct (py_mod_bounds (now - anchor) (inject_Z (FREE_WILL_CYCLE_HRS * 3600))
              eq_refl) as [Hlo Hhi].
  split; lra.
Qed.

(** X9: the free-will countdown runs down second for second until it
    reaches the end of the cycle, and repeats with period L. *)
Theorem free_will_remaining_counts_down (now anchor s : Q) :
  0 <= s -> s < free_will_remaining now anchor ->
  free_will_remaining (now + s) anchor == free_will_remaining now anchor - s
  /\ free_will_remaining (now + inject_Z (FREE_WILL_CYCLE_HRS * 3600)) anchor
     == free_will_remaining now anchor.
Proof.
  intros Hs Hlt. unfold free_will_remaining in *.
  set (L := inject_Z (FREE_WILL_CYCLE_HRS * 3600)) in *.
  assert (HL : 0 < L) by reflexivity.
  destruct (py_mod_bounds (now - anchor) L HL) as [Hlo Hhi].
  split.
  - assert (E : now + s - anchor == (now - anchor) + s) by ring.
    assert (Hm : Py.mod_ (now + s - anchor) L == Py.mod_ (now - anchor) L + s).
    { transitivity (Py.mod_ ((now - anchor) + s) L).
      - apply py_mod_proper; [exact E | reflexivity].
      - rewrite py_mod_add_l by exact HL. apply py_mod_small; lra. }
    rewrite Hm. ring.
  - assert (E : now + L - anchor == inject_Z 1 * L + (now - anchor))
      by (change (inject_Z 1) with 1; ring).
    assert (Hm : Py.mod_ (now + L - anchor) L == Py.mod_ (now - anchor) L).
    { transitivity (Py.mod_ (inject_Z 1 * L + (now - anchor)) L).
      - apply py_mod_proper; [exact E | reflexivity].
      - apply py_mod_add_mul_any. exact HL. }
    rewrite Hm. reflexivity.
Qed.

Lemma free_will_remaining_counts_down_witness :
  free_will_remaining (1700000500 + 1000) 1700000000
  == free_will_remaining 1700000500 1700000000 - 1000.
Proof.
  assert (Hs : 0 <= 1000) by (vm_compute; discriminate).
  assert (Hlt : 1000 < free_will_remaining 1700000500 1700000000)
    by (vm_compute; reflexivity).
  destruct (free_will_remaining_counts_down 1700000500 1700000000 1000 Hs Hlt)
    as [H1 _].
  exact H1.
Defined.

(* ===================================================================== *)
(** ** Formatting and the progress bar *)
(* ===================================================================== *)

Section Formatting.

Lemma string_length_append (a b : string) :
  String.length (a +:+ b) = (String.length a + String.length b)%nat.
Proof.
  induction a as [| c a IH]; [reflexivity |].
  change (S (String.length (a +:+ b)) = S (String.length a + String.length b)).
  f_equal. exact IH.
Qed.

(** Two digits for every number below one hundred. *)
Lemma d02_length (z : Z) :
  (0 <= z < 100)%Z -> String.length (PyStr.d02 z) = 2%nat.
Proof.
  intros Hz.
  assert (Hall : forallb (fun n => Nat.eqb (String.length (PyStr.d02 (Z.of_nat n))) 2)
                         (seq 0 100) = true) by (vm_compute; reflexivity).
  rewrite forallb_forall in Hall.
  specialize (Hall (Z.to_nat z)).
  rewrite Z2Nat.id in Hall by lia.
  apply Nat.eqb_eq, Hall, in_seq. lia.
Qed.

(** [int()] of a non-negative float is its floor. *)
Lemma py_int_nonneg (q : Q) : 0 <= q -> Py.int q = Qfloor q.
Proof.
  intros Hq. unfold Py.int. destruct q as [n d]. cbn.
  apply Z.quot_div_nonneg; [| lia].
  unfold Qle in Hq. cbn in Hq. lia.
Qed.

(** [int()] never rounds up past a whole bound. *)
Lemma py_int_lt (q : Q) (n : Z) :
  (0 < n)%Z -> q < inject_Z n -> (Py.int q < n)%Z.
Proof.
  intros Hn Hq. destruct (Qlt_le_dec q 0) as [Hneg | Hpos].
  - unfold Py.int. destruct q as [a d]. cbn.
    unfold Qlt in Hneg. cbn in Hneg.
    assert (a ÷ Z.pos d <= 0)%Z; [| lia].
    rewrite <- (Z.quot_0_l (Z.pos d)) by lia.
    apply Z.quot_le_mono; lia.
  - rewrite py_int_nonneg by exact Hpos.
    pose proof (Qfloor_le q) as Hf.
    rewrite Zlt_Qlt. eapply Qle_lt_trans; eauto.
Qed.

Lemma py_int_nonneg_ge (q : Q) : 0 <= q -> (0 <= Py.int q)%Z.
Proof. intros Hq. rewrite py_int_nonneg by exact Hq. apply Qfloor_nonneg, Hq. Qed.

Lemma py_max_spec (a b : Q) :
  a <= PyStr.max_ a b /\ b <= PyStr.max_ a b
  /\ (PyStr.max_ a b == a \/ PyStr.max_ a b == b).
Proof.
  unfold PyStr.max_. destruct (Py.lt a b) eqn:E.
  - apply py_lt_true in E. repeat split; lra.
  - apply py_lt_false in E. repeat split; lra.
Qed.

Lemma py_min_spec (a b : Q) :
  PyStr.min_ a b <= a /\ PyStr.min_ a b <= b
  /\ (PyStr.min_ a b == a \/ PyStr.min_ a b == b).
Proof.
  unfold PyStr.min_. destruct (Py.lt b a) eqn:E.
  - apply py_lt_true in E. repeat split; lra.
  - apply py_lt_false in E. repeat split; lra.
Qed.

Lemma setValue_range (v : Q) :
  0 <= AnimatedProgressBar.setValue v /\ AnimatedProgressBar.setValue v <= 1.
Proof.
  unfold AnimatedProgressBar.setValue.
  destruct (py_max_spec 0 (PyStr.min_ 1 v)) as (H1 & H2 & H3).
  destruct (py_min_spec 1 v) as (H4 & H5 & H6).
  split; [exact H1 |]. destruct H3 as [H3 | H3]; rewrite H3; lra.
Qed.

Lemma setValue_inside (v : Q) :
  0 <= v -> v <= 1 -> AnimatedProgressBar.setValue v == v.
Proof.
  intros H0 H1. unfold AnimatedProgressBar.setValue, PyStr.max_, PyStr.min_.
  destruct (Py.lt v 1) eqn:E1.
  - destruct (Py.lt 0 v) eqn:E2; [reflexivity |]. apply py_lt_false in E2. lra.
  - apply py_lt_false in E1.
    destruct (Py.lt 0 1) eqn:E2; [lra | discriminate].
Qed.

Lemma setValue_below (v : Q) : v < 0 -> AnimatedProgressBar.setValue v == 0.
Proof.
  intros Hv. unfold AnimatedProgressBar.setValue, PyStr.max_, PyStr.min_.
  destruct (Py.lt v 1) eqn:E1.
  - destruct (Py.lt 0 v) eqn:E2; [apply py_lt_true in E2; lra | reflexivity].
  - apply py_lt_false in E1. lra.
Qed.

Lemma setValue_above (v : Q) : 1 < v -> AnimatedProgressBar.setValue v == 1.
Proof.
  intros Hv. unfold AnimatedProgressBar.setValue, PyStr.max_, PyStr.min_.
  destruct (Py.lt v 1) eqn:E1; [apply py_lt_true in E1; lra |].
  destruct (Py.lt 0 1) eqn:E2; [reflexivity | discriminate].
Qed.

End Formatting.

Section FormattingMore.

Lemma d02_zero : PyStr.d02 0 = "00".
Proof. reflexivity. Qed.

(** The three fields of [fmt_countdown]. *)
Lemma mod_3600_mod_60 (s : Z) : ((s mod 3600) mod 60 = s mod 60)%Z.
Proof.
  apply Z.mod_mod_divide. exists 60%Z. reflexivity.
Qed.

Lemma countdown_fields_range (s : Z) :
  (0 <= s)%Z ->
  (0 <= s / 3600)%Z /\ (0 <= s mod 3600 / 60 < 60)%Z
  /\ (0 <= (s mod 3600) mod 60 < 60)%Z
  /\ (s / 3600 * 3600 + s mod 3600 / 60 * 60 + (s mod 3600) mod 60 = s)%Z.
Proof.
  intros Hs.
  pose proof (Z.div_mod s 3600 ltac:(lia)) as H1.
  pose proof (Z.mod_pos_bound s 3600 ltac:(lia)) as H2.
  pose proof (Z.div_mod (s mod 3600) 60 ltac:(lia)) as H3.
  pose proof (Z.mod_pos_bound (s mod 3600) 60 ltac:(lia)) as H4.
  pose proof (Z.mod_pos_bound s 60 ltac:(lia)) as H5.
  pose proof (mod_3600_mod_60 s) as H6.
  pose proof (Z.div_pos s 3600 Hs ltac:(lia)).
  assert (0 <= s mod 3600 / 60)%Z by (apply Z.div_pos; lia).
  assert (s mod 3600 / 60 < 60)%Z by (apply Z.div_lt_upper_bound; lia).
  repeat split; lia.
Qed.

Lemma fmt_countdown_unfold (seconds : Q) :
  fmt_countdown seconds
  = PyStr.d02 (Z.max 0 (Py.int seconds) / 3600) +:+ ":"
    +:+ PyStr.d02 (Z.max 0 (Py.int seconds) mod 3600 / 60) +:+ ":"
    +:+ PyStr.d02 ((Z.max 0 (Py.int seconds) mod 3600) mod 60).
Proof. reflexivity. Qed.

Lemma fmt_countdown_length (seconds : Q) :
  (Z.max 0 (Py.int seconds) < 360000)%Z ->
  String.length (fmt_countdown seconds) = 8%nat.
Proof.
  intros Hlt. rewrite fmt_countdown_unfold.
  destruct (countdown_fields_range (Z.max 0 (Py.int seconds)) ltac:(lia))
    as (Hh & Hm & Hs & _).
  assert (Z.max 0 (Py.int seconds) / 3600 < 100)%Z
    by (apply Z.div_lt_upper_bound; lia).
  rewrite !string_length_append, !d02_length by lia. reflexivity.
Qed.

Lemma countdown_eight_chars (seconds : Q) :
  seconds < 360000 -> String.length (fmt_countdown seconds) = 8%nat.
Proof.
  intros Hlt. apply fmt_countdown_length.
  pose proof (py_int_lt seconds 360000 ltac:(lia) Hlt). lia.
Qed.

Lemma free_will_bounds (now anchor : Q) :
  0 < free_will_remaining now anchor
  /\ free_will_remaining now anchor <= inject_Z (FREE_WILL_CYCLE_HRS * 3600).
Proof.
  unfold free_will_remaining.
  destruct (py_mod_bounds (now - anchor) (inject_Z (FREE_WILL_CYCLE_HRS * 3600))
              eq_refl) as [Hlo Hhi].
  split; lra.
Qed.

Lemma cult_countdown_bounds (t : Q) :
  0 < next_cult_event t /\ next_cult_event t <= 12000.
Proof.
  destruct (real_in_month_bounds t) as [Hlo Hhi].
  destruct (next_cult_event_cases t)
    as [[? ?] | [[? ?] | [[? ?] | [[? ?] | [? ?]]]]]; lra.
Qed.

End FormattingMore.

(** X10: [fmt_countdown] prints hours, minutes and seconds of the whole
    seconds of its argument, a negative argument counting as zero: the
    minutes and seconds are below 60 and the three fields add up to
    [max(0, int(seconds))]. *)
Theorem fmt_countdown_fields (seconds : Q) :
  exists h m sec : Z,
    fmt_countdown seconds
    = PyStr.d02 h +:+ ":" +:+ PyStr.d02 m +:+ ":" +:+ PyStr.d02 sec
    /\ (0 <= h)%Z /\ (0 <= m < 60)%Z /\ (0 <= sec < 60)%Z
    /\ (h * 3600 + m * 60 + sec = Z.max 0 (Py.int seconds))%Z.
Proof.
  exists (Z.max 0 (Py.int seconds) / 3600)%Z,
         (Z.max 0 (Py.int seconds) mod 3600 / 60)%Z,
         ((Z.max 0 (Py.int seconds) mod 3600) mod 60)%Z.
  split; [apply fmt_countdown_unfold |].
  apply countdown_fields_range. lia.
Qed.

(** X11: below one hundred hours (360000 s) [fmt_countdown] gives exactly
    eight characters, HH:MM:SS; anything below one second, negative values
    included, prints as 00:00:00. *)
Theorem fmt_countdown_width (seconds : Q) :
  seconds < 360000 ->
  String.length (fmt_countdown seconds) = 8%nat
  /\ (seconds < 1 -> fmt_countdown seconds = "00:00:00").
Proof.
  intros Hlt. split.
  - apply fmt_countdown_length.
    pose proof (py_int_lt seconds 360000 ltac:(lia) Hlt). lia.
  - intros H1. rewrite fmt_countdown_unfold.
    pose proof (py_int_lt seconds 1 ltac:(lia) H1).
    replace (Z.max 0 (Py.int seconds)) with 0%Z by lia. reflexivity.
Qed.

Lemma fmt_countdown_width_witness :
  String.length (fmt_countdown (7325 + (1 # 2))) = 8%nat
  /\ fmt_countdown (-(250 # 1)) = "00:00:00".
Proof.
  assert (H1 : 7325 + (1 # 2) < 360000) by (vm_compute; reflexivity).
  assert (H2 : -(250 # 1) < 360000) by (vm_compute; reflexivity).
  assert (H3 : -(250 # 1) < 1) by (vm_compute; reflexivity).
  destruct (fmt_countdown_width (7325 + (1 # 2)) H1) as [Ha _].
  destruct (fmt_countdown_width (-(250 # 1)) H2) as [_ Hb].
  split; [exact Ha | exact (Hb H3)].
Defined.

(** X12: the two formatters agree.  For a non-negative duration,
    [fmt_countdown] is [fmt_time] from one hour upward, and below one
    hour it is [fmt_time] with the hour field 00 in front. *)
Theorem fmt_countdown_fmt_time (seconds : Q) :
  0 <= seconds ->
  fmt_countdown seconds
  = if Py.lt seconds 3600 then "00:" +:+ fmt_time seconds else fmt_time seconds.
Proof.
  intros Hs. pose proof (py_int_nonneg_ge seconds Hs) as Hi.
  rewrite fmt_countdown_unfold. unfold fmt_time.
  replace (Z.max 0 (Py.int seconds)) with (Py.int seconds) by lia.
  destruct (Py.lt seconds 3600) eqn:E.
  - apply py_lt_true in E.
    pose proof (py_int_lt seconds 3600 ltac:(lia) E) as Hlt.
    destruct (3600 <=? Py.int seconds)%Z eqn:E2; [apply Z.leb_le in E2; lia |].
    rewrite Z.div_small, (Z.mod_small (Py.int seconds) 3600) by lia. reflexivity.
  - apply py_lt_false in E.
    assert (3600 <= Py.int seconds)%Z.
    { rewrite py_int_nonneg by exact Hs.
      change 3600%Z with (Qfloor 3600). apply Qfloor_resp_le. exact E. }
    destruct (3600 <=? Py.int seconds)%Z eqn:E2;
      [rewrite mod_3600_mod_60; reflexivity |].
    apply Z.leb_gt in E2. lia.
Qed.

Lemma fmt_countdown_fmt_time_witness :
  fmt_countdown 75 = "00:" +:+ fmt_time 75
  /\ fmt_countdown 3725 = fmt_time 3725.
Proof.
  assert (H1 : 0 <= 75) by (vm_compute; discriminate).
  assert (H2 : 0 <= 3725) by (vm_compute; discriminate).
  split.
  - exact (fmt_countdown_fmt_time 75 H1).
  - exact (fmt_countdown_fmt_time 3725 H2).
Defined.

(** The progress bar keeps its value in [0, 1]: [setValue] leaves a
    value inside the range as it is and cuts one outside to the nearer
    end, and the filled width [paintEvent] draws lies within the widget. *)
Lemma setValue_clamps (v : Q) (w : Z) :
  0 <= AnimatedProgressBar.setValue v
  /\ AnimatedProgressBar.setValue v <= 1
  /\ (AnimatedProgressBar.setValue v == v
      \/ (v < 0 /\ AnimatedProgressBar.setValue v == 0)
      \/ (1 < v /\ AnimatedProgressBar.setValue v == 1))
  /\ ((0 <= w)%Z ->
      (0 <= AnimatedProgressBar.fill_w w (AnimatedProgressBar.setValue v) <= w)%Z).
Proof.
  destruct (setValue_range v) as [H0 H1].
  split; [exact H0 |]. split; [exact H1 |]. split.
  - destruct (Qlt_le_dec v 0) as [Hneg | Hpos].
    + right. left. split; [exact Hneg | apply setValue_below, Hneg].
    + destruct (Qlt_le_dec 1 v) as [Hbig | Hsmall].
      * right. right. split; [exact Hbig | apply setValue_above, Hbig].
      * left. apply setValue_inside; assumption.
  - intros Hw. unfold AnimatedProgressBar.fill_w.
    assert (Hw' : 0 <= inject_Z w)
      by (change 0 with (inject_Z 0); rewrite <- Zle_Qle; exact Hw).
    assert (Hp : 0 <= inject_Z w * AnimatedProgressBar.setValue v)
      by (apply Qmult_le_0_compat; assumption).
    split; [apply py_int_nonneg_ge, Hp |].
    rewrite py_int_nonneg by exact Hp.
    rewrite <- (Qfloor_Z w) at 2. apply Qfloor_resp_le.
    assert (Hle : AnimatedProgressBar.setValue v * inject_Z w <= 1 * inject_Z w)
      by (apply Qmult_le_compat_r; assumption).
    lra.
Qed.

Lemma setValue_clamps_witness :
  (0 <= AnimatedProgressBar.fill_w 80 (AnimatedProgressBar.setValue (7 # 2)) <= 80)%Z.
Proof.
  destruct (setValue_clamps (7 # 2) 80) as (_ & _ & _ & H).
  apply H. lia.
Defined.

(** X13: the progress shown for a track is always within [0, 1]: a track
    of duration 0 shows 0, a position inside the track shows
    elapsed / duration, and a position beyond the end shows 1. *)
Theorem update_track_progress (t : track) :
  0 <= NowPlayingView.progress_bar (NowPlayingView.update_track t)
  /\ NowPlayingView.progress_bar (NowPlayingView.update_track t) <= 1
  /\ (duration t == 0 ->
      NowPlayingView.progress_bar (NowPlayingView.update_track t) == 0)
  /\ (0 < duration t -> 0 <= elapsed t -> elapsed t <= duration t ->
      NowPlayingView.progress_bar (NowPlayingView.update_track t)
      == elapsed t / duration t)
  /\ (0 < duration t -> duration t < elapsed t ->
      NowPlayingView.progress_bar (NowPlayingView.update_track t) == 1).
Proof.
  cbn [NowPlayingView.update_track NowPlayingView.progress_bar].
  split; [apply setValue_range |]. split; [apply setValue_range |].
  split; [| split].
  - intros Hd. apply Qeq_bool_iff in Hd. rewrite Hd. reflexivity.
  - intros Hd He Hle.
    destruct (Qeq_bool (duration t) 0) eqn:E; [apply Qeq_bool_iff in E; lra |].
    cbn [negb]. apply setValue_inside.
    + apply Qle_shift_div_l; [exact Hd | lra].
    + apply Qle_shift_div_r; [exact Hd | lra].
  - intros Hd Hlt.
    destruct (Qeq_bool (duration t) 0) eqn:E; [apply Qeq_bool_iff in E; lra |].
    cbn [negb]. apply setValue_above.
    apply Qlt_shift_div_l; [exact Hd | lra].
Qed.

Lemma update_track_progress_witness :
  let t := {| title := PStr "Song"; artist := PStr "Band"; album := PStr "";
              duration := 200; elapsed := 50; tstate := PStr "play";
              shuffle := false; repeat_ := false |} in
  NowPlayingView.progress_bar (NowPlayingView.update_track t) == 50 / 200
  /\ NowPlayingView.progress_bar (NowPlayingView.update_track MOCK_TRACK) <= 1.
Proof.
  intros t.
  destruct (update_track_progress t) as (_ & _ & _ & Hin & _).
  destruct (update_track_progress MOCK_TRACK) as (_ & Hle & _).
  split; [| exact Hle].
  apply Hin; vm_compute; first [reflexivity | discriminate].
Defined.

(** X14: what the sidebar shows.  Both countdown labels are exactly
    eight characters (HH:MM:SS); the free-will bar gets
    remaining / cycle, which already lies in (0, 1], so [setValue] never
    cuts it; and the "In h m" line has at most 3 hours and minutes
    below 60. *)
Theorem update_timers_labels (now anchor : Q) :
  let v := SkyblockSidebar.update_timers now anchor in
  String.length (SkyblockSidebar.cult_countdown v) = 8%nat
  /\ String.length (SkyblockSidebar.fw_countdown v) = 8%nat
  /\ SkyblockSidebar.fw_progress v
     == free_will_remaining now anchor / inject_Z (FREE_WILL_CYCLE_HRS * 3600)
  /\ 0 < SkyblockSidebar.fw_progress v
  /\ SkyblockSidebar.fw_progress v <= 1
  /\ (0 <= SkyblockSidebar.cult_h v <= 3)%Z
  /\ (0 <= SkyblockSidebar.cult_m v <= 59)%Z.
Proof.
  cbn zeta.
  cbn [SkyblockSidebar.update_timers SkyblockSidebar.cult_countdown
       SkyblockSidebar.fw_countdown SkyblockSidebar.fw_progress
       SkyblockSidebar.cult_h SkyblockSidebar.cult_m].
  destruct (free_will_bounds now anchor) as [Hf0 Hf1].
  destruct (cult_countdown_bounds now) as [Hc0 Hc1].
  set (L := inject_Z (FREE_WILL_CYCLE_HRS * 3600)) in *.
  assert (HL : 0 < L) by reflexivity.
  assert (Hr0 : 0 < free_will_remaining now anchor / L).
  { apply Qlt_shift_div_l; [exact HL | lra]. }
  assert (Hr1 : free_will_remaining now anchor / L <= 1).
  { apply Qle_shift_div_r; [exact HL | lra]. }
  assert (Hsv : AnimatedProgressBar.setValue (free_will_remaining now anchor / L)
                == free_will_remaining now anchor / L)
    by (apply setValue_inside; lra).
  split; [| split; [| split; [exact Hsv | split; [| split; [| split]]]]].
  - apply countdown_eight_chars. lra.
  - apply countdown_eight_chars.
    assert (L < 360000) by reflexivity. lra.
  - rewrite Hsv. exact Hr0.
  - rewrite Hsv. exact Hr1.
  - rewrite py_int_floordiv.
    pose proof (Qfloor_le (next_cult_event now / 3600)) as Hfl.
    assert (Hq : next_cult_event now / 3600 < inject_Z 4).
    { apply Qlt_shift_div_r; [reflexivity |]. change (inject_Z 4 * 3600) with 14400. lra. }
    split.
    + apply Qfloor_nonneg. apply Qle_shift_div_l; [reflexivity | lra].
    + assert (Qfloor (next_cult_event now / 3600) < 4)%Z
        by (rewrite Zlt_Qlt; eapply Qle_lt_trans; eauto).
      lia.
  - rewrite py_int_floordiv.
    destruct (py_mod_bounds (next_cult_event now) 3600 eq_refl) as [Hm0 Hm1].
    pose proof (Qfloor_le (Py.mod_ (next_cult_event now) 3600 / 60)) as Hfl.
    assert (Hq : Py.mod_ (next_cult_event now) 3600 / 60 < inject_Z 60).
    { apply Qlt_shift_div_r; [reflexivity |]. change (inject_Z 60 * 60) with 3600. lra. }
    split.
    + apply Qfloor_nonneg. apply Qle_shift_div_l; [reflexivity | lra].
    + assert (Qfloor (Py.mod_ (next_cult_event now) 3600 / 60) < 60)%Z
        by (rewrite Zlt_Qlt; eapply Qle_lt_trans; eauto).
      lia.
Qed.

(* ===================================================================== *)
(** ** More on the music worker *)
(* ===================================================================== *)

Section MopidyMore.
Import MopidyWorker.
Context {B : Type} `{MPDClient B}.
Context (MPD_AVAILABLE : bool) (float_of_string : string -> option Q).

Lemma only_server_bind {A1 A2 : Type} (m : M B A1) (f : A1 -> M B A2) :
  only_server m -> (forall a, only_server (f a)) -> only_server (m ≫= f).
Proof.
  intros Hm Hf w. unfold mbind, M_bind. specialize (Hm w).
  destruct (m w) as [[a | e] w']; cbn [snd] in *; [| exact Hm].
  destruct (Hf a w') as (H1 & H2 & H3 & H4).
  destruct Hm as (G1 & G2 & G3 & G4).
  repeat split; congruence.
Qed.

Lemma only_server_call {A : Type} (op : B -> result A * B) : only_server (call op).
Proof. intros w. unfold call. destruct (op (server w)). repeat split. Qed.

Lemma only_server_lift {A : Type} (r : result A) : only_server (lift (B := B) r).
Proof. intros w. repeat split. Qed.

Lemma only_server_ret {A : Type} (a : A) : only_server (mret (M := M B) a).
Proof. intros w. repeat split. Qed.

Lemma only_server_cmd_body (cmd : string) (args : list pyval) :
  only_server (cmd_body (B := B) cmd args).
Proof.
  unfold cmd_body.
  repeat match goal with
  | |- only_server (if ?c then _ else _) => destruct c
  | |- only_server (_ ≫= _) => apply only_server_bind; [| intros ?]
  | |- only_server (call _) => apply only_server_call
  | |- only_server (lift _) => apply only_server_lift
  | |- only_server (mret _) => apply only_server_ret
  end.
Qed.

(** What [_safe_cmd] can change: the server, and [_connected] from true
    to false. *)
Lemma safe_cmd_effect (cmd : string) (args : list pyval) (w : worker B) :
  _running (snd (_safe_cmd cmd args w)) = _running w
  /\ _client (snd (_safe_cmd cmd args w)) = _client w
  /\ emitted (snd (_safe_cmd cmd args w)) = emitted w
  /\ (_connected (snd (_safe_cmd cmd args w)) = true -> _connected w = true)
  /\ (_connected (snd (_safe_cmd cmd args w)) = true <->
      _connected w = true /\ fst (cmd_body cmd args w) = Ok tt).
Proof using Type.
  unfold _safe_cmd. destruct (_connected w) eqn:Hc; cbn [negb].
  - unfold try_except.
    destruct (only_server_cmd_body cmd args w) as (H1 & H2 & H3 & H4).
    destruct (cmd_body cmd args w) as [[[] | e] w']; cbn [fst snd] in *.
    + split; [exact H1 |]. split; [exact H2 |]. split; [exact H4 |].
      split; [intros _; first [exact Hc | reflexivity] |].
      split; [intros _; split; first [exact Hc | reflexivity]
             | intros _; rewrite H3; first [exact Hc | reflexivity]].
    + split; [exact H1 |]. split; [exact H2 |]. split; [exact H4 |].
      split; [intros _; first [exact Hc | reflexivity] |].
      split; [intros Hd; discriminate Hd | intros [_ Hd]; discriminate Hd].
  - cbn [snd]. rewrite Hc.
    split; [reflexivity |]. split; [reflexivity |]. split; [reflexivity |].
    split; [intros Hd; discriminate Hd |].
    split; [intros Hd; discriminate Hd | intros [Hd _]; discriminate Hd].
Qed.

Lemma safe_cmd_unknown (cmd : string) (args : list pyval) (w : worker B) :
  cmd <> "play_pause" -> cmd <> "next" -> cmd <> "previous" ->
  cmd <> "random" -> cmd <> "repeat" -> cmd <> "load_playlist" ->
  _safe_cmd cmd args w = (Ok tt, w).
Proof.
  intros H1 H2 H3 H4 H5 H6. unfold _safe_cmd, try_except, cmd_body.
  apply String.eqb_neq in H1, H2, H3, H4, H5, H6.
  rewrite H1, H2, H3, H4, H5, H6.
  destruct (_connected w); reflexivity.
Qed.

(** The two ways [_try_connect] can end. *)
Lemma try_connect_cases (w : worker B) :
  (emitted (snd (_try_connect MPD_AVAILABLE w))
   = emitted w ++ [track_updated MOCK_TRACK; playlists_updated MOCK_PLAYLISTS]
   /\ _connected (snd (_try_connect MPD_AVAILABLE w)) = _connected w)
  \/ (emitted (snd (_try_connect MPD_AVAILABLE w)) = emitted w
      /\ _connected (snd (_try_connect MPD_AVAILABLE w)) = true
      /\ _client (snd (_try_connect MPD_AVAILABLE w)) = true).
Proof.
  destruct MPD_AVAILABLE eqn:Ha.
  - destruct (connect (server w)) as [[[] | e] b] eqn:Hcn.
    + right. unfold _try_connect, try_except, mbind, M_bind, set_client, call.
      cbn [negb server]. rewrite Hcn. cbn. repeat split.
    + left. destruct (try_connect_fails true w) as [Hc He].
      { right. exists e. rewrite Hcn. reflexivity. }
      split; assumption.
  - left. destruct (try_connect_fails false w) as [Hc He]; [left; reflexivity |].
    split; assumption.
Qed.

Lemma try_connect_client (w : worker B) :
  has_client w -> has_client (snd (_try_connect MPD_AVAILABLE w)).
Proof.
  intros Hw. unfold has_client, _try_connect.
  destruct MPD_AVAILABLE; cbn [negb].
  - unfold try_except, mbind, M_bind, set_client, call. cbn [server].
    destruct (connect (server w)) as [[[] | e] b]; cbn; intros; try reflexivity.
  - cbn. exact Hw.
Qed.

(** The [try] block of [_poll] itself only emits, last of all. *)
Lemma poll_body_cases (w : worker B) :
  _running (snd (poll_body float_of_string w)) = _running w
  /\ _client (snd (poll_body float_of_string w)) = _client w
  /\ _connected (snd (poll_body float_of_string w)) = _connected w
  /\ ((exists e, fst (poll_body float_of_string w) = Raise e
       /\ emitted (snd (poll_body float_of_string w)) = emitted w)
      \/ (fst (poll_body float_of_string w) = Ok tt
          /\ exists t l,
               emitted (snd (poll_body float_of_string w))
               = emitted w ++ [track_updated t; playlists_updated l])).
Proof.
  unfold poll_body, mbind, M_bind, call, lift.
  destruct (status (server w)) as [[st | e1] b1];
    [| repeat split; left; eexists; split; reflexivity].
  cbn [server]. destruct (currentsong b1) as [[so | e2] b2];
    [| repeat split; left; eexists; split; reflexivity].
  cbn [server]. destruct (listplaylists b2) as [[pl | e3] b3];
    [| repeat split; left; eexists; split; reflexivity].
  destruct (playlist_names pl) as [names | e4];
    [| repeat split; left; eexists; split; reflexivity].
  destruct (Py_obj.float _ _) as [d | e5];
    [| repeat split; left; eexists; split; reflexivity].
  destruct (Py_obj.float _ _) as [el | e6];
    [| repeat split; left; eexists; split; reflexivity].
  cbn. repeat split. right. split; [reflexivity |].
  eexists. eexists. rewrite <- app_assoc. reflexivity.
Qed.

Lemma poll_cases (w : worker B) :
  _client (snd (_poll float_of_string w)) = _client w
  /\ ((emitted (snd (_poll float_of_string w)) = emitted w
       /\ _connected (snd (_poll float_of_string w)) = false
       /\ exists e, fst (poll_body float_of_string w) = Raise e)
      \/ (_connected (snd (_poll float_of_string w)) = _connected w
          /\ fst (poll_body float_of_string w) = Ok tt
          /\ exists t l,
               emitted (snd (_poll float_of_string w))
               = emitted w ++ [track_updated t; playlists_updated l])).
Proof.
  destruct (poll_body_cases w) as (H1 & H2 & H3 & [(e & He & Hem) | (Hok & t & l & Hem)]);
    unfold _poll, try_except;
    destruct (poll_body float_of_string w) as [[[] | e'] w']; cbn [fst snd] in *;
    try discriminate.
  - split; [exact H2 |]. left. repeat split; [exact Hem | eauto].
  - split; [exact H2 |]. right. repeat split; [exact H3 | eauto].
Qed.

End MopidyMore.

Section MopidyTickMore.
Import MopidyWorker.
Context {B : Type} `{MPDClient B}.
Context (MPD_AVAILABLE : bool) (float_of_string : string -> option Q).

(** The state after a tick, step by step. *)
Lemma tick_steps (w : worker B) :
  snd (tick MPD_AVAILABLE float_of_string w)
  = let w1 := if _connected w then w else snd (_try_connect MPD_AVAILABLE w) in
    if _connected w1 then snd (_poll float_of_string w1) else w1.
Proof.
  unfold tick, mbind, M_bind, when_.
  destruct (_connected w) eqn:Hc; cbn [negb].
  - rewrite Hc. reflexivity.
  - pose proof (never_try_connect MPD_AVAILABLE w) as Hok.
    destruct (_try_connect MPD_AVAILABLE w) as [[[] | e] w1]; cbn [fst snd] in *;
      [| discriminate].
    destruct (_connected w1); reflexivity.
Qed.

Lemma tick_pair (w : worker B) :
  exists new,
    emitted (snd (tick MPD_AVAILABLE float_of_string w)) = emitted w ++ new
    /\ (new = [] \/ exists t l, new = [track_updated t; playlists_updated l]).
Proof.
  rewrite tick_steps. cbn zeta.
  destruct (_connected w) eqn:Hc.
  - rewrite Hc.
    destruct (poll_cases float_of_string w)
      as (_ & [(He & _) | (_ & _ & t & l & He)]).
    + exists []. rewrite He, app_nil_r. split; [reflexivity | left; reflexivity].
    + exists [track_updated t; playlists_updated l]. split; [exact He | right; eauto].
  - destruct (try_connect_cases MPD_AVAILABLE w) as [(He & Hcc) | (He & Hcc & _)].
    + rewrite Hcc, Hc.
      exists [track_updated MOCK_TRACK; playlists_updated MOCK_PLAYLISTS].
      split; [exact He | right; eauto].
    + rewrite Hcc.
      destruct (poll_cases float_of_string (snd (_try_connect MPD_AVAILABLE w)))
        as (_ & [(He' & _) | (_ & _ & t & l & He')]).
      * exists []. rewrite He', He, app_nil_r.
        split; [reflexivity | left; reflexivity].
      * exists [track_updated t; playlists_updated l].
        rewrite He', He. split; [reflexivity | right; eauto].
Qed.

Lemma tick_client (w : worker B) :
  has_client w -> has_client (snd (tick MPD_AVAILABLE float_of_string w)).
Proof.
  intros Hw. rewrite tick_steps. cbn zeta.
  set (w1 := if _connected w then w else snd (_try_connect MPD_AVAILABLE w)).
  assert (H1 : has_client w1).
  { unfold w1. destruct (_connected w); [exact Hw |].
    apply try_connect_client, Hw. }
  destruct (_connected w1) eqn:Hc1; [| exact H1].
  destruct (poll_cases float_of_string w1) as (Hcl & _).
  intros _. rewrite Hcl. apply H1, Hc1.
Qed.

Lemma run_emitted (n : nat) (w : worker B) :
  exists new,
    emitted (run MPD_AVAILABLE float_of_string n w) = emitted w ++ new
    /\ (length new <= 2 * n)%nat.
Proof.
  revert w. induction n as [| n IH]; intros w.
  - exists []. cbn. rewrite app_nil_r. split; [reflexivity | lia].
  - cbn [run]. destruct (_running w).
    + destruct (tick_pair w) as (new1 & He1 & Hn1).
      destruct (IH (snd (tick MPD_AVAILABLE float_of_string w))) as (new2 & He2 & Hn2).
      exists (new1 ++ new2). rewrite He2, He1, <- app_assoc.
      split; [reflexivity |]. rewrite length_app.
      destruct Hn1 as [-> | (t & l & ->)]; cbn; lia.
    + exists []. rewrite app_nil_r. split; [reflexivity | cbn; lia].
Qed.

Lemma stop_effect (w : worker B) :
  fst (stop w) = Ok tt
  /\ _running (snd (stop w)) = false
  /\ _client (snd (stop w)) = _client w
  /\ _connected (snd (stop w)) = _connected w
  /\ emitted (snd (stop w)) = emitted w.
Proof.
  unfold stop, mbind, M_bind, set_running, when_, try_except, call.
  cbn [_client _connected server].
  destruct (_client w && _connected w).
  - destruct (close (server w)) as [[[] | e] b]; cbn; repeat split.
  - cbn. repeat split.
Qed.

Lemma run_stopped (n : nat) (w : worker B) :
  _running w = false -> run MPD_AVAILABLE float_of_string n w = w.
Proof. intros Hr. destruct n; cbn [run]; [reflexivity |]. rewrite Hr. reflexivity. Qed.

(** A playlist entry without the key ["playlist"] fails the whole list. *)
Lemma playlist_names_missing (pls : list (gmap string pyval)) :
  (exists p, In p pls /\ p !! "playlist" = None) ->
  exists e, playlist_names pls = Raise e.
Proof.
  induction pls as [| p pls IH]; intros (q & Hin & Hq); [destruct Hin |].
  cbn [playlist_names]. unfold Py_obj.dict_item.
  destruct (p !! "playlist") as [v |] eqn:Hp.
  - destruct Hin as [-> | Hin]; [congruence |].
    destruct IH as [e He]; [eauto |]. rewrite He. cbn. eauto.
  - cbn. eauto.
Qed.

End MopidyTickMore.

(* ===================================================================== *)
(** ** Further properties of the music worker *)
(* ===================================================================== *)

(** X15: a tick of the music worker publishes nothing or exactly one
    track record followed by one playlist list; earlier signals stay as
    they were. *)
Theorem tick_emits_at_most_one_pair {B : Type} `{MopidyWorker.MPDClient B}
    (MPD_AVAILABLE : bool) (float_of_string : string -> option Q)
    (w : MopidyWorker.worker B) :
  exists new,
    MopidyWorker.emitted (snd (MopidyWorker.tick MPD_AVAILABLE float_of_string w))
    = MopidyWorker.emitted w ++ new
    /\ (new = []
        \/ exists t l, new = [MopidyWorker.track_updated t;
                              MopidyWorker.playlists_updated l]).
Proof. apply tick_pair. Qed.

(** X16: a worker that connects polls in the same tick.  Starting
    disconnected with the client library present and the connection
    accepted, the tick ends connected with one polled pair published if the
    poll succeeds, and disconnected with nothing published, the fallback
    included, if the poll fails. *)
Theorem connect_then_poll_same_tick {B : Type} `{MopidyWorker.MPDClient B}
    (float_of_string : string -> option Q)
    (w : MopidyWorker.worker B) (b : B) :
  MopidyWorker._connected w = false ->
  MopidyWorker.connect (MopidyWorker.server w) = (Ok tt, b) ->
  let wc := {| MopidyWorker._running := MopidyWorker._running w;
               MopidyWorker._client := true;
               MopidyWorker._connected := true;
               MopidyWorker.server := b;
               MopidyWorker.emitted := MopidyWorker.emitted w |} in
  let w' := snd (MopidyWorker.tick true float_of_string w) in
  (fst (MopidyWorker.poll_body float_of_string wc) = Ok tt ->
   MopidyWorker._connected w' = true
   /\ exists t l,
        MopidyWorker.emitted w'
        = MopidyWorker.emitted w ++ [MopidyWorker.track_updated t;
                                     MopidyWorker.playlists_updated l])
  /\ (forall e, fst (MopidyWorker.poll_body float_of_string wc) = Raise e ->
      MopidyWorker._connected w' = false
      /\ MopidyWorker.emitted w' = MopidyWorker.emitted w).
Proof.
  intros Hc Hcn wc w'.
  assert (Hw1 : snd (MopidyWorker._try_connect true w) = wc).
  { unfold MopidyWorker._try_connect, MopidyWorker.try_except, mbind,
      MopidyWorker.M_bind, MopidyWorker.set_client, MopidyWorker.call.
    cbn [negb MopidyWorker.server]. rewrite Hcn. reflexivity. }
  assert (Hw' : w' = snd (MopidyWorker._poll float_of_string wc)).
  { unfold w'. rewrite tick_steps. cbn zeta. rewrite Hc, Hw1. reflexivity. }
  destruct (poll_cases float_of_string wc)
    as (_ & [(He & Hd & e0 & Hr) | (Hk & Hok & t & l & He)]).
  - split.
    + intros Hok. rewrite Hr in Hok. discriminate.
    + intros e _. rewrite Hw'. split; [exact Hd | exact He].
  - split.
    + intros _. rewrite Hw'. split; [rewrite Hk; reflexivity | eauto].
    + intros e Hr. rewrite Hr in Hok. discriminate.
Qed.

Lemma connect_then_poll_same_tick_witness :
  let w := MopidyWorker.init Scripted.up_server in
  let w' := snd (MopidyWorker.tick true Scripted.no_parse w) in
  MopidyWorker._connected w' = true
  /\ exists t l,
       MopidyWorker.emitted w'
       = MopidyWorker.emitted w ++ [MopidyWorker.track_updated t;
                                    MopidyWorker.playlists_updated l].
Proof.
  intros w w'.
  assert (Hc : MopidyWorker._connected w = false) by reflexivity.
  assert (Hcn : MopidyWorker.connect (MopidyWorker.server w) = (Ok tt, Scripted.up_server))
    by reflexivity.
  destruct (connect_then_poll_same_tick Scripted.no_parse w Scripted.up_server Hc Hcn)
    as [Hok _].
  apply Hok. reflexivity.
Defined.

(** X17: how a successful poll fills the track.  Absent title and artist
    become "Unknown", an absent album the empty string, an absent state
    "stop"; shuffle and repeat are true exactly when the status holds the
    string "1" for random and repeat; a duration that is absent or the
    empty string is 0. *)
Theorem poll_track_defaults {B : Type} `{MopidyWorker.MPDClient B}
    (float_of_string : string -> option Q)
    (w : MopidyWorker.worker B) (st so : gmap string pyval)
    (pls : list (gmap string pyval)) (b1 b2 b3 : B) :
  MopidyWorker.status (MopidyWorker.server w) = (Ok st, b1) ->
  MopidyWorker.currentsong b1 = (Ok so, b2) ->
  MopidyWorker.listplaylists b2 = (Ok pls, b3) ->
  fst (MopidyWorker.poll_body float_of_string w) = Ok tt ->
  exists t l,
    MopidyWorker.emitted (snd (MopidyWorker.poll_body float_of_string w))
    = MopidyWorker.emitted w ++ [MopidyWorker.track_updated t;
                                 MopidyWorker.playlists_updated l]
    /\ MopidyWorker.playlist_names pls = Ok l
    /\ (so !! "title" = None -> title t = PStr "Unknown")
    /\ (so !! "artist" = None -> artist t = PStr "Unknown")
    /\ (so !! "album" = None -> album t = PStr "")
    /\ (st !! "state" = None -> tstate t = PStr "stop")
    /\ (shuffle t = true <-> st !! "random" = Some (PStr "1"))
    /\ (repeat_ t = true <-> st !! "repeat" = Some (PStr "1"))
    /\ (st !! "duration" = None \/ st !! "duration" = Some (PStr "") ->
        duration t = 0)
    /\ (st !! "elapsed" = None \/ st !! "elapsed" = Some (PStr "") ->
        elapsed t = 0).
Proof.
  intros Hst Hso Hpl.
  assert (Hflag : forall k : string,
            Py_obj.eq_str (Py_obj.dict_get st k (PStr "0")) "1" = true
            <-> st !! k = Some (PStr "1")).
  { intros k. unfold Py_obj.dict_get.
    destruct (st !! k) as [[| | | s | |] |]; cbn; split; try discriminate.
    - intros E. apply String.eqb_eq in E. subst s. reflexivity.
    - intros E. injection E as ->. reflexivity. }
  assert (Hnum : forall k : string,
            st !! k = None \/ st !! k = Some (PStr "") ->
            Py_obj.float float_of_string
              (Py_obj.or_ (Py_obj.dict_get st k (PNum 0)) (PNum 0)) = Ok 0).
  { intros k [E | E]; unfold Py_obj.dict_get; rewrite E; reflexivity. }
  unfold MopidyWorker.poll_body, mbind, MopidyWorker.M_bind, MopidyWorker.call,
    MopidyWorker.lift.
  rewrite Hst. cbn [MopidyWorker.server]. rewrite Hso. cbn [MopidyWorker.server].
  rewrite Hpl.
  destruct (MopidyWorker.playlist_names pls) as [names | e4]; [| discriminate].
  destruct (Py_obj.float float_of_string
              (Py_obj.or_ (Py_obj.dict_get st "duration" (PNum 0)) (PNum 0)))
    as [d | e5] eqn:Hd; [| discriminate].
  destruct (Py_obj.float float_of_string
              (Py_obj.or_ (Py_obj.dict_get st "elapsed" (PNum 0)) (PNum 0)))
    as [el | e6] eqn:Hel; [| discriminate].
  intros _. eexists. exists names. cbn.
  split; [rewrite <- app_assoc; reflexivity |].
  split; [reflexivity |].
  unfold Py_obj.dict_get.
  split; [intros ->; reflexivity |]. split; [intros ->; reflexivity |].
  split; [intros ->; reflexivity |]. split; [intros ->; reflexivity |].
  split; [apply (Hflag "random") |]. split; [apply (Hflag "repeat") |].
  split.
  - intros Hk. specialize (Hnum "duration" Hk). cbn [duration]. congruence.
  - intros Hk. specialize (Hnum "elapsed" Hk). cbn [elapsed]. congruence.
Qed.

Lemma poll_track_defaults_witness :
  let w := {| MopidyWorker._running := true; MopidyWorker._client := true;
              MopidyWorker._connected := true;
              MopidyWorker.server := Scripted.up_server;
              MopidyWorker.emitted := [] |} in
  exists t l,
    MopidyWorker.emitted (snd (MopidyWorker.poll_body Scripted.no_parse w))
    = [MopidyWorker.track_updated t; MopidyWorker.playlists_updated l]
    /\ artist t = PStr "Unknown" /\ album t = PStr "" /\ elapsed t = 0.
Proof.
  intros w.
  assert (Hok : fst (MopidyWorker.poll_body Scripted.no_parse w) = Ok tt)
    by reflexivity.
  assert (H1 : MopidyWorker.status (MopidyWorker.server w)
               = (Ok (Scripted.st Scripted.up_server), Scripted.up_server))
    by reflexivity.
  assert (H2 : MopidyWorker.currentsong Scripted.up_server
               = (Ok (Scripted.song Scripted.up_server), Scripted.up_server))
    by reflexivity.
  assert (H3 : MopidyWorker.listplaylists Scripted.up_server
               = (Ok (Scripted.lists Scripted.up_server), Scripted.up_server))
    by reflexivity.
  destruct (poll_track_defaults Scripted.no_parse w
              (Scripted.st Scripted.up_server) (Scripted.song Scripted.up_server)
              (Scripted.lists Scripted.up_server)
              Scripted.up_server Scripted.up_server Scripted.up_server
              H1 H2 H3 Hok)
    as (t & l & He & _ & _ & Har & Hal & _ & _ & _ & _ & Hel).
  exists t, l. split; [exact He |].
  split; [apply Har; reflexivity |].
  split; [apply Hal; reflexivity |].
  apply Hel. left. reflexivity.
Defined.

(** X18: one malformed item spoils the whole poll.  If a playlist entry
    lacks the key "playlist", or the duration is a non-empty string that
    is not a number, a connected worker publishes nothing in that tick,
    the track of that poll included, and ends disconnected. *)
Theorem malformed_response_fails_poll {B : Type} `{MopidyWorker.MPDClient B}
    (MPD_AVAILABLE : bool) (float_of_string : string -> option Q)
    (w : MopidyWorker.worker B) (st so : gmap string pyval)
    (pls : list (gmap string pyval)) (b1 b2 b3 : B) :
  MopidyWorker._connected w = true ->
  MopidyWorker.status (MopidyWorker.server w) = (Ok st, b1) ->
  MopidyWorker.currentsong b1 = (Ok so, b2) ->
  MopidyWorker.listplaylists b2 = (Ok pls, b3) ->
  (exists p, In p pls /\ p !! "playlist" = None)
  \/ (exists s, st !! "duration" = Some (PStr s) /\ s <> ""
                /\ float_of_string s = None) ->
  MopidyWorker.emitted (snd (MopidyWorker.tick MPD_AVAILABLE float_of_string w))
  = MopidyWorker.emitted w
  /\ MopidyWorker._connected (snd (MopidyWorker.tick MPD_AVAILABLE float_of_string w))
     = false.
Proof.
  intros Hc Hst Hso Hpl Hbad.
  assert (Hr : exists e, fst (MopidyWorker.poll_body float_of_string w) = Raise e).
  { unfold MopidyWorker.poll_body, mbind, MopidyWorker.M_bind, MopidyWorker.call,
      MopidyWorker.lift.
    rewrite Hst. cbn [MopidyWorker.server]. rewrite Hso. cbn [MopidyWorker.server].
    rewrite Hpl.
    destruct Hbad as [Hp | (s & Hd & Hne & Hf)].
    - destruct (playlist_names_missing pls Hp) as [e He]. rewrite He. cbn. eauto.
    - destruct (MopidyWorker.playlist_names pls) as [names | e4]; [| cbn; eauto].
      assert (Hfl : Py_obj.float float_of_string
                      (Py_obj.or_ (Py_obj.dict_get st "duration" (PNum 0)) (PNum 0))
                    = Raise ValueError).
      { unfold Py_obj.dict_get. rewrite Hd.
        apply String.eqb_neq in Hne.
        change (default (PNum 0) (Some (PStr s))) with (PStr s).
        unfold Py_obj.or_. cbn [Py_obj.truthy]. rewrite Hne.
        cbn [negb Py_obj.float]. rewrite Hf. reflexivity. }
      rewrite Hfl. cbn. eauto. }
  destruct Hr as [e He].
  apply (tick_poll_fails MPD_AVAILABLE float_of_string w e Hc He).
Qed.

Lemma malformed_response_fails_poll_witness :
  let bad := {| Scripted.up := true; Scripted.st := ∅; Scripted.song := ∅;
                Scripted.lists := [ {[ "playlist" := PStr "Mix" ]}; ∅ ];
                Scripted.received := [] |} in
  let w := {| MopidyWorker._running := true; MopidyWorker._client := true;
              MopidyWorker._connected := true;
              MopidyWorker.server := bad; MopidyWorker.emitted := [] |} in
  MopidyWorker.emitted (snd (MopidyWorker.tick true Scripted.no_parse w)) = []
  /\ MopidyWorker._connected (snd (MopidyWorker.tick true Scripted.no_parse w)) = false.
Proof.
  intros bad w.
  assert (H0 : MopidyWorker._connected w = true) by reflexivity.
  assert (H1 : MopidyWorker.status (MopidyWorker.server w) = (Ok ∅, bad))
    by reflexivity.
  assert (H2 : MopidyWorker.currentsong bad = (Ok ∅, bad)) by reflexivity.
  assert (H3 : MopidyWorker.listplaylists bad
               = (Ok [ {[ "playlist" := PStr "Mix" ]}; ∅ ], bad))
    by reflexivity.
  apply (malformed_response_fails_poll true Scripted.no_parse w ∅ ∅
           [ {[ "playlist" := PStr "Mix" ]}; ∅ ] bad bad bad H0 H1 H2 H3).
  left. exists ∅. split; [right; left; reflexivity | reflexivity].
Defined.

(** X19: a command never raises, never publishes anything and never
    touches [_running] or the client object; it can take the worker from
    connected to disconnected but never the other way: afterwards the
    worker is connected exactly when it was connected before and the
    command went through. *)
Theorem safe_cmd_only_disconnects {B : Type} `{MopidyWorker.MPDClient B}
    (cmd : string) (args : list pyval) (w : MopidyWorker.worker B) :
  let w' := snd (MopidyWorker._safe_cmd cmd args w) in
  fst (MopidyWorker._safe_cmd cmd args w) = Ok tt
  /\ MopidyWorker._running w' = MopidyWorker._running w
  /\ MopidyWorker._client w' = MopidyWorker._client w
  /\ MopidyWorker.emitted w' = MopidyWorker.emitted w
  /\ (MopidyWorker._connected w' = true <->
      MopidyWorker._connected w = true
      /\ fst (MopidyWorker.cmd_body cmd args w) = Ok tt).
Proof.
  cbn zeta. destruct (safe_cmd_effect cmd args w) as (H1 & H2 & H3 & _ & H5).
  split; [apply never_safe_cmd |]. split; [exact H1 |]. split; [exact H2 |].
  split; [exact H3 | exact H5].
Qed.

(** A command name [_safe_cmd] does not know is ignored, connected
    or not: nothing is sent and nothing changes. *)
Lemma unknown_command_ignored {B : Type} `{MopidyWorker.MPDClient B}
    (cmd : string) (args : list pyval) (w : MopidyWorker.worker B) :
  ~ In cmd ["play_pause"; "next"; "previous"; "random"; "repeat"; "load_playlist"] ->
  MopidyWorker._safe_cmd cmd args w = (Ok tt, w).
Proof.
  intros Hn. apply safe_cmd_unknown; intros ->; apply Hn; cbn; tauto.
Qed.

Lemma unknown_command_ignored_witness :
  MopidyWorker._safe_cmd "stop" []
    (snd (MopidyWorker.tick true Scripted.no_parse (MopidyWorker.init Scripted.up_server)))
  = (Ok tt,
     snd (MopidyWorker.tick true Scripted.no_parse (MopidyWorker.init Scripted.up_server))).
Proof.
  apply (unknown_command_ignored "stop" []).
  intros [E | [E | [E | [E | [E | [E | []]]]]]]; discriminate.
Defined.

(** X20: [stop] ends the loop.  It never raises, even when closing the
    connection fails, publishes nothing, and leaves [_running] false, so
    that [run] makes no further tick. *)
Theorem stop_ends_loop {B : Type} `{MopidyWorker.MPDClient B}
    (MPD_AVAILABLE : bool) (float_of_string : string -> option Q)
    (w : MopidyWorker.worker B) (n : nat) :
  fst (MopidyWorker.stop w) = Ok tt
  /\ MopidyWorker._running (snd (MopidyWorker.stop w)) = false
  /\ MopidyWorker.emitted (snd (MopidyWorker.stop w)) = MopidyWorker.emitted w
  /\ MopidyWorker.run MPD_AVAILABLE float_of_string n (snd (MopidyWorker.stop w))
     = snd (MopidyWorker.stop w).
Proof.
  destruct (stop_effect w) as (H1 & H2 & _ & _ & H5).
  repeat split; try assumption. apply run_stopped, H2.
Qed.

(** Over [n] passes of the loop the worker publishes at most [2 n]
    signals, and what was published before stays in place, in order. *)
Lemma run_emits_at_most_two_per_tick {B : Type} `{MopidyWorker.MPDClient B}
    (MPD_AVAILABLE : bool) (float_of_string : string -> option Q)
    (w : MopidyWorker.worker B) (n : nat) :
  exists new,
    MopidyWorker.emitted (MopidyWorker.run MPD_AVAILABLE float_of_string n w)
    = MopidyWorker.emitted w ++ new
    /\ (length new <= 2 * n)%nat.
Proof. apply run_emitted. Qed.

(** X21: a connected worker always has a client object.  This holds for
    a new worker and is kept by every tick, every command and [stop], so
    no call ever goes to a client that is [None]. *)
Theorem connected_worker_has_client {B : Type} `{MopidyWorker.MPDClient B}
    (MPD_AVAILABLE : bool) (float_of_string : string -> option Q)
    (b : B) (w : MopidyWorker.worker B) (cmd : string) (args : list pyval) :
  MopidyWorker.has_client (MopidyWorker.init b)
  /\ (MopidyWorker.has_client w ->
      MopidyWorker.has_client (snd (MopidyWorker.tick MPD_AVAILABLE float_of_string w))
      /\ MopidyWorker.has_client (snd (MopidyWorker._safe_cmd cmd args w))
      /\ MopidyWorker.has_client (snd (MopidyWorker.stop w))).
Proof.
  split; [intros Hc; discriminate |].
  intros Hw. split; [apply tick_client, Hw |]. split.
  - destruct (safe_cmd_effect cmd args w) as (_ & H2 & _ & H4 & _).
    intros Hc. rewrite H2. apply Hw, H4, Hc.
  - destruct (stop_effect w) as (_ & _ & H3 & H4 & _).
    intros Hc. rewrite H3. apply Hw. rewrite <- H4. exact Hc.
Qed.

Lemma connected_worker_has_client_witness :
  MopidyWorker.has_client
    (snd (MopidyWorker.tick true Scripted.no_parse (MopidyWorker.init Scripted.up_server))).
Proof.
  destruct (connected_worker_has_client true Scripted.no_parse Scripted.up_server
              (MopidyWorker.init Scripted.up_server) "next" []) as [Hi Hk].
  apply (Hk Hi).
Defined.

(* ===================================================================== *)
(** ** Further properties of the printer worker *)
(* ===================================================================== *)

(** The printer worker publishes exactly one record per tick,
    whatever the request does; without the [requests] library every one
    of them is the fallback record. *)
Lemma printer_one_record_per_tick (REQUESTS_AVAILABLE : bool)
    (gets : list (result MoonrakerWorker.response)) :
  length (MoonrakerWorker.run REQUESTS_AVAILABLE gets) = length gets
  /\ MoonrakerWorker.run false gets = replicate (length gets) MOCK_PRINTER.
Proof.
  split; [apply length_map |].
  unfold MoonrakerWorker.run. induction gets as [| g gets IH]; [reflexivity |].
  cbn [map length replicate]. rewrite IH. reflexivity.
Qed.

(** X22: an HTTP error status (400 to 599) or a body that is not JSON
    gives the fallback record, whatever else the response holds. *)
Theorem http_error_gives_fallback (REQUESTS_AVAILABLE : bool)
    (r : MoonrakerWorker.response) :
  (400 <= MoonrakerWorker.status_code r < 600)%Z \/ MoonrakerWorker.json r = None ->
  MoonrakerWorker._poll REQUESTS_AVAILABLE (Ok r) = MOCK_PRINTER.
Proof.
  intros Hbad. unfold MoonrakerWorker._poll.
  destruct REQUESTS_AVAILABLE; [| reflexivity]. cbn [negb].
  unfold MoonrakerWorker.poll_body. cbn [mbind result_bind].
  unfold MoonrakerWorker.raise_for_status.
  destruct ((400 <=? MoonrakerWorker.status_code r)
            && (MoonrakerWorker.status_code r <? 600))%Z eqn:E; [reflexivity |].
  destruct Hbad as [Hc | Hj].
  - apply andb_false_iff in E. destruct E as [E | E];
      [apply Z.leb_gt in E | apply Z.ltb_ge in E]; lia.
  - unfold MoonrakerWorker.json_. rewrite Hj. reflexivity.
Qed.

Lemma http_error_gives_fallback_witness :
  MoonrakerWorker._poll true
    (Ok {| MoonrakerWorker.status_code := 404;
           MoonrakerWorker.json :=
             Some (PDict {[ "result" := PDict {[ "status" := PDict ∅ ]} ]}) |})
  = MOCK_PRINTER.
Proof.
  apply (http_error_gives_fallback true). left. cbn. lia.
Defined.

(** X23: one sub-object of the wrong shape costs the whole record.  If
    print_stats, extruder or heater_bed is present but is not a mapping
    (null, a number, a list), normalization raises and the worker
    publishes the fallback record, the readable fields being lost too. *)
Theorem non_mapping_sub_object_gives_fallback (m : gmap string pyval)
    (k : string) (v : pyval) (r : MoonrakerWorker.response) (body res : pyval) :
  k = "print_stats" \/ k = "extruder" \/ k = "heater_bed" ->
  m !! k = Some v -> (forall d, v <> PDict d) ->
  MoonrakerWorker.json r = Some body ->
  Py_obj.item body "result" = Ok res ->
  Py_obj.item res "status" = Ok (PDict m) ->
  MoonrakerWorker.normalize (PDict m) = Raise AttributeError
  /\ MoonrakerWorker._poll true (Ok r) = MOCK_PRINTER.
Proof.
  intros Hk Hv Hnd Hj Hres Hdata.
  assert (Hget : Py_obj.dict_get m k (PDict ∅) = v)
    by (unfold Py_obj.dict_get; rewrite Hv; reflexivity).
  assert (Hn : MoonrakerWorker.normalize (PDict m) = Raise AttributeError).
  { unfold MoonrakerWorker.normalize. cbn [Py_obj.get mbind result_bind].
    destruct Hk as [-> | [-> | ->]]; rewrite Hget;
      (destruct v as [| ? | ? | ? | ? | d];
       [| | | | | exfalso; apply (Hnd d); reflexivity]);
      repeat match goal with
      | |- context [Py_obj.dict_get m ?k' ?d] =>
          destruct (Py_obj.dict_get m k' d)
      end; reflexivity. }
  split; [exact Hn |].
  unfold MoonrakerWorker._poll, MoonrakerWorker.poll_body.
  cbn [negb mbind result_bind].
  destruct (MoonrakerWorker.raise_for_status r); [| reflexivity].
  unfold MoonrakerWorker.json_. rewrite Hj. cbn [mbind result_bind].
  rewrite Hres. cbn [mbind result_bind]. rewrite Hdata. cbn [mbind result_bind].
  rewrite Hn. reflexivity.
Qed.

Lemma non_mapping_sub_object_gives_fallback_witness :
  let m : gmap string pyval :=
    {[ "print_stats" := PDict {[ "state" := PStr "printing" ]};
       "extruder" := PNone ]} in
  MoonrakerWorker._poll true
    (Ok {| MoonrakerWorker.status_code := 200;
           MoonrakerWorker.json :=
             Some (PDict {[ "result" := PDict {[ "status" := PDict m ]} ]}) |})
  = MOCK_PRINTER.
Proof.
  intros m.
  assert (Hv : m !! "extruder" = Some PNone) by reflexivity.
  assert (Hres : Py_obj.item (PDict {[ "result" := PDict {[ "status" := PDict m ]} ]})
                   "result" = Ok (PDict {[ "status" := PDict m ]})) by reflexivity.
  assert (Hdata : Py_obj.item (PDict {[ "status" := PDict m ]}) "status"
                  = Ok (PDict m)) by reflexivity.
  destruct (non_mapping_sub_object_gives_fallback m "extruder" PNone
              {| MoonrakerWorker.status_code := 200;
                 MoonrakerWorker.json :=
                   Some (PDict {[ "result" := PDict {[ "status" := PDict m ]} ]}) |}
              (PDict {[ "result" := PDict {[ "status" := PDict m ]} ]})
              (PDict {[ "status" := PDict m ]}))
    as [_ Hp]; try assumption; try reflexivity.
  - right. left. reflexivity.
  - intros d. discriminate.
Defined.

(** X24: fields that are present pass through as they are.  The worker
    does not check or convert them: whatever value print_stats holds for
    state or progress, and extruder and heater_bed for temperature and
    target, is the value of the record. *)
Theorem printer_fields_pass_through (m s e b : gmap string pyval)
    (v : pyval) :
  Py_obj.dict_get m "print_stats" (PDict ∅) = PDict s ->
  Py_obj.dict_get m "extruder" (PDict ∅) = PDict e ->
  Py_obj.dict_get m "heater_bed" (PDict ∅) = PDict b ->
  exists r : printer,
    MoonrakerWorker.normalize (PDict m) = Ok r
    /\ (s !! "state" = Some v -> state r = v)
    /\ (s !! "progress" = Some v -> progress r = v)
    /\ (e !! "temperature" = Some v -> hotend_temp r = v)
    /\ (e !! "target" = Some v -> hotend_target r = v)
    /\ (b !! "temperature" = Some v -> bed_temp r = v)
    /\ (b !! "target" = Some v -> bed_target r = v).
Proof.
  intros Hs He Hb. eexists.
  split; [apply (normalize_dict m s e b Hs He Hb) |].
  cbn [state progress hotend_temp hotend_target bed_temp bed_target].
  unfold Py_obj.dict_get.
  repeat split; intros ->; reflexivity.
Qed.

Lemma printer_fields_pass_through_witness :
  let m : gmap string pyval :=
    {[ "print_stats" := PDict {[ "state" := PStr "complete" ]} ]} in
  exists r : printer,
    MoonrakerWorker.normalize (PDict m) = Ok r /\ state r = PStr "complete".
Proof.
  intros m.
  destruct (printer_fields_pass_through m {[ "state" := PStr "complete" ]} ∅ ∅
              (PStr "complete") eq_refl eq_refl eq_refl)
    as (r & Hr & Hst & _).
  exists r. split; [exact Hr | apply Hst; reflexivity].
Defined.

(* ===================================================================== *)
(** ** The playlist view *)
(* ===================================================================== *)

Section PlaylistViewFacts.
Import PlaylistView.

Lemma fold_addItem (l : list pyval) (w : list_widget) :
  fold_left (fun w pl => addItem pl w) l w
  = {| items := items w ++ l; currentRow := currentRow w |}.
Proof.
  revert w. induction l as [| pl l IH]; intros w.
  - cbn. rewrite app_nil_r. destruct w; reflexivity.
  - cbn [fold_left]. rewrite IH. cbn [addItem items currentRow].
    rewrite <- app_assoc. reflexivity.
Qed.

Lemma update_playlists_eq (playlists : list pyval) (w : list_widget) :
  update_playlists playlists w
  = {| items := playlists;
       currentRow :=
         if ((0 <=? currentRow w) && (currentRow w <? Z.of_nat (length playlists)))%Z
         then currentRow w
         else if negb (Z.of_nat (length playlists) =? 0)%Z then 0%Z else (-1)%Z |}.
Proof.
  unfold update_playlists. rewrite fold_addItem.
  cbn [clear items currentRow app]. unfold count. cbn [items].
  destruct ((0 <=? currentRow w) && (currentRow w <? Z.of_nat (length playlists)))%Z;
    [reflexivity |].
  destruct (negb (Z.of_nat (length playlists) =? 0)%Z); reflexivity.
Qed.

Lemma currentItem_row_ok (w : list_widget) :
  row_ok w ->
  (currentRow w = (-1)%Z /\ currentItem w = None)
  \/ (0 <= currentRow w)%Z /\ exists item, currentItem w = Some item /\ In item (items w).
Proof.
  unfold row_ok, count, currentItem. intros [Hlo Hhi].
  destruct (currentRow w <? 0)%Z eqn:E.
  - apply Z.ltb_lt in E. left. split; [lia | reflexivity].
  - apply Z.ltb_ge in E. right. split; [exact E |].
    destruct (items w !! Z.to_nat (currentRow w)) as [item |] eqn:Hl.
    + exists item. split; [reflexivity |].
      apply list_elem_of_In, list_elem_of_lookup. eauto.
    + apply lookup_ge_None in Hl. lia.
Qed.

Lemma update_playlists_rows (playlists : list pyval) (w : list_widget) :
  items (update_playlists playlists w) = playlists
  /\ row_ok (update_playlists playlists w)
  /\ (playlists <> [] -> (0 <= currentRow (update_playlists playlists w))%Z).
Proof.
  rewrite update_playlists_eq. unfold row_ok, count. cbn [items currentRow].
  assert (Hlen : playlists = [] <-> Z.of_nat (length playlists) = 0%Z).
  { destruct playlists; cbn; split; intros; try reflexivity; try discriminate; lia. }
  destruct ((0 <=? currentRow w) && (currentRow w <? Z.of_nat (length playlists)))%Z
    eqn:E.
  - apply andb_true_iff in E. destruct E as [E1 E2].
    apply Z.leb_le in E1. apply Z.ltb_lt in E2.
    split; [reflexivity |]. split; [lia | intros _; exact E1].
  - destruct (Z.of_nat (length playlists) =? 0)%Z eqn:E0; cbn [negb].
    + apply Z.eqb_eq in E0. split; [reflexivity |].
      split; [lia | intros Hn; exfalso; apply Hn, Hlen, E0].
    + apply Z.eqb_neq in E0. split; [reflexivity |]. split; lia.
Qed.

End PlaylistViewFacts.

(** X25: [update_playlists] shows exactly the playlists it is given and
    always leaves a legal current row: none for an empty list, the row
    that was current before if the new list still has it, and the first
    row otherwise. *)
Theorem update_playlists_selection (playlists : list pyval)
    (w : PlaylistView.list_widget) :
  let w' := PlaylistView.update_playlists playlists w in
  PlaylistView.items w' = playlists
  /\ PlaylistView.row_ok w'
  /\ (playlists = [] -> PlaylistView.currentRow w' = (-1)%Z)
  /\ (playlists <> [] -> (0 <= PlaylistView.currentRow w')%Z)
  /\ ((0 <= PlaylistView.currentRow w < Z.of_nat (length playlists))%Z ->
      PlaylistView.currentRow w' = PlaylistView.currentRow w)
  /\ (~ (0 <= PlaylistView.currentRow w < Z.of_nat (length playlists))%Z ->
      playlists <> [] -> PlaylistView.currentRow w' = 0%Z).
Proof.
  cbn zeta. rewrite update_playlists_eq.
  unfold PlaylistView.row_ok, PlaylistView.count.
  cbn [PlaylistView.items PlaylistView.currentRow].
  assert (Hlen : playlists = [] <-> Z.of_nat (length playlists) = 0%Z).
  { destruct playlists; cbn; split; intros; try reflexivity; try discriminate; lia. }
  destruct ((0 <=? PlaylistView.currentRow w)
            && (PlaylistView.currentRow w <? Z.of_nat (length playlists)))%Z eqn:E.
  - apply andb_true_iff in E. destruct E as [E1 E2].
    apply Z.leb_le in E1. apply Z.ltb_lt in E2.
    split; [reflexivity |]. split; [lia |].
    split; [intros Hn; apply Hlen in Hn; lia |].
    split; [intros _; exact E1 |]. split; [intros _; reflexivity | intros Hn; lia].
  - assert (Hout : ~ (0 <= PlaylistView.currentRow w < Z.of_nat (length playlists))%Z).
    { apply andb_false_iff in E. destruct E as [E | E];
        [apply Z.leb_gt in E | apply Z.ltb_ge in E]; lia. }
    destruct (Z.of_nat (length playlists) =? 0)%Z eqn:E0; cbn [negb].
    + apply Z.eqb_eq in E0.
      split; [reflexivity |]. split; [lia |].
      split; [intros _; reflexivity |].
      split; [intros Hn; exfalso; apply Hn, Hlen, E0 |].
      split; [intros Hin; lia | intros _ Hn; exfalso; apply Hn, Hlen, E0].
    + apply Z.eqb_neq in E0.
      split; [reflexivity |]. split; [lia |].
      split; [intros Hn; apply Hlen in Hn; lia |].
      split; [intros _; lia |].
      split; [intros Hin; lia | intros _ _; reflexivity].
Qed.

Lemma update_playlists_selection_witness :
  PlaylistView.currentRow
    (PlaylistView.update_playlists [PStr "A"; PStr "B"; PStr "C"]
       {| PlaylistView.items := [PStr "A"; PStr "B"];
          PlaylistView.currentRow := 1 |})
  = 1%Z
  /\ PlaylistView.currentRow
       (PlaylistView.update_playlists [PStr "A"]
          {| PlaylistView.items := [PStr "A"; PStr "B"];
             PlaylistView.currentRow := 1 |})
     = 0%Z.
Proof.
  split.
  - destruct (update_playlists_selection [PStr "A"; PStr "B"; PStr "C"]
                {| PlaylistView.items := [PStr "A"; PStr "B"];
                   PlaylistView.currentRow := 1 |})
      as (_ & _ & _ & _ & Hkeep & _).
    apply Hkeep. cbn. lia.
  - destruct (update_playlists_selection [PStr "A"]
                {| PlaylistView.items := [PStr "A"; PStr "B"];
                   PlaylistView.currentRow := 1 |})
      as (_ & _ & _ & _ & _ & Hreset).
    apply Hreset; [cbn; lia | discriminate].
Defined.

(** X26: scrolling stays inside the list.  With a legal current row,
    [scroll_up] and [scroll_down] keep the items and a legal row, move by
    exactly one row where there is one to move to, stop at the first and
    the last row without wrapping, and undo each other away from the
    ends; scrolling down with no current row selects the first item. *)
Theorem scrolling_stays_in_list (w : PlaylistView.list_widget) :
  PlaylistView.row_ok w ->
  PlaylistView.row_ok (PlaylistView.scroll_up w)
  /\ PlaylistView.row_ok (PlaylistView.scroll_down w)
  /\ PlaylistView.items (PlaylistView.scroll_up w) = PlaylistView.items w
  /\ PlaylistView.items (PlaylistView.scroll_down w) = PlaylistView.items w
  /\ PlaylistView.currentRow (PlaylistView.scroll_up w)
     = (if (0 <? PlaylistView.currentRow w)%Z
        then PlaylistView.currentRow w - 1 else PlaylistView.currentRow w)%Z
  /\ PlaylistView.currentRow (PlaylistView.scroll_down w)
     = (if (PlaylistView.currentRow w <? PlaylistView.count w - 1)%Z
        then PlaylistView.currentRow w + 1 else PlaylistView.currentRow w)%Z
  /\ ((PlaylistView.currentRow w < PlaylistView.count w - 1)%Z ->
      (0 <= PlaylistView.currentRow w)%Z ->
      PlaylistView.scroll_up (PlaylistView.scroll_down w) = w).
Proof.
  unfold PlaylistView.row_ok, PlaylistView.scroll_up, PlaylistView.scroll_down,
    PlaylistView.count.
  destruct w as [its r]. cbn [PlaylistView.items PlaylistView.currentRow].
  intros [Hlo Hhi].
  destruct (0 <? r)%Z eqn:E1; destruct (r <? Z.of_nat (length its) - 1)%Z eqn:E2;
    cbn [PlaylistView.setCurrentRow PlaylistView.items PlaylistView.currentRow];
    try apply Z.ltb_lt in E1; try apply Z.ltb_ge in E1;
    try apply Z.ltb_lt in E2; try apply Z.ltb_ge in E2;
    (split; [lia |]); (split; [lia |]); (split; [reflexivity |]);
    (split; [reflexivity |]); (split; [reflexivity |]); (split; [reflexivity |]);
    intros H1 H2; try lia.
  - destruct (0 <? r + 1)%Z eqn:E3; [| apply Z.ltb_ge in E3; lia].
    cbn [PlaylistView.setCurrentRow PlaylistView.items PlaylistView.currentRow].
    replace (r + 1 - 1)%Z with r by lia. reflexivity.
  - destruct (0 <? r + 1)%Z eqn:E3; [| apply Z.ltb_ge in E3; lia].
    cbn [PlaylistView.setCurrentRow PlaylistView.items PlaylistView.currentRow].
    replace (r + 1 - 1)%Z with r by lia. reflexivity.
Qed.

Lemma scrolling_stays_in_list_witness :
  let w := {| PlaylistView.items := [PStr "A"; PStr "B"; PStr "C"];
              PlaylistView.currentRow := 2 |} in
  PlaylistView.row_ok (PlaylistView.scroll_down w)
  /\ PlaylistView.currentRow (PlaylistView.scroll_down w) = 2%Z.
Proof.
  intros w.
  assert (Hw : PlaylistView.row_ok w)
    by (unfold PlaylistView.row_ok, PlaylistView.count, w; cbn; lia).
  destruct (scrolling_stays_in_list w Hw) as (_ & Hd & _ & _ & _ & Hr & _).
  split; [exact Hd | rewrite Hr; reflexivity].
Defined.

(* ===================================================================== *)
(** ** The main window *)
(* ===================================================================== *)

Section WindowFacts.
Import MainWindow.
Context {B : Type} `{MopidyWorker.MPDClient B}.
Context (MPD_AVAILABLE : bool) (float_of_string : string -> option Q).

(** A command sent to a disconnected worker leaves the window as it is. *)
Lemma send_dropped (cmd : string) (args : list pyval) (win : window B) :
  MopidyWorker._connected (mopidy_worker win) = false ->
  send (MopidyWorker._safe_cmd cmd args) win = win.
Proof using Type.
  intros Hc. unfold send, MopidyWorker._safe_cmd. rewrite Hc. cbn [negb snd].
  destruct win; reflexivity.
Qed.

Lemma keyPressEvent_disconnected (k : InputHandler.key) (win : window B) :
  MopidyWorker._connected (mopidy_worker win) = false ->
  mopidy_worker (keyPressEvent k win) = mopidy_worker win
  /\ _current_track (keyPressEvent k win) = _current_track win.
Proof using Type.
  intros Hc. unfold keyPressEvent, InputHandler.handle_key_event.
  destruct k; cbn [InputHandler.KEY_MAP fst on_signal]; try (split; reflexivity).
  - unfold _on_encoder_up. destruct (_current_view win =? VIEW_PLAYLISTS)%Z;
      split; reflexivity.
  - unfold _on_encoder_down. destruct (_current_view win =? VIEW_PLAYLISTS)%Z;
      split; reflexivity.
  - unfold _on_encoder_click. destruct (_current_view win =? VIEW_NOW_PLAYING)%Z;
      [split; reflexivity |].
    destruct (PlaylistView.currentItem (playlist_view win)) as [item |];
      [| split; reflexivity].
    unfold MopidyWorker.play_playlist. rewrite send_dropped by exact Hc.
    split; reflexivity.
  - unfold MopidyWorker.play_pause. rewrite send_dropped by exact Hc.
    split; reflexivity.
  - unfold MopidyWorker.next_track. rewrite send_dropped by exact Hc.
    split; reflexivity.
  - unfold MopidyWorker.prev_track. rewrite send_dropped by exact Hc.
    split; reflexivity.
  - unfold MopidyWorker.shuffle_. rewrite send_dropped by exact Hc.
    split; reflexivity.
  - unfold MopidyWorker.loop. rewrite send_dropped by exact Hc.
    split; reflexivity.
Qed.

Lemma keys_disconnected (keys : list InputHandler.key) (win : window B) :
  MopidyWorker._connected (mopidy_worker win) = false ->
  mopidy_worker (fold_left (fun win k => keyPressEvent k win) keys win)
  = mopidy_worker win.
Proof using Type.
  revert win. induction keys as [| k keys IH]; intros win Hc; [reflexivity |].
  cbn [fold_left].
  destruct (keyPressEvent_disconnected k win Hc) as [Hw _].
  rewrite IH; [exact Hw | rewrite Hw; exact Hc].
Qed.

(** The window after the signals of one tick have been delivered. *)
Lemma worker_tick_cases (win : window B) :
  let w := mopidy_worker win in
  let w' := snd (MopidyWorker.tick MPD_AVAILABLE float_of_string w) in
  let win' := worker_tick MPD_AVAILABLE float_of_string win in
  mopidy_worker win' = w'
  /\ _current_view win' = _current_view win
  /\ ((MopidyWorker.emitted w' = MopidyWorker.emitted w
       /\ _current_track win' = _current_track win
       /\ now_playing win' = now_playing win
       /\ playlist_view win' = playlist_view win)
      \/ (exists t l,
            MopidyWorker.emitted w'
            = MopidyWorker.emitted w ++ [MopidyWorker.track_updated t;
                                         MopidyWorker.playlists_updated l]
            /\ _current_track win' = t
            /\ now_playing win' = NowPlayingView.update_track t
            /\ playlist_view win'
               = PlaylistView.update_playlists l (playlist_view win))).
Proof.
  cbn zeta. unfold worker_tick.
  destruct (tick_pair MPD_AVAILABLE float_of_string (mopidy_worker win))
    as (new & He & [-> | (t & l & ->)]).
  - rewrite He, drop_app_length. cbn [fold_left].
    split; [reflexivity |]. split; [reflexivity |].
    left. rewrite app_nil_r. repeat split.
  - rewrite He, drop_app_length. cbn [fold_left deliver].
    split; [reflexivity |]. split; [reflexivity |].
    right. exists t, l. repeat split.
Qed.

End WindowFacts.

(** X27: no key reaches the server while the worker is disconnected.
    Whatever keys are pressed, in whatever order and view, the worker, its
    server and the signals it has emitted are afterwards as they were. *)
Theorem keys_while_disconnected {B : Type} `{MopidyWorker.MPDClient B}
    (keys : list InputHandler.key) (win : MainWindow.window B) :
  MopidyWorker._connected (MainWindow.mopidy_worker win) = false ->
  MainWindow.mopidy_worker
    (fold_left (fun win k => MainWindow.keyPressEvent k win) keys win)
  = MainWindow.mopidy_worker win.
Proof. apply keys_disconnected. Qed.

Lemma keys_while_disconnected_witness :
  MainWindow.mopidy_worker
    (fold_left (fun win k => MainWindow.keyPressEvent k win)
       [InputHandler.Key_1; InputHandler.Key_4; InputHandler.Key_Return;
        InputHandler.Key_Return; InputHandler.Key_2]
       (MainWindow.init Scripted.up_server))
  = MopidyWorker.init Scripted.up_server.
Proof.
  apply (keys_while_disconnected
           [InputHandler.Key_1; InputHandler.Key_4; InputHandler.Key_Return;
            InputHandler.Key_Return; InputHandler.Key_2]
           (MainWindow.init Scripted.up_server)).
  reflexivity.
Defined.

Section SlotFacts.
Import MainWindow.
Context {B : Type} `{MopidyWorker.MPDClient B}.
Context (MPD_AVAILABLE : bool) (float_of_string : string -> option Q).






End SlotFacts.



(** X29: with the backend out of reach the window shows the fallback.
    After a tick of a disconnected worker whose connection attempt fails,
    the current track is the mock track, the playlist view lists the mock
    playlists with one of them current, and the worker is still
    disconnected. *)
Theorem unreachable_backend_shows_fallback {B : Type} `{MopidyWorker.MPDClient B}
    (MPD_AVAILABLE : bool) (float_of_string : string -> option Q)
    (win : MainWindow.window B) :
  MopidyWorker._connected (MainWindow.mopidy_worker win) = false ->
  MPD_AVAILABLE = false
  \/ (exists e, fst (MopidyWorker.connect
                       (MopidyWorker.server (MainWindow.mopidy_worker win)))
                = Raise e) ->
  let win' := MainWindow.worker_tick MPD_AVAILABLE float_of_string win in
  MainWindow._current_track win' = MOCK_TRACK
  /\ MainWindow.now_playing win' = NowPlayingView.update_track MOCK_TRACK
  /\ PlaylistView.items (MainWindow.playlist_view win') = MOCK_PLAYLISTS
  /\ (0 <= PlaylistView.currentRow (MainWindow.playlist_view win') < 7)%Z
  /\ MopidyWorker._connected (MainWindow.mopidy_worker win') = false.
Proof.
  intros Hc Hf. cbn zeta.
  destruct (tick_connect_fails MPD_AVAILABLE float_of_string _ Hc Hf) as [Hd He].
  destruct (worker_tick_cases MPD_AVAILABLE float_of_string win)
    as (Hw & _ & [(Hsame & _) | (t & l & He' & Ht & Hn & Hp)]).
  - rewrite He in Hsame.
    apply (f_equal (@length _)) in Hsame. rewrite length_app in Hsame.
    cbn in Hsame. lia.
  - rewrite He in He'. apply app_inv_head in He'.
    injection He' as <- <-.
    destruct (update_playlists_rows MOCK_PLAYLISTS (MainWindow.playlist_view win))
      as (Hi & Hr & Hpos).
    rewrite Hp, Hw.
    split; [exact Ht |]. split; [exact Hn |]. split; [exact Hi |].
    split; [| exact Hd].
    unfold PlaylistView.row_ok, PlaylistView.count in Hr. rewrite Hi in Hr.
    split; [apply Hpos; discriminate | exact (proj2 Hr)].
Qed.

Lemma unreachable_backend_shows_fallback_witness :
  let win' := MainWindow.worker_tick true Scripted.no_parse
                (MainWindow.init Scripted.down_server) in
  MainWindow._current_track win' = MOCK_TRACK
  /\ PlaylistView.items (MainWindow.playlist_view win') = MOCK_PLAYLISTS.
Proof.
  intros win'.
  assert (Hc : MopidyWorker._connected
                 (MainWindow.mopidy_worker (MainWindow.init Scripted.down_server))
               = false) by reflexivity.
  assert (Hf : true = false
               \/ exists e,
                    fst (MopidyWorker.connect
                           (MopidyWorker.server
                              (MainWindow.mopidy_worker
                                 (MainWindow.init Scripted.down_server))))
                    = Raise e)
    by (right; exists ConnectionError; reflexivity).
  destruct (unreachable_backend_shows_fallback true Scripted.no_parse
              (MainWindow.init Scripted.down_server) Hc Hf)
    as (Ht & _ & Hi & _).
  split; [exact Ht | exact Hi].
Defined.

(* ===================================================================== *)
(** ** The free-will anchor file *)
(* ===================================================================== *)

(** X30: the anchor survives a restart.  When the file is missing or
    does not hold a number, the first start takes the current time as
    anchor and writes it; if the file can be written and [float] reads
    back what [str] printed, every later start, at whatever time, gets the
    same anchor and leaves the file alone.  A file that cannot be written
    is left as it is and the start still succeeds with the current time. *)
Theorem anchor_survives_restart
    (float_of_string : string -> option Q) (strip : string -> string)
    (str_of_float : Q -> string) (now now' : Q) (f : MainWindow.anchor_file) :
  let init := MainWindow.init_anchor float_of_string strip str_of_float in
  match MainWindow.content f with
  | Some c => float_of_string (strip c) = None
  | None => True
  end ->
  float_of_string (strip (str_of_float now)) = Some now ->
  fst (init now f) = now
  /\ (MainWindow.writable f = true ->
      init now' (snd (init now f)) = (now, snd (init now f)))
  /\ (MainWindow.writable f = false -> snd (init now f) = f).
Proof.
  cbn zeta. intros Hbad Hround.
  unfold MainWindow.init_anchor, MainWindow._load_fw_anchor.
  assert (Hload : (match MainWindow.content f with
                   | Some c =>
                       match float_of_string (strip c) with
                       | Some a => (a, f)
                       | None => (now, MainWindow._save_fw_anchor str_of_float now f)
                       end
                   | None => (now, MainWindow._save_fw_anchor str_of_float now f)
                   end) = (now, MainWindow._save_fw_anchor str_of_float now f)).
  { destruct (MainWindow.content f) as [c |]; [rewrite Hbad |]; reflexivity. }
  rewrite Hload. cbn [fst snd]. split; [reflexivity |].
  unfold MainWindow._save_fw_anchor. split.
  - intros Hw. rewrite Hw. cbn [MainWindow.content]. rewrite Hround. reflexivity.
  - intros Hw. rewrite Hw. reflexivity.
Qed.

Lemma anchor_survives_restart_witness :
  let parse := fun s : string => if String.eqb s "1700000000.0"
                                 then Some 1700000000 else None in
  let show := fun _ : Q => "1700000000.0" in
  let init := MainWindow.init_anchor parse (fun s => s) show in
  let f := {| MainWindow.content := Some "garbage"; MainWindow.writable := true |} in
  fst (init 1700000000 f) = 1700000000
  /\ init 1800000000 (snd (init 1700000000 f)) = (1700000000, snd (init 1700000000 f)).
Proof.
  intros parse show init f.
  assert (Hbad : match MainWindow.content f with
                 | Some c => parse c = None
                 | None => True
                 end) by reflexivity.
  assert (Hround : parse (show 1700000000) = Some 1700000000) by reflexivity.
  destruct (anchor_survives_restart parse (fun s => s) show
              1700000000 1800000000 f Hbad Hround) as (H1 & H2 & _).
  split; [exact H1 | apply H2; reflexivity].
Defined.

(** A file that holds a number decides the anchor.  The start time
    plays no part and the file is not written. *)
Theorem valid_anchor_file_wins
    (float_of_string : string -> option Q) (strip : string -> string)
    (str_of_float : Q -> string) (now a : Q) (c : string)
    (f : MainWindow.anchor_file) :
  MainWindow.content f = Some c ->
  float_of_string (strip c) = Some a ->
  MainWindow.init_anchor float_of_string strip str_of_float now f = (a, f).
Proof.
  intros Hc Hp. unfold MainWindow.init_anchor, MainWindow._load_fw_anchor.
  rewrite Hc, Hp. reflexivity.
Qed.

(** The encoder in the two views.  In the now-playing view turning
    the encoder changes nothing and a click opens the playlist view; in
    the playlist view a click always goes back to now-playing, and what
    it sends to the worker is [play_playlist] of the current item when
    there is one and nothing otherwise. *)
Lemma encoder_views {B : Type} `{MopidyWorker.MPDClient B}
    (win : MainWindow.window B) :
  (MainWindow._current_view win = MainWindow.VIEW_NOW_PLAYING ->
   MainWindow._on_encoder_up win = win
   /\ MainWindow._on_encoder_down win = win
   /\ MainWindow._current_view (MainWindow._on_encoder_click win)
      = MainWindow.VIEW_PLAYLISTS
   /\ MainWindow.mopidy_worker (MainWindow._on_encoder_click win)
      = MainWindow.mopidy_worker win)
  /\ (MainWindow._current_view win = MainWindow.VIEW_PLAYLISTS ->
      MainWindow._current_view (MainWindow._on_encoder_click win)
      = MainWindow.VIEW_NOW_PLAYING
      /\ MainWindow.mopidy_worker (MainWindow._on_encoder_click win)
         = match PlaylistView.currentItem (MainWindow.playlist_view win) with
           | Some item =>
               snd (MopidyWorker.play_playlist item (MainWindow.mopidy_worker win))
           | None => MainWindow.mopidy_worker win
           end
      /\ MainWindow.playlist_view (MainWindow._on_encoder_click win)
         = MainWindow.playlist_view win).
Proof.
  split; intros Hv.
  - unfold MainWindow._on_encoder_up, MainWindow._on_encoder_down,
      MainWindow._on_encoder_click. rewrite Hv. cbn. repeat split.
  - unfold MainWindow._on_encoder_click. rewrite Hv. cbn [Z.eqb].
    change (MainWindow.VIEW_PLAYLISTS =? MainWindow.VIEW_NOW_PLAYING)%Z with false.
    destruct (PlaylistView.currentItem (MainWindow.playlist_view win)); repeat split.
Qed.

Lemma safe_cmd_only_disconnects_witness :
  let w := snd (MopidyWorker.tick true Scripted.no_parse
                  (MopidyWorker.init Scripted.up_server)) in
  MopidyWorker._connected (snd (MopidyWorker._safe_cmd "next" [] w)) = true
  /\ MopidyWorker.emitted (snd (MopidyWorker._safe_cmd "next" [] w))
     = MopidyWorker.emitted w.
Proof.
  intros w.
  destruct (safe_cmd_only_disconnects "next" [] w) as (_ & _ & _ & He & Hc).
  split; [| exact He].
  apply Hc. split; reflexivity.
Defined.
